(** * lz-app: cross-chain transfer front end and status routes

    A shallow embedding of the parts of the application that carry the
    behaviour of the send flow, the status poll and the API routes:

    - [src/unnamed/part_003] (the page component): [getStatusRank], the
      poll [tick] with its two rank merges, the rendered status label,
      [sendCrossChain], [saveToHistory] and the chain id lookups;
    - [src/next.config.ts] (the contract helpers): [addressToBytes32],
      [buildSendParam], [decodeOftError];
    - [src/unnamed/part_002] (the configuration): [getNetworksConfig],
      [getNetworkConfig], [getNetworkKeys], [getSupportedPairs],
      [getTokensConfig];
    - [src/src/app/api/lz-status-onchain/route.ts]: the packet
      correlator, and the fee estimate route that follows it;
    - [src/src/app/api/agg-status/route.ts]: the aggregator proxy;
    - [src/src/app/api/lz-status/route.ts]: the scanner route;
    - [src/unnamed/part_004]: the presence-only diagnostics.

    JavaScript strings are modelled as [string] (a list of bytes, UTF-8),
    bigints and the integral numbers the code handles (block numbers,
    chain ids, endpoint ids, HTTP status codes) as [Z], [process.env] as a
    finite map from variable names to values, and every awaited call on
    the outside world (RPC, fetch, wallet) as an explicit input that is
    either a value or a thrown error. Values read from the environment
    and from JSON are taken at their declared types. *)

From Stdlib Require Import ZArith String Ascii List Bool Lia Permutation.
From stdpp Require Import base option list strings gmap.
Import ListNotations.

Local Open Scope string_scope.
Local Open Scope Z_scope.

(** ** JavaScript helpers *)

Module Js.

(** [a || b] on an optional string: [null], [undefined] and the empty
    string are falsy. *)
Definition truthy (s : option string) : bool :=
  match s with
  | Some EmptyString => false
  | Some _ => true
  | None => false
  end.

Definition or_else (s : option string) (d : string) : string :=
  match s with
  | Some EmptyString => d
  | Some x => x
  | None => d
  end.

(** [a || b] where [b] may itself be absent. *)
Definition or_opt (a b : option string) : option string :=
  if truthy a then a else b.

(** The property names every plain object inherits from
    [Object.prototype]: indexing an object that has no such key of its
    own by one of them yields the inherited value, not [undefined]. *)
Definition inherited (k : string) : bool :=
  existsb (String.eqb k)
    ["constructor"; "__proto__"; "hasOwnProperty"; "isPrototypeOf";
     "propertyIsEnumerable"; "toLocaleString"; "toString"; "valueOf";
     "__defineGetter__"; "__defineSetter__"; "__lookupGetter__";
     "__lookupSetter__"].

(** [a ?? b]. *)
Definition nullish {A} (a : option A) (d : A) : A :=
  match a with Some x => x | None => d end.

Definition lower_ascii (c : ascii) : ascii :=
  let n := N_of_ascii c in
  if ((65 <=? n) && (n <=? 90))%N then ascii_of_N (n + 32) else c.

(** [String.prototype.toLowerCase] on the ASCII letters. The only other
    code point that lower-cases to an ASCII letter is U+212A (to [k]);
    no string compared against in this development is affected by it
    except ["unknown"], whose rank is the default one. *)
Fixpoint toLowerCase (s : string) : string :=
  match s with
  | EmptyString => EmptyString
  | String c r => String (lower_ascii c) (toLowerCase r)
  end.

(** [s.includes(sub)]. *)
Fixpoint includes (sub s : string) : bool :=
  if String.prefix sub s then true
  else match s with
       | EmptyString => false
       | String _ r => includes sub r
       end.

(** [s.slice(n)] for [n >= 0]. *)
Fixpoint slice_from (n : nat) (s : string) : string :=
  match n, s with
  | O, _ => s
  | S _, EmptyString => EmptyString
  | S k, String _ r => slice_from k r
  end.

Fixpoint repeat_char (c : ascii) (n : nat) : string :=
  match n with
  | O => EmptyString
  | S k => String c (repeat_char c k)
  end.

(** [s.padStart(n, c)] with a one-character pad. *)
Definition padStart (n : nat) (c : ascii) (s : string) : string :=
  repeat_char c (n - String.length s) +:+ s.

(** [arr.indexOf(x)], [-1] when absent. *)
Fixpoint indexOf_from (i : Z) (x : string) (l : list string) : Z :=
  match l with
  | [] => -1
  | y :: r => if String.eqb y x then i else indexOf_from (i + 1) x r
  end.

Definition indexOf (x : string) (l : list string) : Z := indexOf_from 0 x l.

(** A property that is read as a message: absent, a string, or some other
    truthy value. *)
Inductive msgval :=
| MAbsent
| MStr (s : string)
| MOther.

(** The error objects the code inspects: [e.message],
    [e.info.error.data.message] and the revert payload [e.data]. *)
Record Err := {
  message : option string;
  nested_message : msgval;
  data : option string;
}.

(** [new Error(msg)]. *)
Definition mkError (msg : string) : Err :=
  {| message := Some msg; nested_message := MAbsent; data := None |}.

(** The result of an awaited call or of a call that may throw. *)
Inductive attempt (A : Type) : Type :=
| Value (a : A)
| Throws (e : Err).
Arguments Value {A} a.
Arguments Throws {A} e.

(** [p.catch(() => d)]. *)
Definition catch_default {A} (r : attempt A) (d : A) : A :=
  match r with Value a => a | Throws _ => d end.

(** BigInt division truncates toward zero. *)
Definition bigint_div (a b : Z) : Z := Z.quot a b.

End Js.

(** ** Status reconciliation (page component) *)

Module Status.

Definition order : list string :=
  ["unknown"; "sent"; "dvn_verifying"; "committed"; "executing"; "executed"].

(** [getStatusRank]. *)
Definition getStatusRank (s : option string) : Z :=
  let idx := Js.indexOf (Js.toLowerCase (Js.or_else s "unknown")) order in
  if idx =? -1 then 0 else idx.

(** The aggregator's status object, [AggStatus]. *)
Record AggStep := {
  step_name : string;
  step_done : bool;
  step_txHash : option string;
  step_chainId : option Z;
  step_timestamp : option Z;
}.

Record AggStatus := {
  guid : option string;
  srcChainId : option Z;
  dstChainId : option Z;
  currentStatus : option string;
  steps : option (list AggStep);
}.

(** The worker status kept in [lzWorkerStatus]. *)
Record WorkerStatus := {
  stage : string;
  networkBase : option string;
  dvn : option string;
  sealer : option string;
  dest : option string;
  dstTx : option string;
}.

(** The fields [tick] reads from the JSON of [/api/lz-status-onchain] or
    [/api/lz-status]. *)
Record WorkerJson := {
  j_stage : option string;
  j_networkBase : option string;
  j_dvn_status : option string;
  j_sealer_status : option string;
  j_dest_status : option string;
  j_dest_tx_txHash : option string;
  j_dest_txHash : option string;
}.

(** [prev?.currentStatus] and [prev?.stage]. *)
Definition agg_stage (a : option AggStatus) : option string :=
  match a with Some x => currentStatus x | None => None end.

Definition worker_stage (w : option WorkerStatus) : option string :=
  match w with Some x => Some (stage x) | None => None end.

(** The updater passed to [setAggStatus]; [json] is the decoded body,
    [None] when the body is the JSON [null]. *)
Definition mergeAgg (json : option AggStatus) (prev : option AggStatus)
  : option AggStatus :=
  let prevRank := getStatusRank (agg_stage prev) in
  let newRank := getStatusRank (agg_stage json) in
  match prev with
  | None => json
  | Some _ => if newRank >=? prevRank then json else prev
  end.

(** The updater passed to [setLzWorkerStatus] on a successful fetch. *)
Definition mergeWorker (next : WorkerStatus) (prev : option WorkerStatus)
  : option WorkerStatus :=
  let prevRank := getStatusRank (worker_stage prev) in
  let newRank := getStatusRank (Some (stage next)) in
  match prev with
  | None => Some next
  | Some _ => if newRank >=? prevRank then Some next else prev
  end.

Definition unknownWorker : WorkerStatus :=
  {| stage := "unknown"; networkBase := None; dvn := None; sealer := None;
     dest := None; dstTx := None |}.

(** [prev || { stage: 'unknown' }], the updater used on a failed fetch. *)
Definition keepWorker (prev : option WorkerStatus) : option WorkerStatus :=
  match prev with
  | Some p => Some p
  | None => Some unknownWorker
  end.

(** The object [next] built from the response JSON ([json?.x] on a [null]
    body reads [undefined] everywhere). *)
Definition nextOfJson (json : option WorkerJson) : WorkerStatus :=
  match json with
  | None => unknownWorker
  | Some j =>
      {| stage := Js.or_else (j_stage j) "unknown";
         networkBase := Js.or_opt (j_networkBase j) None;
         dvn := j_dvn_status j;
         sealer := j_sealer_status j;
         dest := j_dest_status j;
         dstTx := match j_dest_tx_txHash j with
                  | Some t => Some t
                  | None => j_dest_txHash j
                  end |}
  end.

(** The outcome of one [fetch] followed by [res.json()]. *)
Inductive fetched (A : Type) : Type :=
| NetworkError                       (* fetch rejected *)
| NotOk (status : Z)                 (* res.ok is false *)
| DecodeError                        (* res.json() rejected *)
| Ok200 (json : option A).           (* decoded body; None is null *)
Arguments NetworkError {A}.
Arguments NotOk {A} status.
Arguments DecodeError {A}.
Arguments Ok200 {A} json.


(** The state one poll effect owns for its transaction hash. *)
Record PollState := {
  aggStatus : option AggStatus;
  lzWorkerStatus : option WorkerStatus;
  stopped : bool;
}.

Definition initial : PollState :=
  {| aggStatus := None; lzWorkerStatus := None; stopped := false |}.

Definition is_executed (s : option string) : bool :=
  match s with Some x => String.eqb x "executed" | None => false end.

(** One run of [tick]: the aggregator request in its own [try], then the
    on-chain or scanner request under the outer [try]. *)
Definition tick (agg : fetched AggStatus) (wk : fetched WorkerJson)
    (st : PollState) : PollState :=
  let st1 :=
    match agg with
    | Ok200 json =>
        {| aggStatus := mergeAgg json (aggStatus st);
           lzWorkerStatus := lzWorkerStatus st;
           stopped := stopped st || is_executed (agg_stage json) |}
    | _ => st
    end in
  let w :=
    match wk with
    | NetworkError | DecodeError => keepWorker (lzWorkerStatus st1)
    | NotOk _ => keepWorker (lzWorkerStatus st1)
    | Ok200 json => mergeWorker (nextOfJson json) (lzWorkerStatus st1)
    end in
  {| aggStatus := aggStatus st1; lzWorkerStatus := w; stopped := stopped st1 |}.

(** The interval callback: [if (!stopped) tick()]. *)
Definition interval (agg : fetched AggStatus) (wk : fetched WorkerJson)
    (st : PollState) : PollState :=
  if stopped st then st else tick agg wk st.

(** The effect body: one immediate [tick], then the interval callbacks. *)
Definition poll_from (st : PollState)
    (ticks : list (fetched AggStatus * fetched WorkerJson)) : PollState :=
  fold_left (fun s i => interval (fst i) (snd i) s) ticks st.

Definition poll (first : fetched AggStatus * fetched WorkerJson)
    (ticks : list (fetched AggStatus * fetched WorkerJson)) : PollState :=
  poll_from (tick (fst first) (snd first) initial) ticks.

(** The stage the page shows for the worker: [lzWorkerStatus?.stage || 'unknown']. *)
Definition shownStage (w : option WorkerStatus) : string :=
  Js.or_else (worker_stage w) "unknown".

(** Feeding a sequence of fetched statuses through the worker merge. *)
Definition mergeAll (prev : option WorkerStatus) (l : list WorkerStatus)
  : option WorkerStatus :=
  fold_left (fun p n => mergeWorker n p) l prev.

Definition rank_of (w : WorkerStatus) : Z := getStatusRank (Some (stage w)).

Definition aggRank (st : PollState) : Z := getStatusRank (agg_stage (aggStatus st)).
Definition workerRank (st : PollState) : Z :=
  getStatusRank (worker_stage (lzWorkerStatus st)).

(** Feeding a sequence of decoded aggregator bodies through the merge. *)
Definition mergeAllAgg (prev : option AggStatus) (l : list (option AggStatus))
  : option AggStatus :=
  fold_left (fun p n => mergeAgg n p) l prev.

(** The statuses a merged sequence can end on. *)
Definition candidates (prev : option WorkerStatus) (l : list WorkerStatus)
  : list WorkerStatus :=
  match prev with Some p => p :: l | None => l end.

(** Both updaters have one shape: keep [prev] unless there is none or the
    new rank is at least the old one. *)
Section RankMerge.
Context {A : Type} (rk : option A -> Z).

Definition rankMerge (next prev : option A) : option A :=
  match prev with
  | None => next
  | Some _ => if rk next >=? rk prev then next else prev
  end.

Definition rankMergeAll (prev : option A) (l : list (option A)) : option A :=
  fold_left (fun p n => rankMerge n p) l prev.

End RankMerge.

(** The rank of what each slot holds. *)
Definition rkAgg (a : option AggStatus) : Z := getStatusRank (agg_stage a).
Definition rkWorker (w : option WorkerStatus) : Z := getStatusRank (worker_stage w).

(** Statuses used in the examples below. *)
Definition withStage (s : string) : WorkerStatus :=
  {| stage := s; networkBase := None; dvn := None; sealer := None;
     dest := None; dstTx := None |}.

Definition jsonWithStage (s : string) : WorkerJson :=
  {| j_stage := Some s; j_networkBase := None; j_dvn_status := None;
     j_sealer_status := None; j_dest_status := None;
     j_dest_tx_txHash := None; j_dest_txHash := None |}.

Definition aggWithStatus (s : string) : AggStatus :=
  {| guid := None; srcChainId := None; dstChainId := None;
     currentStatus := Some s; steps := None |}.

End Status.

(** ** Configuration ([src/unnamed/part_002]) *)

Module Config.

Abbreviation env := (gmap string string).

Record NetworkConfig := {
  name : string;
  chainId : Z;
  rpcHttp : string;
  rpcWs : option string;
  eid : Z;
  endpointV2 : string;
  dvn : string;
  executor : string;
  lzExecutor : string;
  oft : string;
  priceFeed : string;
  receiveUln : string;
  sendUln : string;
  treasury : string;
  explorerTxBase : option string;
}.

(** [NetworksConfig]: an object keyed by network key, in key order. *)
Abbreviation NetworksConfig := (list (string * NetworkConfig)).

Record TokenConfig := {
  id : string;
  symbol : string;
  token_name : string;
  addresses : gmap string string;
  nativeAdapter : option bool;
}.

Section WithParsers.

(** [Number(v)] when the result is finite, on the integral values the
    configuration holds; [None] for NaN and the infinities. *)
Variable Number_ : string -> option Z.

(** [JSON.parse] of the [NEXT_PUBLIC_NETWORKS_CONFIG] blob at its declared
    type; [None] when it throws. *)
Variable parseNetworksJson : string -> option NetworksConfig.

Definition parseNum (v : option string) : option Z :=
  if Js.truthy v then
    match v with Some s => Number_ s | None => None end
  else None.

(** [!n] on an optional number: [undefined] and [0] are falsy. *)
Definition num_truthy (n : option Z) : bool :=
  match n with Some k => negb (k =? 0) | None => false end.

(** [buildHii] and [buildSepolia] read the same fifteen variables under
    their own prefix. *)
Definition buildFrom (prefix : string) (e : env) : option NetworkConfig :=
  let rd (k : string) := e !! (prefix +:+ k) in
  let name := rd "NAME" in
  let chainId := parseNum (rd "CHAIN_ID") in
  let rpcHttp := rd "RPC_HTTP" in
  let rpcWs := rd "RPC_WS" in
  let eid := parseNum (rd "EID") in
  let endpointV2 := rd "ENDPOINT_V2" in
  let dvn := rd "DVN" in
  let executor := rd "EXECUTOR" in
  let lzExecutor := rd "LZ_EXECUTOR" in
  let oft := rd "OFT" in
  let priceFeed := rd "PRICE_FEED" in
  let receiveUln := rd "RECEIVE_ULN" in
  let sendUln := rd "SEND_ULN" in
  let treasury := rd "TREASURY" in
  let explorerTxBase := rd "EXPLORER_TX_BASE" in
  if negb (Js.truthy name) || negb (num_truthy chainId)
     || negb (Js.truthy rpcHttp) || negb (num_truthy eid)
     || negb (Js.truthy endpointV2) || negb (Js.truthy dvn)
     || negb (Js.truthy executor) || negb (Js.truthy lzExecutor)
     || negb (Js.truthy oft) || negb (Js.truthy priceFeed)
     || negb (Js.truthy receiveUln) || negb (Js.truthy sendUln)
     || negb (Js.truthy treasury)
  then None
  else
    match name, chainId, rpcHttp, eid, endpointV2, dvn, executor,
          lzExecutor, oft, priceFeed, receiveUln, sendUln, treasury with
    | Some name, Some chainId, Some rpcHttp, Some eid, Some endpointV2,
      Some dvn, Some executor, Some lzExecutor, Some oft, Some priceFeed,
      Some receiveUln, Some sendUln, Some treasury =>
        Some {| name := name; chainId := chainId; rpcHttp := rpcHttp;
                rpcWs := rpcWs; eid := eid; endpointV2 := endpointV2;
                dvn := dvn; executor := executor; lzExecutor := lzExecutor;
                oft := oft; priceFeed := priceFeed;
                receiveUln := receiveUln; sendUln := sendUln;
                treasury := treasury; explorerTxBase := explorerTxBase |}
    | _, _, _, _, _, _, _, _, _, _, _, _, _ => None
    end.

Definition buildHii : env -> option NetworkConfig := buildFrom "NEXT_PUBLIC_HII_".
Definition buildSepolia : env -> option NetworkConfig :=
  buildFrom "NEXT_PUBLIC_SEPOLIA_".

Definition opt_entry (k : string) (c : option NetworkConfig) : NetworksConfig :=
  match c with Some x => [(k, x)] | None => [] end.

(** [getNetworksConfig]. *)
Definition getNetworksConfig (e : env) : Js.attempt NetworksConfig :=
  let networks := (opt_entry "hii" (buildHii e) ++ opt_entry "sepolia" (buildSepolia e))%list in
  match networks with
  | _ :: _ => Js.Value networks
  | [] =>
      let configStr := e !! "NEXT_PUBLIC_NETWORKS_CONFIG" in
      let notFound :=
        Js.Throws (Js.mkError "No network configuration found in environment variables") in
      if Js.truthy configStr then
        match configStr with
        | Some s =>
            match parseNetworksJson s with
            | Some cfgs => Js.Value cfgs
            | None => notFound
            end
        | None => notFound
        end
      else notFound
  end.

Fixpoint lookup_key {A} (k : string) (l : list (string * A)) : option A :=
  match l with
  | [] => None
  | (k', v) :: r => if String.eqb k' k then Some v else lookup_key k r
  end.

(** [getNetworkConfig], for a key that the configuration owns or that is
    no inherited property name ([Js.inherited]); for an inherited name
    that is not configured the index [networksConfig[networkKey]] yields
    the inherited value, which is no configuration. *)
Definition getNetworkConfig (e : env) (networkKey : string)
  : Js.attempt NetworkConfig :=
  match getNetworksConfig e with
  | Js.Throws err => Js.Throws err
  | Js.Value networksConfig =>
      match lookup_key networkKey networksConfig with
      | Some config => Js.Value config
      | None =>
          Js.Throws (Js.mkError ("Network configuration for " +:+ networkKey +:+ " not found"))
      end
  end.

End WithParsers.

(** [tokens.find(t => t.id === tokenId)]. *)
Definition findToken (tokens : list TokenConfig) (tokenId : string)
  : option TokenConfig :=
  List.find (fun t => String.eqb (id t) tokenId) tokens.

(** [token?.addresses?.[networkKey]], for a network key that is no
    inherited property name ([Js.inherited]). *)
Definition tokenAddress (tokens : list TokenConfig) (tokenId networkKey : string)
  : option string :=
  match findToken tokens tokenId with
  | Some t => addresses t !! networkKey
  | None => None
  end.

End Config.

(** ** Contract helpers ([src/next.config.ts]) *)

Module Contracts.

Record SendParam := {
  dstEid : Z;
  to : string;            (* bytes32 *)
  amountLD : Z;
  minAmountLD : Z;
  extraOptions : string;
  composeMsg : string;
  oftCmd : string;
}.

(** [addressToBytes32]. *)
Definition addressToBytes32 (address : string) : string :=
  "0x" +:+ Js.padStart 64 "0" (Js.slice_from 2 address).

Section WithLib.

Variable Number_ : string -> option Z.
Variable parseNetworksJson : string -> option Config.NetworksConfig.

(** [ethers.parseUnits(value, decimals)]: the amount in base units, or a
    thrown error on a string it does not accept. *)
Variable parseUnits : string -> Z -> Js.attempt Z.

Variable e : Config.env.

(** [buildSendParam]. *)
Definition buildSendParam (srcNetworkKey dstNetworkKey amount receiverAddress : string)
    (decimals : option Z) (extraOptionsOverride : option string)
  : Js.attempt SendParam :=
  match Config.getNetworkConfig Number_ parseNetworksJson e dstNetworkKey with
  | Js.Throws er => Js.Throws er
  | Js.Value dstConfig =>
      let receiverAddressBytes32 := addressToBytes32 receiverAddress in
      match parseUnits amount (Js.nullish decimals 18) with
      | Js.Throws er => Js.Throws er
      | Js.Value parsedAmount =>
          let minAmountLD := Js.bigint_div (parsedAmount * 9900) 10000 in
          Js.Value
            {| dstEid := Config.eid dstConfig;
               to := receiverAddressBytes32;
               amountLD := parsedAmount;
               minAmountLD := minAmountLD;
               extraOptions := Js.nullish extraOptionsOverride "0x";
               composeMsg := "0x";
               oftCmd := "0x" |}
      end
  end.

End WithLib.

End Contracts.

(** ** The send flow ([sendCrossChain] in the page component) *)

Module Send.

Import Contracts.

Record Fee := { nativeFee : Z; lzTokenFee : Z }.

Record Tx := { hash : string }.

Record FeeData := { gasPrice : option Z; maxFeePerGas : option Z }.

(** The object handed to [signer.sendTransaction] in the fallback. *)
Record RawTx := {
  raw_to : string;
  raw_data : string;
  raw_value : Z;
  raw_gasLimit : Z;
  raw_gasPrice : option Z;
  raw_type : Z;
}.

Record HistoryEntry := {
  h_sourceNetwork : string;
  h_destNetwork : string;
  h_amount : string;
  h_receiver : string;
  h_txHash : string;
  h_status : string;
}.

(** What the flow does to the page state and to the outside world, in
    program order. *)
Inductive Event :=
| SetError (s : string)
| SetStatus (s : string)
| SetIsSending (b : bool)
| SetIsSwitching (b : bool)
| SetTxHash (h : string)
| ClearWorkerStatus
| WalletSwitchChain (chainId : Z)
| WalletAddChain (chainId : Z)
| GetSigner
| GetAddress
| CallToken
| CallDecimals (underlying : string)
| CallSEND
| CallEnforcedOptions (dstEid msgType : Z)
| CallCombineOptions (dstEid msgType : Z) (localOptions : string)
| CallQuoteSend (p : SendParam)
| CallSend (p : SendParam) (fee : Fee) (refund : string) (value : Z)
| GetFeeData
| SendTransaction (tx : RawTx)
| SaveToHistory (h : HistoryEntry).

(** How a computation ends: with a value, by an early [return], or by a
    thrown error. *)
Inductive outcome (A : Type) : Type :=
| Val (a : A)
| Ret
| Thr (err : Js.Err).
Arguments Val {A} a.
Arguments Ret {A}.
Arguments Thr {A} err.

Definition M (A : Type) : Type := (list Event * outcome A)%type.

Definition ret {A} (a : A) : M A := ([], Val a).

Definition bind {A B} (m : M A) (k : A -> M B) : M B :=
  match m with
  | (t, Val a) => let '(t', o) := k a in ((t ++ t')%list, o)
  | (t, Ret) => (t, Ret)
  | (t, Thr err) => (t, Thr err)
  end.

#[export] Instance M_ret : MRet M := @ret.
#[export] Instance M_bind : MBind M := fun A B k m => bind m k.

Definition emit (ev : Event) : M unit := ([ev], Val tt).
Definition early {A} : M A := ([], Ret).
Definition throw {A} (err : Js.Err) : M A := ([], Thr err).

Definition lift {A} (r : Js.attempt A) : M A :=
  match r with
  | Js.Value a => ([], Val a)
  | Js.Throws err => ([], Thr err)
  end.

(** An awaited external call: the request is issued, then it resolves or
    rejects. *)
Definition call {A} (ev : Event) (r : Js.attempt A) : M A :=
  emit ev;; lift r.

(** [try { m } catch (err) { h err }]. *)
Definition try_catch {A} (m : M A) (h : Js.Err -> M A) : M A :=
  match m with
  | (t, Thr err) => let '(t', o) := h err in ((t ++ t')%list, o)
  | _ => m
  end.

Definition trace {A} (m : M A) : list Event := fst m.
Definition result {A} (m : M A) : outcome A := snd m.

(** How [wallet_switchEthereumChain] ends. *)
Inductive switchResult :=
| SwitchOk
| SwitchUnknownChain (added : bool)    (* error code 4902, then the add *)
| SwitchRejected.

(** The answers of the wallet, the signer and the token contract. *)
Record World := {
  w_switch : switchResult;
  w_getSigner : Js.attempt unit;
  w_getAddress : Js.attempt string;
  w_token : Js.attempt string;
  w_decimals : string -> Js.attempt Z;
  w_SEND : Js.attempt Z;
  w_enforcedOptions : Z -> Z -> Js.attempt string;
  w_combineOptions : Z -> Z -> string -> Js.attempt string;
  w_quoteSend : SendParam -> Js.attempt Fee;
  w_send : SendParam -> Fee -> string -> Z -> Js.attempt Tx;
  w_getFeeData : Js.attempt FeeData;
  w_sendTransaction : RawTx -> Js.attempt Tx;
  w_target : string;
}.

(** The page state the flow reads. *)
Record Page := {
  sourceNetwork : string;
  destNetwork : string;
  amount : string;
  receiverAddress : string;
  account : string;
  tokenId : string;
  hasEthereum : bool;
  currentChainId : option Z;
  balanceWei : option Z;
  balanceFormatted : string;
  supportedPairs : list (string * string);
  tokens : list Config.TokenConfig;
}.

Definition nonempty (s : string) : bool := Js.truthy (Some s).

Definition isPairSupported (pg : Page) : bool :=
  nonempty (sourceNetwork pg) && nonempty (destNetwork pg)
  && existsb (fun p => String.eqb (fst p) (sourceNetwork pg)
                       && String.eqb (snd p) (destNetwork pg))
             (supportedPairs pg).

Definition usingNativeAdapter (pg : Page) : bool :=
  match Config.findToken (tokens pg) (tokenId pg) with
  | Some t => match Config.nativeAdapter t with Some b => b | None => false end
  | None => false
  end.

(** The string of the given bytes. *)
Definition bytes (l : list N) : string :=
  fold_right (fun n s => String (ascii_of_N n) s) EmptyString l.

(** The white space and line terminators that [String.prototype.trim]
    strips, in UTF-8: U+0009 to U+000D, U+0020, U+00A0, U+1680, U+2000 to
    U+200A, U+2028, U+2029, U+202F, U+205F, U+3000 and U+FEFF. *)
Definition whiteSpace : list string :=
  map bytes
    [ [9]; [10]; [11]; [12]; [13]; [32]; [194; 160]; [225; 154; 128];
      [226; 128; 128]; [226; 128; 129]; [226; 128; 130]; [226; 128; 131];
      [226; 128; 132]; [226; 128; 133]; [226; 128; 134]; [226; 128; 135];
      [226; 128; 136]; [226; 128; 137]; [226; 128; 138];
      [226; 128; 168]; [226; 128; 169]; [226; 128; 175]; [226; 129; 159];
      [227; 128; 128]; [239; 187; 191] ]%N.

(** One leading sequence of [ws], dropped. *)
Definition dropOne (ws : list string) (s : string) : option string :=
  match List.find (fun w => String.prefix w s) ws with
  | Some w => Some (Js.slice_from (String.length w) s)
  | None => None
  end.

Fixpoint stripStart (ws : list string) (fuel : nat) (s : string) : string :=
  match fuel with
  | O => s
  | S k => match dropOne ws s with
           | Some r => stripStart ws k r
           | None => s
           end
  end.

Definition trimStart (s : string) : string :=
  stripStart whiteSpace (String.length s) s.

Definition trimEnd (s : string) : string :=
  String.rev (stripStart (map String.rev whiteSpace) (String.length s) (String.rev s)).

(** [s.trim()]. *)
Definition trim (s : string) : string := trimEnd (trimStart s).

(** ['max'] stands for the whole formatted balance. *)
Definition resolvedAmountOf (pg : Page) : string :=
  if String.eqb (Js.toLowerCase (trim (amount pg))) "max"
  then Js.or_else (Some (balanceFormatted pg)) EmptyString
  else amount pg.

(** [sendErr?.info?.error?.data?.message || sendErr?.message || ''] and
    [typeof msg === "string" && msg.includes("missing trie node")]. *)
Definition isTrieMissing (sendErr : Js.Err) : bool :=
  match Js.nested_message sendErr with
  | Js.MOther => false
  | Js.MStr (String c r) => Js.includes "missing trie node" (String c r)
  | Js.MStr EmptyString | Js.MAbsent =>
      Js.includes "missing trie node" (Js.or_else (Js.message sendErr) EmptyString)
  end.

Section WithLib.

Variable Number_ : string -> option Z.
Variable parseNetworksJson : string -> option Config.NetworksConfig.
Variable parseUnits : string -> Z -> Js.attempt Z.

(** [buildLzReceiveOptions(gas, value)] of [src/src/lib/options.ts], which
    serialises through the protocol's option builder. *)
Variable buildLzReceiveOptions : Z -> Z -> string.

(** [iface.encodeFunctionData("send", [sendParam, fee, refund])]. *)
Variable encodeSend : SendParam -> Fee -> string -> string.

(** [decodeOftError(error) || decodeOftError(error?.data) ||
    decodeOftError(error?.cause)], which decodes against the token ABI. *)
Variable decodeOftError : Js.Err -> option string.

Variable e : Config.env.

Definition getNetworkConfig := Config.getNetworkConfig Number_ parseNetworksJson e.

(** [switchNetwork]: the wallet's refusals are handled inside it. *)
Definition switchNetwork (w : World) (pg : Page) : M unit :=
  if negb (nonempty (sourceNetwork pg)) then ret tt
  else
    config ← lift (getNetworkConfig (sourceNetwork pg));
    emit (SetIsSwitching true);;
    emit (WalletSwitchChain (Config.chainId config));;
    match w_switch w with
    | SwitchOk => emit (SetIsSwitching false)
    | SwitchUnknownChain added =>
        emit (WalletAddChain (Config.chainId config));;
        (if added then ret tt else emit (SetError "Failed to add chain to MetaMask"));;
        emit (SetIsSwitching false)
    | SwitchRejected =>
        emit (SetError "Failed to switch network");;
        emit (SetIsSwitching false)
    end.

(** Reading the underlying token's decimals; any failure keeps 18. *)
Definition resolveDecimals (w : World) (pg : Page) : M Z :=
  try_catch
    (underlying ← call CallToken (w_token w);
     if usingNativeAdapter pg then ret 18
     else
       d ← call (CallDecimals underlying) (w_decimals w underlying);
       ret (if d =? 0 then 18 else d))
    (fun _ => ret 18).

(** The amount check that precedes everything sent to the chain. *)
Definition validateAmount (pg : Page) (resolvedAmount : string) (decimals : Z)
  : M unit :=
  try_catch
    (amtLD ← lift (parseUnits resolvedAmount decimals);
     if match balanceWei pg with Some b => amtLD >? b | None => false end then
       emit (SetError "Amount exceeds balance");;
       emit (SetStatus "Error");; early
     else if amtLD <=? 0 then
       emit (SetError "Amount must be greater than zero");;
       emit (SetStatus "Error");; early
     else ret tt)
    (fun _ =>
       emit (SetError "Invalid amount format");;
       emit (SetStatus "Error");; early).

(** Enforced options and the local [lzReceive] option, all under one
    [try]; the pair returned is [(localOptions, combinedOptions)], each
    still ["0x"] if the failure came before its assignment. *)
Definition resolveOptions (w : World) (dstEid : Z) : M (string * string) :=
  try_catch
    (msgType ← call CallSEND (w_SEND w);
     enforced ← call (CallEnforcedOptions dstEid msgType)
                     (w_enforcedOptions w dstEid msgType);
     let localOptions := buildLzReceiveOptions 200000 0 in
     try_catch
       (combined ← call (CallCombineOptions dstEid msgType localOptions)
                        (w_combineOptions w dstEid msgType localOptions);
        ret (localOptions, combined))
       (fun _ => ret (localOptions, "0x")))
    (fun _ => ret ("0x", "0x")).

(** The total value attached to the send. *)
Definition totalValue (pg : Page) (fee : Fee) (amtLD : Z) : Z :=
  if usingNativeAdapter pg then nativeFee fee + amtLD else nativeFee fee.

(** The submission: the contract call, and the raw legacy transaction
    when the call fails on a missing trie node. *)
Definition submit (w : World) (pg : Page) (resolvedAmount : string)
    (decimals : Z) (sendParam : SendParam) (fee : Fee) : M Tx :=
  amtLD ← lift (parseUnits resolvedAmount decimals);
  let total := totalValue pg fee amtLD in
  let fee' := {| nativeFee := nativeFee fee; lzTokenFee := lzTokenFee fee |} in
  try_catch
    (refund ← call GetAddress (w_getAddress w);
     call (CallSend sendParam fee' refund total) (w_send w sendParam fee' refund total))
    (fun sendErr =>
       if negb (isTrieMissing sendErr) then throw sendErr
       else
         refund ← call GetAddress (w_getAddress w);
         let data := encodeSend sendParam fee' refund in
         feeData ← ([GetFeeData],
                     Val (match w_getFeeData w with
                          | Js.Value fd => Some fd
                          | Js.Throws _ => None
                          end));
         let gasPrice :=
           match feeData with
           | Some fd => match gasPrice fd with
                        | Some g => Some g
                        | None => maxFeePerGas fd
                        end
           | None => None
           end in
         let raw := {| raw_to := w_target w; raw_data := data;
                       raw_value := total; raw_gasLimit := 600000;
                       raw_gasPrice := gasPrice; raw_type := 0 |} in
         call (SendTransaction raw) (w_sendTransaction w raw)).

(** The text the outer [catch] shows. *)
Definition failureText (error : Js.Err) : string :=
  let msg := match decodeOftError error with
             | Some (String c r) => String c r
             | _ => Js.or_else (Js.message error) "Failed to send cross-chain transaction"
             end in
  msg +:+ (if Js.truthy (Js.data error)
           then " | data: " +:+ Js.or_else (Js.data error) EmptyString
           else EmptyString).

(** The body of the outer [try]. The receipt is awaited in the
    background and is not part of the flow. *)
Definition sendBody (w : World) (pg : Page) : M unit :=
  emit (SetIsSending true);;
  emit (SetStatus "Sending...");;
  emit (SetError EmptyString);;
  config ← lift (getNetworkConfig (sourceNetwork pg));
  (if match currentChainId pg with
      | Some c => negb (c =? Config.chainId config)
      | None => true
      end
   then switchNetwork w pg else ret tt);;
  call GetSigner (w_getSigner w);;
  let resolvedAmount := resolvedAmountOf pg in
  if negb (nonempty resolvedAmount) then
    emit (SetError "Balance not loaded; connect wallet and choose token");;
    emit (SetStatus "Error");;
    emit (SetIsSending false);; early
  else
  match Config.tokenAddress (tokens pg) (tokenId pg) (sourceNetwork pg) with
  | None | Some EmptyString =>
      emit (SetError "Selected token is not supported on source network");;
      emit (SetIsSending false);; early
  | Some _ =>
      decimals ← resolveDecimals w pg;
      validateAmount pg resolvedAmount decimals;;
      dstConfig ← lift (getNetworkConfig (destNetwork pg));
      opts ← resolveOptions w (Config.eid dstConfig);
      let extra := Js.or_else (Some (snd opts)) (fst opts) in
      sendParam ← lift (buildSendParam Number_ parseNetworksJson parseUnits e
                           (sourceNetwork pg) (destNetwork pg) resolvedAmount
                           (receiverAddress pg) (Some decimals) (Some extra));
      fee ← call (CallQuoteSend sendParam) (w_quoteSend w sendParam);
      tx ← submit w pg resolvedAmount decimals sendParam fee;
      emit (SetTxHash (hash tx));;
      emit (SetStatus "Transaction sent");;
      emit ClearWorkerStatus;;
      emit (SaveToHistory
              {| h_sourceNetwork := sourceNetwork pg;
                 h_destNetwork := destNetwork pg;
                 h_amount := amount pg;
                 h_receiver := receiverAddress pg;
                 h_txHash := hash tx;
                 h_status := "Success" |})
  end.

(** [sendCrossChain]: the guards, then the body under the outer [catch]. *)
Definition sendCrossChain (w : World) (pg : Page) : M unit :=
  if negb (nonempty (sourceNetwork pg)) || negb (nonempty (destNetwork pg))
     || negb (nonempty (amount pg)) || negb (nonempty (receiverAddress pg))
  then emit (SetError "Please fill all fields");; early
  else if negb (nonempty (account pg)) then
    emit (SetError "Please connect your wallet");; early
  else if negb (nonempty (tokenId pg)) then
    emit (SetError "Please choose a token");; early
  else if negb (isPairSupported pg) then
    emit (SetError "Unsupported source/destination pair");; early
  else if negb (hasEthereum pg) then
    emit (SetError "MetaMask is not installed");; early
  else
    try_catch (sendBody w pg)
      (fun error =>
         emit (SetError (failureText error));;
         emit (SetStatus "Error");;
         emit (SetIsSending false)).

(** Events that quote a fee or put a transaction on the wire. *)
Definition is_quote (ev : Event) : bool :=
  match ev with CallQuoteSend _ => true | _ => false end.

Definition is_submission (ev : Event) : bool :=
  match ev with CallSend _ _ _ _ | SendTransaction _ => true | _ => false end.

Definition is_raw (ev : Event) : bool :=
  match ev with SendTransaction _ => true | _ => false end.

Definition relevant (ev : Event) : bool := is_quote ev || is_submission ev.

(** A trace that neither quotes nor submits. *)
Definition quiet (t : list Event) : bool := forallb (fun ev => negb (relevant ev)) t.

(** The decimals the flow settles on. *)
Definition decimalsOf (w : World) (pg : Page) : Z :=
  match result (resolveDecimals w pg) with
  | Val d => d
  | _ => 18
  end.

(** The amount an event carries to the chain is [amt]. *)
Definition carries (ev : Event) (amt : Z) : Prop :=
  match ev with
  | CallQuoteSend p => amountLD p = amt
  | CallSend p _ _ _ => amountLD p = amt
  | SendTransaction raw =>
      exists p f r, raw_data raw = encodeSend p f r /\ amountLD p = amt
  | _ => True
  end.

End WithLib.

End Send.

(** ** The packet correlator ([src/src/app/api/lz-status-onchain/route.ts]) *)

Module Correlator.

(** The origin tuple of a packet event. *)
Record Origin := { srcEid : Z; sender : string; nonce : Z }.

(** What [Interface.parseLog] yields for a log. *)
Record ParsedLog := {
  ev_name : string;
  ev_origin : option Origin;
  ev_receiver : option string;
}.

(** A destination-chain log, with the decoding each ABI gives it: a
    thrown error, [null], or a parsed event. *)
Record Log := {
  transactionHash : string;
  endpointParse : Js.attempt (option ParsedLog);
  dvnParse : Js.attempt (option string);
}.

Record Receipt := { status : option Z; blockNumber : option Z }.

Record LogFilter := {
  f_address : string;
  f_fromBlock : Z;
  f_toBlock : Z;
  f_topics : option (list string);
}.

Record Provider := {
  getTransactionReceipt : string -> Js.attempt (option Receipt);
  getBlockNumber : Js.attempt Z;
  getLogs : LogFilter -> Js.attempt (list Log);
}.

(** The request body. *)
Record Request := {
  txHash : option string;
  sourceNetwork : option string;
  destNetwork : option string;
  tokenId : option string;
  scanWindow : option Z;
  includeDvn : option bool;
}.

Definition emptyRequest : Request :=
  {| txHash := None; sourceNetwork := None; destNetwork := None;
     tokenId := None; scanWindow := None; includeDvn := None |}.

Record Matched := {
  dstTx : string;
  m_origin : Origin;
  m_receiver : option string;
}.

Record DvnSummary := {
  events : list (string * string);    (* name, txHash *)
  dvn_address : string;
}.

Record Result := {
  stage : string;
  source_status : string;
  source_txHash : string;
  destination_status : string;
  destination_txHash : option string;
  origin : option Origin;
  receiver : option string;
  verification : option DvnSummary;
  networkBase : string;
  window_fromBlock : Z;
  window_toBlock : Z;
}.

Inductive Response :=
| Success (r : Result)
| Failure (code : Z) (error : string).

(** [pad32]: lower-case, drop the [0x], left-pad to 64 digits. *)
Definition pad32 (addr : string) : string :=
  "0x" +:+ Js.padStart 64 "0" (Js.slice_from 2 (Js.toLowerCase addr)).

(** The body of one loop iteration: decode, check the event name, then
    compare endpoint id and sender; a decode failure is skipped. *)
Definition matchLog (eventName : string) (expectedSrcEid : Z)
    (expectedSender : string) (log : Log) : option Matched :=
  match endpointParse log with
  | Js.Throws _ => None
  | Js.Value None => None
  | Js.Value (Some parsed) =>
      if negb (String.eqb (ev_name parsed) eventName) then None
      else
        match ev_origin parsed with
        | None => None
        | Some o =>
            let srcEidOk := srcEid o =? expectedSrcEid in
            let senderOk := String.eqb (Js.toLowerCase (sender o))
                                       (Js.toLowerCase expectedSender) in
            if srcEidOk && senderOk
            then Some {| dstTx := transactionHash log; m_origin := o;
                         m_receiver := ev_receiver parsed |}
            else None
        end
  end.

(** The scan loop: the first log that matches, then [break]. *)
Fixpoint scan (eventName : string) (expectedSrcEid : Z)
    (expectedSender : string) (logs : list Log) : option Matched :=
  match logs with
  | [] => None
  | log :: rest =>
      match matchLog eventName expectedSrcEid expectedSender log with
      | Some m => Some m
      | None => scan eventName expectedSrcEid expectedSender rest
      end
  end.

(** Whether the loop body accepts a log. *)
Definition matches (eventName : string) (expectedSrcEid : Z)
    (expectedSender : string) (log : Log) : bool :=
  match matchLog eventName expectedSrcEid expectedSender log with
  | Some _ => true
  | None => false
  end.

(** The match as the specification words it: the log decodes to the named
    event with an origin whose endpoint id is the source network's and
    whose sender is the source token address, left-padded to 32 bytes
    (hexadecimal digits compared without regard to case). *)
Definition MatchesSpec (eventName : string) (sourceEid : Z)
    (tokenAddress : string) (log : Log) : Prop :=
  exists parsed o,
    endpointParse log = Js.Value (Some parsed)
    /\ ev_name parsed = eventName
    /\ ev_origin parsed = Some o
    /\ srcEid o = sourceEid
    /\ Js.toLowerCase (sender o) = Js.toLowerCase (pad32 tokenAddress).

(** The origin a log decodes to, if it decodes. *)
Definition originOf (log : Log) : option Origin :=
  match endpointParse log with
  | Js.Value (Some parsed) => ev_origin parsed
  | _ => None
  end.

(** [sentOk]. *)
Definition sentOk (srcReceipt : option Receipt) : bool :=
  match srcReceipt with
  | Some r => Js.nullish (status r) 0 =? 1
  | None => false
  end.

(** The start of the scan range. *)
Definition fromBlockOf (srcReceipt : option Receipt) (toBlock : Z)
    (scanWindow : option Z) : Z :=
  let recentWindow := Js.nullish scanWindow 20000 in
  match srcReceipt with
  | Some {| blockNumber := Some b |} => b
  | _ => Z.max 0 (toBlock - recentWindow)
  end.

(** The stage derived from what was observed. *)
Definition deriveStage (matched verified : option Matched)
    (srcReceipt : option Receipt) : string :=
  match matched with
  | Some _ => "executed"
  | None =>
      match verified with
      | Some _ => "verified"
      | None =>
          match srcReceipt with
          | Some _ => if sentOk srcReceipt then "inflight" else "unknown"
          | None => "inflight"
          end
      end
  end.

Definition dvnEventNames : list string :=
  ["VerifierFeePaid"; "VerifySignaturesFailed"; "ExecuteFailed"; "HashAlreadyUsed"].

Definition dvnEvent (log : Log) : option (string * string) :=
  match dvnParse log with
  | Js.Value (Some name) =>
      if existsb (String.eqb name) dvnEventNames
      then Some (name, transactionHash log) else None
  | _ => None
  end.

Section WithLib.

Variable Number_ : string -> option Z.
Variable parseNetworksJson : string -> option Config.NetworksConfig.

(** [ethers.id(signature)], the event topic. *)
Variable ethers_id : string -> string.

Variable e : Config.env.

(** The value of [getTokensConfig()]. *)
Variable tokens : list Config.TokenConfig.

(** [getProvider(networkKey)]. *)
Variable getProvider : string -> Provider.

Definition deliveredTopic : string :=
  ethers_id "PacketDelivered((uint32,bytes32,uint64),address)".
Definition verifiedTopic : string :=
  ethers_id "PacketVerified((uint32,bytes32,uint64),address,bytes32)".

(** What the handler has in hand once both scans are done. *)
Record Observed := {
  o_srcReceipt : option Receipt;
  o_fromBlock : Z;
  o_toBlock : Z;
  o_deliveredLogs : list Log;
  o_verifiedLogs : list Log;
  o_matched : option Matched;
  o_verified : option Matched;
}.

(** The handler's steps up to the two scans; [inl] is an error response
    or a thrown error. *)
Definition observe (body : Js.attempt (option Request))
  : (Response + Js.Err) + (Observed * Config.NetworkConfig * Config.NetworkConfig * string * Request) :=
  match body with
  | Js.Throws er => inl (inr er)
  | Js.Value b =>
      let rq := Js.nullish b emptyRequest in
      if negb (Js.truthy (txHash rq)) || negb (Js.truthy (sourceNetwork rq))
         || negb (Js.truthy (destNetwork rq)) || negb (Js.truthy (tokenId rq))
      then inl (inl (Failure 400 "Missing txHash, sourceNetwork, destNetwork, or tokenId"))
      else
        let txHash_ := Js.or_else (txHash rq) EmptyString in
        let sourceNetwork_ := Js.or_else (sourceNetwork rq) EmptyString in
        let destNetwork_ := Js.or_else (destNetwork rq) EmptyString in
        let tokenId_ := Js.or_else (tokenId rq) EmptyString in
        match Config.getNetworkConfig Number_ parseNetworksJson e sourceNetwork_ with
        | Js.Throws er => inl (inr er)
        | Js.Value srcConfig =>
        match Config.getNetworkConfig Number_ parseNetworksJson e destNetwork_ with
        | Js.Throws er => inl (inr er)
        | Js.Value dstConfig =>
            let oftSrc := Config.tokenAddress tokens tokenId_ sourceNetwork_ in
            if negb (Js.truthy oftSrc)
            then inl (inl (Failure 400 "OFT address not found for source network"))
            else
              let srcProvider := getProvider sourceNetwork_ in
              let dstProvider := getProvider destNetwork_ in
              let srcReceipt :=
                Js.catch_default (getTransactionReceipt srcProvider txHash_) None in
              match getBlockNumber dstProvider with
              | Js.Throws er => inl (inr er)
              | Js.Value toBlock =>
                  let fromBlock := fromBlockOf srcReceipt toBlock (scanWindow rq) in
                  let endpointAddress := Config.endpointV2 dstConfig in
                  let deliveredLogs :=
                    Js.catch_default
                      (getLogs dstProvider
                         {| f_address := endpointAddress; f_fromBlock := fromBlock;
                            f_toBlock := toBlock; f_topics := Some [deliveredTopic] |})
                      [] in
                  let verifiedLogs :=
                    Js.catch_default
                      (getLogs dstProvider
                         {| f_address := endpointAddress; f_fromBlock := fromBlock;
                            f_toBlock := toBlock; f_topics := Some [verifiedTopic] |})
                      [] in
                  let expectedSender := pad32 (Js.or_else oftSrc EmptyString) in
                  let expectedSrcEid := Config.eid srcConfig in
                  let matched :=
                    scan "PacketDelivered" expectedSrcEid expectedSender deliveredLogs in
                  let verified :=
                    match matched with
                    | Some _ => None
                    | None => scan "PacketVerified" expectedSrcEid expectedSender verifiedLogs
                    end in
                  inr ({| o_srcReceipt := srcReceipt; o_fromBlock := fromBlock;
                          o_toBlock := toBlock; o_deliveredLogs := deliveredLogs;
                          o_verifiedLogs := verifiedLogs; o_matched := matched;
                          o_verified := verified |},
                       srcConfig, dstConfig, expectedSender, rq)
              end
        end
        end
  end.

(** [POST]. *)
Definition POST (body : Js.attempt (option Request)) : Response :=
  match observe body with
  | inl (inl resp) => resp
  | inl (inr er) => Failure 500 (Js.or_else (Js.message er) "Internal error")
  | inr (o, srcConfig, dstConfig, _, rq) =>
      let dstProvider := getProvider (Js.or_else (destNetwork rq) EmptyString) in
      let dvnSummary :=
        if Js.nullish (includeDvn rq) false && Js.truthy (Some (Config.dvn dstConfig))
        then
          let dvnLogs :=
            Js.catch_default
              (getLogs dstProvider
                 {| f_address := Config.dvn dstConfig; f_fromBlock := o_fromBlock o;
                    f_toBlock := o_toBlock o; f_topics := None |})
              [] in
          Some {| events := omap dvnEvent dvnLogs;
                  dvn_address := Config.dvn dstConfig |}
        else None in
      let matched := o_matched o in
      let verified := o_verified o in
      let srcReceipt := o_srcReceipt o in
      Success
        {| stage := deriveStage matched verified srcReceipt;
           source_status :=
             match srcReceipt with
             | Some _ => if sentOk srcReceipt then "Sent" else "Failed"
             | None => "PendingOrUnknown"
             end;
           source_txHash := Js.or_else (txHash rq) EmptyString;
           destination_status :=
             match matched, verified with
             | Some _, _ => "Delivered"
             | None, Some _ => "Verified"
             | None, None => "NotFound"
             end;
           destination_txHash :=
             Js.or_opt (dstTx <$> matched) (Js.or_opt (dstTx <$> verified) None);
           origin :=
             match matched with
             | Some m => Some (m_origin m)
             | None => m_origin <$> verified
             end;
           receiver := Js.or_opt (matched ≫= m_receiver) None;
           verification := dvnSummary;
           networkBase := Config.name srcConfig +:+ "â†’" +:+ Config.name dstConfig;
           window_fromBlock := o_fromBlock o;
           window_toBlock := o_toBlock o |}
  end.

End WithLib.

End Correlator.

(** ** JSON values and HTTP responses of the proxy routes *)

Module Http.

#[warnings="-register-all"]
Inductive json :=
| JNull
| JBool (b : bool)
| JNum (n : Z)
| JStr (s : string)
| JArr (items : list json)
| JObj (fields : list (string * json)).

Record Response := { status : Z; body : json }.

(** [obj?.key] on a decoded value: only objects carry the key. *)
Definition get (key : string) (j : json) : option json :=
  match j with
  | JObj fields => Config.lookup_key key fields
  | _ => None
  end.

(** The statuses of responses that cannot carry a body. *)
Definition nullBodyStatus (code : Z) : bool :=
  existsb (Z.eqb code) [101; 103; 204; 205; 304].

Section WithRuntime.

(** What the [Response] constructor throws: a [RangeError] for a status
    outside 200..599, and a [TypeError] for a body together with a
    null-body status. *)
Variable rangeError : Js.Err.
Variable nullBodyError : Js.Err.

(** [Response.json(data, { status })]: the status is checked for its
    range first, then against the body, which is never null here. *)
Definition Response_json (data : json) (code : Z) : Js.attempt Response :=
  if negb ((200 <=? code) && (code <=? 599)) then Js.Throws rangeError
  else if nullBodyStatus code then Js.Throws nullBodyError
  else Js.Value {| status := code; body := data |}.

End WithRuntime.

End Http.

(** ** The aggregator proxy ([src/src/app/api/agg-status/route.ts]) *)

Module AggProxy.

Import Http.

(** What the upstream answered: its status and the two ways the body can
    be read. *)
Record Upstream := {
  up_status : Z;
  up_text : Js.attempt string;
  up_json : Js.attempt json;
}.

Record FetchRequest := {
  url : string;
  authorization : option string;
  accept : string;
}.

(** [res.ok]. *)
Definition ok (res : Upstream) : bool :=
  (200 <=? up_status res) && (up_status res <=? 299).

(** [resolveBase]. *)
Definition resolveBase (e : Config.env) : option string :=
  Js.or_opt (e !! "STATUS_API_BASE") (e !! "NEXT_PUBLIC_STATUS_API_BASE").

Section WithLib.

(** [Buffer.from(s).toString('base64')]. *)
Variable base64 : string -> string.

(** The errors of the [Response] constructor. *)
Variable rangeError : Js.Err.
Variable nullBodyError : Js.Err.

(** The global [fetch]. *)
Variable fetch : FetchRequest -> Js.attempt Upstream.

Variable e : Config.env.

(** The request sent upstream: the lookup URL, Basic authorization when
    both credentials are set, and the [Accept] header. *)
Definition upstreamRequest (base txHash : string) : FetchRequest :=
  let user := Js.or_else (e !! "STATUS_API_USERNAME") EmptyString in
  let pass := Js.or_else (e !! "STATUS_API_PASSWORD") EmptyString in
  let auth :=
    if Send.nonempty user && Send.nonempty pass
    then Some ("Basic " +:+ base64 (user +:+ ":" +:+ pass))
    else None in
  let upstream := base +:+ "/api/tx/by-hash/" +:+ txHash in
  {| url := upstream; authorization := auth; accept := "application/json" |}.

(** The body of the [try]. *)
Definition handle (reqBody : Js.attempt json) : Js.attempt Response :=
  match reqBody with
  | Js.Throws er => Js.Throws er
  | Js.Value body =>
      match get "txHash" body with
      | Some (JStr (String c r)) =>
          let txHash := String c r in
          match resolveBase e with
          | None | Some EmptyString =>
              Response_json rangeError nullBodyError
                (JObj [("error", JStr "STATUS_API_BASE not configured");
                       ("hint", JStr "Set STATUS_API_BASE in env, e.g. https://your-aggregator-host/v1")])
                500
          | Some base =>
              match fetch (upstreamRequest base txHash) with
              | Js.Throws er => Js.Throws er
              | Js.Value res =>
                  if negb (ok res) then
                    match up_text res with
                    | Js.Throws er => Js.Throws er
                    | Js.Value text =>
                        let code := up_status res in
                        if code =? 404 then
                          Response_json rangeError nullBodyError
                            (JObj [("found", JBool false); ("error", JStr "Not found");
                                   ("upstreamStatus", JNum code); ("body", JStr text)])
                            code
                        else if (code =? 401) || (code =? 403) then
                          Response_json rangeError nullBodyError
                            (JObj [("error", JStr "Unauthorized");
                                   ("upstreamStatus", JNum code);
                                   ("hint", JStr "Check STATUS_API_USERNAME/PASSWORD")])
                            code
                        else
                          Response_json rangeError nullBodyError
                            (JObj [("error", JStr "Upstream error");
                                   ("upstreamStatus", JNum code); ("body", JStr text)])
                            code
                    end
                  else
                    match up_json res with
                    | Js.Throws er => Js.Throws er
                    | Js.Value json => Response_json rangeError nullBodyError json 200
                    end
              end
          end
      | _ => Response_json rangeError nullBodyError (JObj [("error", JStr "txHash is required")]) 400
      end
  end.

(** [POST]: the [try] body, and the [catch] that answers 500. *)
Definition POST (reqBody : Js.attempt json) : Response :=
  match handle reqBody with
  | Js.Value resp => resp
  | Js.Throws er =>
      {| status := 500;
         body := JObj [("error", JStr (Js.or_else (Js.message er) "Internal error"))] |}
  end.

End WithLib.

Definition credentialHint : json := JStr "Check STATUS_API_USERNAME/PASSWORD".

End AggProxy.

(** ** The diagnostics route ([src/unnamed/part_004]) *)

Module EnvCheck.

Record NetworkPresence := {
  p_name : string;
  p_chainId : Z;
  rpcHttpPresent : bool;
  endpointV2Present : bool;
  oftPresent : bool;
  explorerTxBasePresent : bool;
}.

Record AggregatorPresence := {
  basePresent : bool;
  usernamePresent : bool;
  passwordPresent : bool;
}.

Record Response := {
  ok : bool;
  networks : option (list (string * NetworkPresence));
  networksError : option string;
  aggregator : AggregatorPresence;
}.

(** The variables that hold the aggregator's address and credentials. *)
Definition secrets : list string :=
  ["STATUS_API_BASE"; "NEXT_PUBLIC_STATUS_API_BASE";
   "STATUS_API_USERNAME"; "STATUS_API_PASSWORD"].

Definition is_secret (k : string) : bool := existsb (String.eqb k) secrets.

(** [!!process.env.X]. *)
Definition present (e : Config.env) (k : string) : bool := Js.truthy (e !! k).

Definition aggregatorOf (e : Config.env) : AggregatorPresence :=
  {| basePresent := present e "STATUS_API_BASE" || present e "NEXT_PUBLIC_STATUS_API_BASE";
     usernamePresent := present e "STATUS_API_USERNAME";
     passwordPresent := present e "STATUS_API_PASSWORD" |}.

Definition presenceOf (c : Config.NetworkConfig) : NetworkPresence :=
  {| p_name := Config.name c;
     p_chainId := Config.chainId c;
     rpcHttpPresent := Send.nonempty (Config.rpcHttp c);
     endpointV2Present := Send.nonempty (Config.endpointV2 c);
     oftPresent := Send.nonempty (Config.oft c);
     explorerTxBasePresent := Js.truthy (Config.explorerTxBase c) |}.

Section WithLib.

Variable Number_ : string -> option Z.
Variable parseNetworksJson : string -> option Config.NetworksConfig.

(** [GET]. The configuration is taken at its declared type, so that
    the loop over its keys runs to its end. *)
Definition GET (e : Config.env) : Response :=
  let '(networks, networksError) :=
    match Config.getNetworksConfig Number_ parseNetworksJson e with
    | Js.Value cfgs =>
        (Some (map (fun kc => (fst kc, presenceOf (snd kc))) cfgs), None)
    | Js.Throws er =>
        (None, Some (Js.or_else (Js.message er) "Failed to read NEXT_PUBLIC network config"))
    end in
  {| ok := true; networks := networks; networksError := networksError;
     aggregator := aggregatorOf e |}.

End WithLib.

(** Two environments that agree outside the secret variables. *)
Definition agree_public (e1 e2 : Config.env) : Prop :=
  forall k, is_secret k = false -> e1 !! k = e2 !! k.

(** Replacing every secret that is present by a fixed marker. *)
Definition mask (s : string) : string :=
  match s with EmptyString => EmptyString | _ => "*" end.

Definition redact (e : Config.env) : Config.env :=
  fold_right (fun k acc => alter mask k acc) e secrets.

End EnvCheck.

(** ** The scanner route ([src/src/app/api/lz-status/route.ts]) *)

Module Scanner.

Import Http.

Definition MAINNET_BASE : string := "https://scan.layerzero-api.com/v1".
Definition TESTNET_BASE : string := "https://scan-testnet.layerzero-api.com/v1".

(** [ScanMessage], with each optional nested field read through its
    [?.] chain. *)
Record ScanMessage := {
  pathway : option (option Z * option Z * option Z);
  source_status : option string;
  source_txHash : option string;
  destination_status : option string;
  destination_txHash : option string;
  payloadStoredTx : option string;
  dvn_status : option string;
  sealer_status : option string;
  guid : option string;
  status_name : option string;
  status_message : option string;
}.

(** [s?.toLowerCase?.()]. *)
Definition lower (s : option string) : option string := Js.toLowerCase <$> s.

(** [d?.includes(sub)], falsy on a missing string. *)
Definition includes_opt (sub : string) (d : option string) : bool :=
  match d with Some x => Js.includes sub x | None => false end.

(** [deriveWorkerStage]. *)
Definition deriveWorkerStage (msg : ScanMessage) : string :=
  let dvn := Js.truthy (lower (dvn_status msg)) in
  let sealer := Js.truthy (lower (sealer_status msg)) in
  let dest := lower (destination_status msg) in
  let destTx := Js.truthy (destination_txHash msg) in
  let srcTx := Js.truthy (source_txHash msg) in
  if srcTx && negb dvn && negb sealer && negb (Js.truthy dest) && negb destTx then "sent"
  else if dvn && negb sealer then "dvn_verifying"
  else if sealer && negb destTx then "committed"
  else if destTx && Js.truthy dest && negb (includes_opt "delivered" dest) then "executing"
  else if destTx && (includes_opt "delivered" dest || includes_opt "success" dest)
  then "executed"
  else if Js.truthy (payloadStoredTx msg) then "payload_stored"
  else
    let name := lower (status_name msg) in
    if Js.truthy name then Js.or_else name EmptyString else "unknown".

(** The decoded body of a scanner answer: an object with a [data] array,
    a top-level array, or anything else. *)
Inductive ScanBody :=
| DataArray (data : list ScanMessage)
| TopArray (items : list ScanMessage)
| OtherBody.

(** [fetchByTx], given what the request to [url] yields. *)
Definition fetchByTx (scanFetch : string -> Status.fetched ScanBody)
    (base txHash : string) : option (list ScanMessage) :=
  match scanFetch (base +:+ "/messages/tx/" +:+ txHash) with
  | Status.Ok200 json =>
      let data :=
        match json with
        | Some (DataArray d) => d
        | Some (TopArray d) => d
        | _ => []
        end in
      match data with [] => None | _ :: _ => Some data end
  | _ => None
  end.

Inductive Response :=
| BadRequest                              (* 400, txHash is required *)
| NotFound                                (* found: false, stage unknown *)
| Found (networkBase stage : string) (primary : ScanMessage)
        (raw : list ScanMessage)
| ServerError (error : string).           (* 500 *)

(** The bases to try, by [body.network]. *)
Definition basesFor (network : option json) : list string :=
  match network with
  | Some (JStr n) =>
      if String.eqb n "mainnet" then [MAINNET_BASE]
      else if String.eqb n "testnet" then [TESTNET_BASE]
      else [TESTNET_BASE; MAINNET_BASE]
  | _ => [TESTNET_BASE; MAINNET_BASE]
  end.

(** The loop over the bases: the first one with messages wins. *)
Fixpoint firstWithData (scanFetch : string -> Status.fetched ScanBody)
    (txHash : string) (bases : list string) : option (list ScanMessage * string) :=
  match bases with
  | [] => None
  | base :: rest =>
      match fetchByTx scanFetch base txHash with
      | Some data => Some (data, base)
      | None => firstWithData scanFetch txHash rest
      end
  end.

Definition hasDestination (m : ScanMessage) : bool :=
  Js.truthy (destination_status m) || Js.truthy (destination_txHash m).

(** [messages.find(...) || messages[0]]. *)
Definition choosePrimary (messages : list ScanMessage) : option ScanMessage :=
  match List.find hasDestination messages with
  | Some m => Some m
  | None => head messages
  end.

(** [POST]. *)
Definition POST (scanFetch : string -> Status.fetched ScanBody)
    (reqBody : Js.attempt json) : Response :=
  match reqBody with
  | Js.Throws er => ServerError (Js.or_else (Js.message er) "Failed to fetch status")
  | Js.Value body =>
      match get "txHash" body with
      | Some (JStr (String c r)) =>
          let txHash := String c r in
          match firstWithData scanFetch txHash (basesFor (get "network" body)) with
          | None => NotFound
          | Some (messages, usedBase) =>
              match choosePrimary messages with
              | Some primary => Found usedBase (deriveWorkerStage primary) primary messages
              | None => NotFound
              end
          end
      | _ => BadRequest
      end
  end.

(** What the page's [tick] reads from the route's answer. *)
Definition toWorkerJson (r : Response) : option Status.WorkerJson :=
  match r with
  | Found base stage primary _ =>
      Some {| Status.j_stage := Some stage;
              Status.j_networkBase := Some base;
              Status.j_dvn_status := dvn_status primary;
              Status.j_sealer_status := sealer_status primary;
              Status.j_dest_status := destination_status primary;
              Status.j_dest_tx_txHash := destination_txHash primary;
              Status.j_dest_txHash := None |}
  | NotFound =>
      Some {| Status.j_stage := Some "unknown";
              Status.j_networkBase := None;
              Status.j_dvn_status := None;
              Status.j_sealer_status := None;
              Status.j_dest_status := None;
              Status.j_dest_tx_txHash := None;
              Status.j_dest_txHash := None |}
  | _ => None
  end.

(** The route's answer as the page's [fetch] sees it. *)
Definition toFetched (r : Response) : Status.fetched Status.WorkerJson :=
  match r with
  | BadRequest => Status.NotOk 400
  | ServerError _ => Status.NotOk 500
  | _ => Status.Ok200 (toWorkerJson r)
  end.

End Scanner.

(** ** Supported pairs, tokens and network keys ([src/unnamed/part_002]) *)

Module Tokens.

(** [s.split(sep)] on a one-character separator: never empty. *)
Fixpoint split_on (sep : ascii) (s : string) : list string :=
  match s with
  | EmptyString => [EmptyString]
  | String c r =>
      if Ascii.eqb c sep then EmptyString :: split_on sep r
      else match split_on sep r with
           | p :: ps => String c p :: ps
           | [] => [String c EmptyString]
           end
  end.

(** [const [src, dst] = p.split(':').map((s) => s.trim())]: [dst] is
    [undefined] when there is no colon. *)
Definition parsePair (p : string) : string * option string :=
  match map Send.trim (split_on ":" p) with
  | src :: dst :: _ => (src, Some dst)
  | [src] => (src, None)
  | [] => (EmptyString, None)
  end.

Definition pairComplete (p : string * option string) : bool :=
  Send.nonempty (fst p) && Js.truthy (snd p).

(** [getSupportedPairs]. *)
Definition getSupportedPairs (e : Config.env) : list (string * string) :=
  match e !! "NEXT_PUBLIC_SUPPORTED_PAIRS" with
  | None | Some EmptyString => [("hii", "sepolia")]
  | Some pairsStr =>
      map (fun p => (fst p, Js.or_else (snd p) EmptyString))
          (List.filter pairComplete (map parsePair (split_on "," pairsStr)))
  end.

Section WithParsers.

Variable Number_ : string -> option Z.
Variable parseNetworksJson : string -> option Config.NetworksConfig.

(** [JSON.parse] of [NEXT_PUBLIC_TOKENS_JSON] when it yields an array,
    at its declared type; [None] when it throws or yields anything else. *)
Variable parseTokensJson : string -> option (list Config.TokenConfig).

(** [getNetworkKeys]. *)
Definition getNetworkKeys (e : Config.env) : Js.attempt (list string) :=
  match Config.getNetworksConfig Number_ parseNetworksJson e with
  | Js.Value cfgs => Js.Value (map fst cfgs)
  | Js.Throws er => Js.Throws er
  end.

(** The [addresses] object of the default token: the token address of
    every network that has one. *)
Definition oftAddresses (networks : Config.NetworksConfig) : gmap string string :=
  fold_left (fun acc kc =>
               if Send.nonempty (Config.oft (snd kc))
               then <[fst kc := Config.oft (snd kc)]> acc else acc)
            networks ∅.

Definition defaultToken (networks : Config.NetworksConfig) : Config.TokenConfig :=
  {| Config.id := "default"; Config.symbol := "OFT"; Config.token_name := "OFT Token";
     Config.addresses := oftAddresses networks; Config.nativeAdapter := None |}.

(** One conditional [extras.push]. *)
Definition extraIf (v : option string) (mk : string -> Config.TokenConfig)
  : list Config.TokenConfig :=
  match v with
  | Some (String c r) => [mk (String c r)]
  | _ => []
  end.

Definition extraTokens (e : Config.env) : list Config.TokenConfig :=
  (extraIf (e !! "NEXT_PUBLIC_HII_NATIVE_ADAPTER")
     (fun a => {| Config.id := "hnc_native"; Config.symbol := "HNC";
                  Config.token_name := "Native HNC";
                  Config.addresses := {[ "hii" := a ]};
                  Config.nativeAdapter := Some true |})
   ++ extraIf (e !! "NEXT_PUBLIC_SEPOLIA_NATIVE_ADAPTER")
     (fun a => {| Config.id := "eth_native"; Config.symbol := "ETH";
                  Config.token_name := "Native ETH";
                  Config.addresses := {[ "sepolia" := a ]};
                  Config.nativeAdapter := Some true |})
   ++ extraIf (e !! "NEXT_PUBLIC_HII_WETH_OFT")
     (fun a => {| Config.id := "weth_wrapped";
                  Config.symbol :=
                    Js.or_else (e !! "NEXT_PUBLIC_SEPOLIA_WRAPPED_SYMBOL") "WETH";
                  Config.token_name :=
                    Js.or_else (e !! "NEXT_PUBLIC_SEPOLIA_WRAPPED_NAME") "Wrapped ETH";
                  Config.addresses := {[ "hii" := a ]};
                  Config.nativeAdapter := None |})
   ++ extraIf (e !! "NEXT_PUBLIC_SEPOLIA_WHNC_OFT")
     (fun a => {| Config.id := "whnc_wrapped";
                  Config.symbol :=
                    Js.or_else (e !! "NEXT_PUBLIC_HII_WRAPPED_SYMBOL") "WHNC";
                  Config.token_name :=
                    Js.or_else (e !! "NEXT_PUBLIC_HII_WRAPPED_NAME") "Wrapped HNC";
                  Config.addresses := {[ "sepolia" := a ]};
                  Config.nativeAdapter := None |}))%list.

(** The token list built from the network configuration, used when the
    JSON override is absent or unusable. *)
Definition builtinTokens (e : Config.env) : Js.attempt (list Config.TokenConfig) :=
  match Config.getNetworksConfig Number_ parseNetworksJson e with
  | Js.Throws er => Js.Throws er
  | Js.Value networks =>
      let defaults := [defaultToken networks] in
      let enableExtras :=
        match e !! "NEXT_PUBLIC_ENABLE_TOKEN_EXTRAS" with
        | Some v => String.eqb v "true"
        | None => false
        end in
      if negb enableExtras then Js.Value defaults
      else Js.Value (defaults ++ extraTokens e)%list
  end.

(** [getTokensConfig]. *)
Definition getTokensConfig (e : Config.env) : Js.attempt (list Config.TokenConfig) :=
  match e !! "NEXT_PUBLIC_TOKENS_JSON" with
  | Some (String c r) =>
      match parseTokensJson (String c r) with
      | Some parsed => Js.Value parsed
      | None => builtinTokens e
      end
  | _ => builtinTokens e
  end.

End WithParsers.

End Tokens.

(** ** Page helpers ([src/unnamed/part_003]) *)

Module Page.

(** The [txHistory] item of local storage: absent or a stored array, or
    text that [JSON.parse] (or the spread) rejects. *)
Inductive Storage :=
| Stored (history : list Send.HistoryEntry)
| Corrupt.

(** [saveToHistory]: the new entry in front, five entries kept; a
    failure is logged and the storage left as it was. *)
Definition saveToHistory (tx : Send.HistoryEntry) (st : Storage) : Storage :=
  match st with
  | Stored history => Stored (firstn 5 (tx :: history))
  | Corrupt => Corrupt
  end.

Definition saveAll (txs : list Send.HistoryEntry) (st : Storage) : Storage :=
  fold_left (fun s tx => saveToHistory tx s) txs st.

(** The effect that ends the button's loading state. *)
Definition executedFromAgg (a : option Status.AggStatus) : bool :=
  String.eqb (Js.toLowerCase (Js.or_else (Status.agg_stage a) EmptyString)) "executed".

Definition executedFromWorker (w : option Status.WorkerStatus) : bool :=
  String.eqb (Js.toLowerCase (Js.or_else (Status.worker_stage w) EmptyString)) "executed"
  || String.eqb
       (Js.toLowerCase
          (Js.or_else (match w with Some x => Status.dest x | None => None end)
                      EmptyString))
       "delivered".

(** Whether the effect calls [setIsSending(false)]. *)
Definition stopsLoading (txHash : string) (st : Status.PollState) : bool :=
  Send.nonempty txHash
  && (executedFromAgg (Status.aggStatus st) || executedFromWorker (Status.lzWorkerStatus st)).




(** What [tick] reads from the on-chain route's answer. *)
Definition onchainJson (r : Correlator.Result) : Status.WorkerJson :=
  {| Status.j_stage := Some (Correlator.stage r);
     Status.j_networkBase := Some (Correlator.networkBase r);
     Status.j_dvn_status := None;
     Status.j_sealer_status := None;
     Status.j_dest_status := Some (Correlator.destination_status r);
     Status.j_dest_tx_txHash := None;
     Status.j_dest_txHash := Correlator.destination_txHash r |}.

Definition onchainFetched (r : Correlator.Response) : Status.fetched Status.WorkerJson :=
  match r with
  | Correlator.Success res => Status.Ok200 (Some (onchainJson res))
  | Correlator.Failure code _ => Status.NotOk code
  end.

Section WithParsers.

Variable Number_ : string -> option Z.
Variable parseNetworksJson : string -> option Config.NetworksConfig.

(** The loop shared by [getExplorerByChainId] and
    [getNetworkNameByChainId]: the first key whose configuration has the
    chain id. *)
Fixpoint firstByChainId {A} (proj : Config.NetworkConfig -> A) (e : Config.env)
    (chainId : Z) (keys : list string) : Js.attempt (option A) :=
  match keys with
  | [] => Js.Value None
  | k :: rest =>
      match Config.getNetworkConfig Number_ parseNetworksJson e k with
      | Js.Throws er => Js.Throws er
      | Js.Value cfg =>
          if Config.chainId cfg =? chainId then Js.Value (Some (proj cfg))
          else firstByChainId proj e chainId rest
      end
  end.

Definition byChainId {A} (proj : Config.NetworkConfig -> A) (e : Config.env)
    (chainId : option Z) : option A :=
  if negb (Config.num_truthy chainId) then None
  else
    match Tokens.getNetworkKeys Number_ parseNetworksJson e with
    | Js.Throws _ => None
    | Js.Value keys =>
        match firstByChainId proj e (Js.nullish chainId 0) keys with
        | Js.Value r => r
        | Js.Throws _ => None
        end
    end.

(** [getExplorerByChainId]. *)
Definition getExplorerByChainId (e : Config.env) (chainId : option Z) : option string :=
  match byChainId Config.explorerTxBase e chainId with
  | Some x => x
  | None => None
  end.

(** [getNetworkNameByChainId]. *)
Definition getNetworkNameByChainId (e : Config.env) (chainId : option Z)
  : option string :=
  byChainId Config.name e chainId.

End WithParsers.

End Page.

(** ** Revert decoding ([decodeOftError] in [src/next.config.ts]) *)

Module Decode.

(** The [data] property of an error: absent, a string, or an object with
    its own [data]. *)
Inductive dataField :=
| DAbsent
| DString (s : string)
| DObject (inner : option string).

(** What is handed to [decodeOftError]: nothing, a string, or an object
    with [data] and [info.error.data]. *)
Inductive candidate :=
| CNone
| CString (s : string)
| CObject (data : dataField) (infoErrorData : option string).

(** What [Interface.parseError] describes: the error's name and, when it
    has arguments, what [JSON.stringify] makes of them (it throws on a
    bigint argument). *)
Record ErrorDescription := {
  pe_name : string;
  pe_args : option (Js.attempt string);
}.

(** The revert payload, from the first place that holds a non-empty
    string. *)
Definition payload (err : candidate) : option string :=
  match err with
  | CNone => None
  | CString s => Some s
  | CObject d info =>
      match d with
      | DString (String c r) => Some (String c r)
      | DObject (Some (String c r)) => Some (String c r)
      | _ => if Js.truthy info then info else None
      end
  end.

(** The table of known selectors. *)
Definition known (selector : string) : option string :=
  if String.eqb selector "0x6592671c" then Some "InvalidOptions(bytes)" else None.

(** The [catch] branch: the first ten characters, lower-cased, looked up
    in the table. *)
Definition fallback (data : string) : option string :=
  match known (Js.toLowerCase (substring 0 10 data)) with
  | Some (String c r) => Some (String c r)
  | _ => None
  end.

Section WithAbi.

(** [oftInterface.parseError(data)]: a description, [null] when no error
    of the ABI matches, or a thrown error. *)
Variable parseError : string -> Js.attempt (option ErrorDescription).

(** [decodeOftError]. *)
Definition decodeOftError (err : candidate) : option string :=
  match payload err with
  | Some (String c r) =>
      let data := String c r in
      if negb (String.prefix "0x" data) then None
      else
        match parseError data with
        | Js.Value None => Some "UnknownError"
        | Js.Value (Some d) =>
            match pe_args d with
            | None => Some (pe_name d)
            | Some (Js.Value a) => Some (pe_name d +:+ " " +:+ a)
            | Some (Js.Throws _) => fallback data
            end
        | Js.Throws _ => fallback data
        end
  | _ => None
  end.

End WithAbi.

End Decode.

(** ** Variations of correlator inputs, used to compare two runs *)

Module Vary.

(** The same request with another [includeDvn]. *)
Definition setIncludeDvn (b : option bool) (rq : Correlator.Request) : Correlator.Request :=
  {| Correlator.txHash := Correlator.txHash rq;
     Correlator.sourceNetwork := Correlator.sourceNetwork rq;
     Correlator.destNetwork := Correlator.destNetwork rq;
     Correlator.tokenId := Correlator.tokenId rq;
     Correlator.scanWindow := Correlator.scanWindow rq;
     Correlator.includeDvn := b |}.

(** An answer with its [verification] field blanked. *)
Definition withoutVerification (r : Correlator.Response) : Correlator.Response :=
  match r with
  | Correlator.Success res =>
      Correlator.Success
        {| Correlator.stage := Correlator.stage res;
           Correlator.source_status := Correlator.source_status res;
           Correlator.source_txHash := Correlator.source_txHash res;
           Correlator.destination_status := Correlator.destination_status res;
           Correlator.destination_txHash := Correlator.destination_txHash res;
           Correlator.origin := Correlator.origin res;
           Correlator.receiver := Correlator.receiver res;
           Correlator.verification := None;
           Correlator.networkBase := Correlator.networkBase res;
           Correlator.window_fromBlock := Correlator.window_fromBlock res;
           Correlator.window_toBlock := Correlator.window_toBlock res |}
  | Correlator.Failure code msg => Correlator.Failure code msg
  end.

(** The same log, decoding to the same event with another nonce. *)
Definition withNonce (n : Z) (log : Correlator.Log) : Correlator.Log :=
  {| Correlator.transactionHash := Correlator.transactionHash log;
     Correlator.endpointParse :=
       match Correlator.endpointParse log with
       | Js.Value (Some parsed) =>
           Js.Value
             (Some {| Correlator.ev_name := Correlator.ev_name parsed;
                      Correlator.ev_origin :=
                        match Correlator.ev_origin parsed with
                        | Some o =>
                            Some {| Correlator.srcEid := Correlator.srcEid o;
                                    Correlator.sender := Correlator.sender o;
                                    Correlator.nonce := n |}
                        | None => None
                        end;
                      Correlator.ev_receiver := Correlator.ev_receiver parsed |})
       | other => other
       end;
     Correlator.dvnParse := Correlator.dvnParse log |}.

(** A provider whose receipt and log queries all fail. *)
Definition outage (height : Js.attempt Z) (er : Js.Err) : Correlator.Provider :=
  {| Correlator.getTransactionReceipt := fun _ => Js.Throws er;
     Correlator.getBlockNumber := height;
     Correlator.getLogs := fun _ => Js.Throws er |}.

End Vary.

(** ** The fee estimate route (second part of
    [src/src/app/api/lz-status-onchain/route.ts]) *)

Module EstimateFee.

Import Contracts.

(** The fields read from the request body. *)
Record Request := {
  src : option string;
  dst : option string;
  amount : option string;
  tokenId : option string;
}.

Inductive Response :=
| Fee (fee : string)                      (* 200, { fee } *)
| Failure (code : Z) (error : string).

Definition zeroAddress : string := "0x0000000000000000000000000000000000000000".

(** The decimals of the underlying token; any failure keeps 18. *)
Definition decimals (w : Send.World) : Z :=
  match Send.w_token w with
  | Js.Value underlying =>
      match Send.w_decimals w underlying with
      | Js.Value d => if d =? 0 then 18 else d
      | Js.Throws _ => 18
      end
  | Js.Throws _ => 18
  end.

Section WithLib.

Variable Number_ : string -> option Z.
Variable parseNetworksJson : string -> option Config.NetworksConfig.
Variable parseTokensJson : string -> option (list Config.TokenConfig).
Variable parseUnits : string -> Z -> Js.attempt Z.
Variable buildLzReceiveOptions : Z -> Z -> string.

(** [ethers.formatEther]. *)
Variable formatEther : Z -> string.

Variable e : Config.env.

(** The combined options; any failure keeps ["0x"]. *)
Definition options (w : Send.World) (dstEid : Z) : string :=
  match Send.w_SEND w with
  | Js.Throws _ => "0x"
  | Js.Value msgType =>
      match Send.w_enforcedOptions w dstEid msgType with
      | Js.Throws _ => "0x"
      | Js.Value _ =>
          Js.catch_default
            (Send.w_combineOptions w dstEid msgType (buildLzReceiveOptions 200000 0))
            "0x"
      end
  end.

(** The body of the [try]; [w] holds the answers of the token contract
    on the source network. *)
Definition handle (w : Send.World) (body : Js.attempt Request)
  : Js.attempt Response :=
  match body with
  | Js.Throws er => Js.Throws er
  | Js.Value rq =>
      if negb (Js.truthy (src rq)) || negb (Js.truthy (dst rq))
         || negb (Js.truthy (amount rq)) || negb (Js.truthy (tokenId rq))
      then Js.Value (Failure 400 "Missing required parameters")
      else
        let src_ := Js.or_else (src rq) EmptyString in
        let dst_ := Js.or_else (dst rq) EmptyString in
        let amount_ := Js.or_else (amount rq) EmptyString in
        let tokenId_ := Js.or_else (tokenId rq) EmptyString in
        match Tokens.getTokensConfig Number_ parseNetworksJson parseTokensJson e with
        | Js.Throws er => Js.Throws er
        | Js.Value tokens =>
            if negb (Js.truthy (Config.tokenAddress tokens tokenId_ src_))
            then Js.Value (Failure 400 "Selected token not supported on source network")
            else
              match Config.getNetworkConfig Number_ parseNetworksJson e src_ with
              | Js.Throws er => Js.Throws er
              | Js.Value _ =>
                  let d := decimals w in
                  match Config.getNetworkConfig Number_ parseNetworksJson e dst_ with
                  | Js.Throws er => Js.Throws er
                  | Js.Value dstConfig =>
                      let combinedOptions := options w (Config.eid dstConfig) in
                      match buildSendParam Number_ parseNetworksJson parseUnits e
                              src_ dst_ amount_ zeroAddress (Some d)
                              (Some combinedOptions) with
                      | Js.Throws er => Js.Throws er
                      | Js.Value sendParam =>
                          match Send.w_quoteSend w sendParam with
                          | Js.Throws er => Js.Throws er
                          | Js.Value fee =>
                              Js.Value (Fee (formatEther (Send.nativeFee fee)))
                          end
                      end
                  end
              end
        end
  end.

(** [POST]: the [try] body, and the [catch] that answers 500. *)
Definition POST (w : Send.World) (body : Js.attempt Request) : Response :=
  match handle w body with
  | Js.Value resp => resp
  | Js.Throws er => Failure 500 (Js.or_else (Js.message er) "Failed to estimate fee")
  end.

End WithLib.

End EstimateFee.

(** ** What the send flow leaves behind *)

Module Flow.

Import Send.

(** The five guards at the head of [sendCrossChain], all passed. *)
Definition guardsPass (pg : Page) : bool :=
  nonempty (sourceNetwork pg) && nonempty (destNetwork pg)
  && nonempty (amount pg) && nonempty (receiverAddress pg)
  && nonempty (account pg) && nonempty (tokenId pg)
  && isPairSupported pg && hasEthereum pg.

(** The message of the first guard that fails. *)
Definition guardMessage (pg : Page) : string :=
  if negb (nonempty (sourceNetwork pg)) || negb (nonempty (destNetwork pg))
     || negb (nonempty (amount pg)) || negb (nonempty (receiverAddress pg))
  then "Please fill all fields"
  else if negb (nonempty (account pg)) then "Please connect your wallet"
  else if negb (nonempty (tokenId pg)) then "Please choose a token"
  else if negb (isPairSupported pg) then "Unsupported source/destination pair"
  else "MetaMask is not installed".

(** Events that clear the sending flag or publish a transaction. *)
Definition closing (ev : Event) : bool :=
  match ev with
  | SetIsSending false | SetTxHash _ | ClearWorkerStatus | SaveToHistory _ => true
  | _ => false
  end.

(** A trace without such events. *)
Definition steady (t : list Event) : bool := forallb (fun ev => negb (closing ev)) t.

(** The four updates that follow a submitted transaction. *)
Definition published (pg : Page) (tx : Tx) : list Event :=
  [ SetTxHash (hash tx); SetStatus "Transaction sent"; ClearWorkerStatus;
    SaveToHistory {| h_sourceNetwork := sourceNetwork pg;
                     h_destNetwork := destNetwork pg;
                     h_amount := amount pg;
                     h_receiver := receiverAddress pg;
                     h_txHash := hash tx;
                     h_status := "Success" |} ].

(** The transaction is one the token contract or the signer returned. *)
Definition delivered (w : World) (tx : Tx) : Prop :=
  (exists p f r v, w_send w p f r v = Js.Value tx)
  \/ (exists raw, raw_type raw = 0 /\ raw_gasLimit raw = 600000
                  /\ raw_to raw = w_target w
                  /\ w_sendTransaction w raw = Js.Value tx).

Section WithLib.

Variable parseUnits : string -> Z -> Js.attempt Z.

(** The three early returns inside the [try]. *)
Definition earlyTail (w : World) (pg : Page) (tail : list Event) : Prop :=
  (nonempty (resolvedAmountOf pg) = false
   /\ tail = [ SetError "Balance not loaded; connect wallet and choose token";
               SetStatus "Error"; SetIsSending false ])
  \/ (nonempty (resolvedAmountOf pg) = true
      /\ Js.truthy (Config.tokenAddress (tokens pg) (tokenId pg) (sourceNetwork pg)) = false
      /\ tail = [ SetError "Selected token is not supported on source network";
                  SetIsSending false ])
  \/ (nonempty (resolvedAmountOf pg) = true
      /\ Js.truthy (Config.tokenAddress (tokens pg) (tokenId pg) (sourceNetwork pg)) = true
      /\ result (validateAmount parseUnits pg (resolvedAmountOf pg) (decimalsOf w pg)) = Ret
      /\ tail = trace (validateAmount parseUnits pg (resolvedAmountOf pg) (decimalsOf w pg))).

(** A computation of the flow: a steady prefix, then what its outcome
    leaves behind. *)
Definition Shape {A} (w : World) (pg : Page) (m : M A) : Prop :=
  exists pre tail,
    trace m = (pre ++ tail)%list /\ steady pre = true
    /\ match result m with
       | Val _ => exists tx, delivered w tx /\ tail = published pg tx
       | Thr _ => tail = []
       | Ret => earlyTail w pg tail
       end.

(** A step that neither returns early nor emits a closing event. *)
Definition plain {A} (m : M A) : Prop :=
  steady (trace m) = true /\ result m <> Ret.

End WithLib.

End Flow.

(** ** Concrete instances used in the examples *)

Module Examples.

Definition digit (c : ascii) : option Z :=
  let n := N_of_ascii c in
  if ((48 <=? n) && (n <=? 57))%N then Some (Z.of_N (n - 48)) else None.

Fixpoint digits_from (acc : Z) (s : string) : option Z :=
  match s with
  | EmptyString => Some acc
  | String c r =>
      match digit c with
      | Some d => digits_from (acc * 10 + d) r
      | None => None
      end
  end.

(** [Number] on strings of decimal digits. *)
Definition Number_ (s : string) : option Z :=
  match s with
  | EmptyString => Some 0
  | _ => digits_from 0 s
  end.

Fixpoint split_dot (s : string) : string * option string :=
  match s with
  | EmptyString => (EmptyString, None)
  | String c r =>
      if Ascii.eqb c "." then (EmptyString, Some r)
      else let '(a, b) := split_dot r in (String c a, b)
  end.

Fixpoint all_zero (s : string) : bool :=
  match s with
  | EmptyString => true
  | String c r => Ascii.eqb c "0" && all_zero r
  end.

Definition invalid {A} : Js.attempt A := Js.Throws (Js.mkError "invalid FixedNumber string value").

(** [parseUnits] on signed decimal strings: the whole part, then the
    fraction right-padded to [decimals] digits; surplus non-zero digits
    are rejected. *)
Definition parseUnits (value : string) (decimals : Z) : Js.attempt Z :=
  let '(neg, body) :=
    match value with
    | String "-" r => (true, r)
    | _ => (false, value)
    end in
  let '(whole, frac) := split_dot body in
  let frac := Js.nullish frac EmptyString in
  if (String.length whole + String.length frac =? 0)%nat then invalid
  else
    let d := Z.to_nat decimals in
    let padded := frac +:+ Js.repeat_char "0" (d - String.length frac) in
    if negb (all_zero (Js.slice_from d padded)) then invalid
    else
      match digits_from 0 (whole +:+ substring 0 d padded) with
      | Some v => Js.Value (if neg then - v else v)
      | None => invalid
      end.

Definition parseNetworksJson (s : string) : option Config.NetworksConfig := None.

Definition networkVars (prefix name chainId eid : string) : list (string * string) :=
  [(prefix +:+ "NAME", name); (prefix +:+ "CHAIN_ID", chainId);
   (prefix +:+ "RPC_HTTP", "https://rpc.example/" +:+ name);
   (prefix +:+ "EID", eid);
   (prefix +:+ "ENDPOINT_V2", "0x1a44076050125825900e736c501f859c50fE728c");
   (prefix +:+ "DVN", "0x8eebf8b423B73bFCa51a1Db4B7354AA0bFCA9193");
   (prefix +:+ "EXECUTOR", "0x718B92b5CB0a5552039B593faF724D182A881eDA");
   (prefix +:+ "LZ_EXECUTOR", "0x718B92b5CB0a5552039B593faF724D182A881eDA");
   (prefix +:+ "OFT", "0xAbCd000000000000000000000000000000001234");
   (prefix +:+ "PRICE_FEED", "0x0000000000000000000000000000000000000011");
   (prefix +:+ "RECEIVE_ULN", "0x0000000000000000000000000000000000000012");
   (prefix +:+ "SEND_ULN", "0x0000000000000000000000000000000000000013");
   (prefix +:+ "TREASURY", "0x0000000000000000000000000000000000000014")].

(** An environment with both networks configured and no aggregator. *)
Definition env0 : Config.env :=
  list_to_map (networkVars "NEXT_PUBLIC_HII_" "Hii" "22988" "40422"
               ++ networkVars "NEXT_PUBLIC_SEPOLIA_" "Sepolia" "11155111" "40161")%list.

Definition oftAddress : string := "0xAbCd000000000000000000000000000000001234".

Definition tokens0 : list Config.TokenConfig :=
  [ {| Config.id := "default"; Config.symbol := "OFT"; Config.token_name := "OFT Token";
       Config.addresses := {[ "hii" := oftAddress; "sepolia" := oftAddress ]};
       Config.nativeAdapter := None |};
    {| Config.id := "hnc_native"; Config.symbol := "HNC"; Config.token_name := "Native HNC";
       Config.addresses := {[ "hii" := oftAddress ]};
       Config.nativeAdapter := Some true |} ].

Definition buildLzReceiveOptions (gas value : Z) : string :=
  "0x00030100110100000000000000000000000000030d40".

Definition encodeSend (p : Contracts.SendParam) (f : Send.Fee) (refund : string) : string :=
  "0xc7c7f5b3" +:+ Js.slice_from 2 (Contracts.to p) +:+ Js.slice_from 2 refund.

Definition decodeOftError (er : Js.Err) : option string := None.

Definition account0 : string := "0x1111111111111111111111111111111111111111".

(** A source node that lacks the state the gas estimation needs. *)
Definition trieError : Js.Err :=
  {| Js.message := Some "missing trie node 5a3f (path ) state 0x5a3f is not available";
     Js.nested_message := Js.MAbsent; Js.data := None |}.

(** A world in which every call succeeds. *)
Definition world0 : Send.World :=
  {| Send.w_switch := Send.SwitchOk;
     Send.w_getSigner := Js.Value tt;
     Send.w_getAddress := Js.Value account0;
     Send.w_token := Js.Value "0x2222222222222222222222222222222222222222";
     Send.w_decimals := fun _ => Js.Value 18;
     Send.w_SEND := Js.Value 1;
     Send.w_enforcedOptions := fun _ _ => Js.Value "0x";
     Send.w_combineOptions := fun _ _ o => Js.Value o;
     Send.w_quoteSend := fun _ => Js.Value {| Send.nativeFee := 1000; Send.lzTokenFee := 0 |};
     Send.w_send := fun _ _ _ _ => Js.Value {| Send.hash := "0xaaaa" |};
     Send.w_getFeeData := Js.Value {| Send.gasPrice := Some 7; Send.maxFeePerGas := None |};
     Send.w_sendTransaction := fun _ => Js.Value {| Send.hash := "0xbbbb" |};
     Send.w_target := oftAddress |}.

(** The same world, except that the contract call fails on a missing
    trie node. *)
Definition worldTrie : Send.World :=
  {| Send.w_switch := Send.SwitchOk;
     Send.w_getSigner := Js.Value tt;
     Send.w_getAddress := Js.Value account0;
     Send.w_token := Js.Value "0x2222222222222222222222222222222222222222";
     Send.w_decimals := fun _ => Js.Value 18;
     Send.w_SEND := Js.Value 1;
     Send.w_enforcedOptions := fun _ _ => Js.Value "0x";
     Send.w_combineOptions := fun _ _ o => Js.Value o;
     Send.w_quoteSend := fun _ => Js.Value {| Send.nativeFee := 1000; Send.lzTokenFee := 0 |};
     Send.w_send := fun _ _ _ _ => Js.Throws trieError;
     Send.w_getFeeData := Js.Value {| Send.gasPrice := Some 7; Send.maxFeePerGas := None |};
     Send.w_sendTransaction := fun _ => Js.Value {| Send.hash := "0xbbbb" |};
     Send.w_target := oftAddress |}.

Definition pageWith (tokenId amount : string) : Send.Page :=
  {| Send.sourceNetwork := "hii"; Send.destNetwork := "sepolia";
     Send.amount := amount; Send.receiverAddress := account0;
     Send.account := account0; Send.tokenId := tokenId;
     Send.hasEthereum := true; Send.currentChainId := Some 22988;
     Send.balanceWei := Some 20000000000000000000;
     Send.balanceFormatted := "20.0";
     Send.supportedPairs := [("hii", "sepolia")];
     Send.tokens := tokens0 |}.

Definition sendParam0 : Contracts.SendParam :=
  {| Contracts.dstEid := 40161;
     Contracts.to := Contracts.addressToBytes32 account0;
     Contracts.amountLD := 12500000000000000000;
     Contracts.minAmountLD := 12375000000000000000;
     Contracts.extraOptions := buildLzReceiveOptions 200000 0;
     Contracts.composeMsg := "0x";
     Contracts.oftCmd := "0x" |}.

Definition fee0 : Send.Fee := {| Send.nativeFee := 1000; Send.lzTokenFee := 0 |}.

(** The topic of an event, kept as its signature. *)
Definition ethers_id (signature : string) : string := signature.

Definition packetLog (txh evName : string) (eid : Z) (sender : string) : Correlator.Log :=
  {| Correlator.transactionHash := txh;
     Correlator.endpointParse :=
       Js.Value (Some {| Correlator.ev_name := evName;
                         Correlator.ev_origin :=
                           Some {| Correlator.srcEid := eid;
                                   Correlator.sender := sender;
                                   Correlator.nonce := 7 |};
                         Correlator.ev_receiver := Some account0 |});
     Correlator.dvnParse := Js.Value None |}.

(** A log of another contract's event, which the endpoint ABI rejects. *)
Definition foreignLog : Correlator.Log :=
  {| Correlator.transactionHash := "0xf0";
     Correlator.endpointParse := Js.Throws (Js.mkError "no matching event");
     Correlator.dvnParse := Js.Value None |}.

Definition paddedOft : string :=
  "0x000000000000000000000000ABCD000000000000000000000000000000001234".

Definition otherSender : string :=
  "0x0000000000000000000000009999999999999999999999999999999999999999".

(** Delivered logs: a foreign event, a delivery for another sender, the
    delivery of this transfer, and a later delivery by the same sender. *)
Definition deliveredLogs0 : list Correlator.Log :=
  [ foreignLog;
    packetLog "0xd1" "PacketDelivered" 40422 otherSender;
    packetLog "0xd2" "PacketDelivered" 40422 paddedOft;
    packetLog "0xd3" "PacketDelivered" 40422 paddedOft ].

(** A node that knows the receipt [receipt], a destination at height
    [height], and the given delivered and verified logs. *)
Definition provider (receipt : option Correlator.Receipt) (height : Z)
    (delivered verified : list Correlator.Log) (key : string) : Correlator.Provider :=
  {| Correlator.getTransactionReceipt := fun _ => Js.Value receipt;
     Correlator.getBlockNumber := Js.Value height;
     Correlator.getLogs := fun f =>
       match Correlator.f_topics f with
       | Some [t] =>
           if String.eqb t "PacketDelivered((uint32,bytes32,uint64),address)"
           then Js.Value delivered else Js.Value verified
       | _ => Js.Value []
       end |}.

Definition request0 : Correlator.Request :=
  {| Correlator.txHash := Some "0x5e";
     Correlator.sourceNetwork := Some "hii";
     Correlator.destNetwork := Some "sepolia";
     Correlator.tokenId := Some "default";
     Correlator.scanWindow := None;
     Correlator.includeDvn := None |}.

(** A stand-in for the base64 encoder. *)
Definition base64 (s : string) : string := s.

(** An upstream answer of status [code] whose body is not JSON. *)
Definition upstream (code : Z) (text : string) : AggProxy.Upstream :=
  {| AggProxy.up_status := code;
     AggProxy.up_text := Js.Value text;
     AggProxy.up_json := Js.Throws (Js.mkError "Unexpected token") |}.

Definition envAgg (user pass : string) : Config.env :=
  <[ "STATUS_API_PASSWORD" := pass ]>
    (<[ "STATUS_API_USERNAME" := user ]>
       (<[ "STATUS_API_BASE" := "https://agg.example/v1" ]> env0)).

Definition hiiConfig : Config.NetworkConfig :=
  {| Config.name := "Hii"; Config.chainId := 22988;
     Config.rpcHttp := "https://rpc.example/Hii";
     Config.rpcWs := None; Config.eid := 40422;
     Config.endpointV2 := "0x1a44076050125825900e736c501f859c50fE728c";
     Config.dvn := "0x8eebf8b423B73bFCa51a1Db4B7354AA0bFCA9193";
     Config.executor := "0x718B92b5CB0a5552039B593faF724D182A881eDA";
     Config.lzExecutor := "0x718B92b5CB0a5552039B593faF724D182A881eDA";
     Config.oft := "0xAbCd000000000000000000000000000000001234";
     Config.priceFeed := "0x0000000000000000000000000000000000000011";
     Config.receiveUln := "0x0000000000000000000000000000000000000012";
     Config.sendUln := "0x0000000000000000000000000000000000000013";
     Config.treasury := "0x0000000000000000000000000000000000000014";
     Config.explorerTxBase := None |}.

Definition sepoliaConfig : Config.NetworkConfig :=
  {| Config.name := "Sepolia"; Config.chainId := 11155111;
     Config.rpcHttp := "https://rpc.example/Sepolia";
     Config.rpcWs := None; Config.eid := 40161;
     Config.endpointV2 := "0x1a44076050125825900e736c501f859c50fE728c";
     Config.dvn := "0x8eebf8b423B73bFCa51a1Db4B7354AA0bFCA9193";
     Config.executor := "0x718B92b5CB0a5552039B593faF724D182A881eDA";
     Config.lzExecutor := "0x718B92b5CB0a5552039B593faF724D182A881eDA";
     Config.oft := "0xAbCd000000000000000000000000000000001234";
     Config.priceFeed := "0x0000000000000000000000000000000000000011";
     Config.receiveUln := "0x0000000000000000000000000000000000000012";
     Config.sendUln := "0x0000000000000000000000000000000000000013";
     Config.treasury := "0x0000000000000000000000000000000000000014";
     Config.explorerTxBase := None |}.

End Examples.

(** ** Further instances *)

Module Samples.

(** A page state whose aggregator slot reads executed in capitals, which
    the poll's own stop test does not recognise. *)
Definition executedState : Status.PollState :=
  {| Status.aggStatus := Some (Status.aggWithStatus "EXECUTED");
     Status.lzWorkerStatus := None;
     Status.stopped := false |}.

(** The correlator's answer for a delivered packet. *)
Definition executedResult : Correlator.Result :=
  {| Correlator.stage := "executed";
     Correlator.source_status := "Sent";
     Correlator.source_txHash := "0x5e";
     Correlator.destination_status := "Delivered";
     Correlator.destination_txHash := Some "0xd2";
     Correlator.origin := None;
     Correlator.receiver := None;
     Correlator.verification := None;
     Correlator.networkBase := "Hiiâ†’Sepolia";
     Correlator.window_fromBlock := 500;
     Correlator.window_toBlock := 1000 |}.


(** A message whose destination transaction is reported as succeeded,
    not as delivered. *)
Definition successMsg : Scanner.ScanMessage :=
  {| Scanner.pathway := None;
     Scanner.source_status := Some "SUCCEEDED";
     Scanner.source_txHash := Some "0x5e";
     Scanner.destination_status := Some "SUCCEEDED";
     Scanner.destination_txHash := Some "0xd2";
     Scanner.payloadStoredTx := None;
     Scanner.dvn_status := Some "SUCCEEDED";
     Scanner.sealer_status := Some "SUCCEEDED";
     Scanner.guid := Some "0x01";
     Scanner.status_name := Some "DELIVERED";
     Scanner.status_message := None |}.



Definition scanRequest : Http.json := Http.JObj [("txHash", Http.JStr "0x5e")].

(** The token list built from [Examples.env0]. *)
Definition builtin0 : list Config.TokenConfig :=
  match Tokens.builtinTokens Examples.Number_ Examples.parseNetworksJson Examples.env0 with
  | Js.Value ts => ts
  | Js.Throws _ => []
  end.

Definition entry (txh : string) : Send.HistoryEntry :=
  {| Send.h_sourceNetwork := "hii"; Send.h_destNetwork := "sepolia";
     Send.h_amount := "1"; Send.h_receiver := Examples.account0;
     Send.h_txHash := txh; Send.h_status := "Success" |}.

(** An ABI that knows none of the errors it is asked about. *)
Definition parseError0 (data : string) : Js.attempt (option Decode.ErrorDescription) :=
  Js.Throws (Js.mkError "no matching error").

(** Nodes that know the destination height and fail every other query. *)
Definition rpcDown (key : string) : Correlator.Provider :=
  Vary.outage (Js.Value 1000) (Js.mkError "request timeout").

(** A request without a transaction hash. *)
Definition requestNoHash : Correlator.Request :=
  {| Correlator.txHash := None;
     Correlator.sourceNetwork := Some "hii";
     Correlator.destNetwork := Some "sepolia";
     Correlator.tokenId := Some "default";
     Correlator.scanWindow := None;
     Correlator.includeDvn := None |}.

Definition fetchDown (rq : AggProxy.FetchRequest) : Js.attempt AggProxy.Upstream :=
  Js.Throws (Js.mkError "fetch failed").

Definition fetchUp (rq : AggProxy.FetchRequest) : Js.attempt AggProxy.Upstream :=
  Js.Value (Examples.upstream 200 "ok").

(** A world in which the fee quote reverts. *)
Definition worldQuoteFails : Send.World :=
  {| Send.w_switch := Send.SwitchOk;
     Send.w_getSigner := Js.Value tt;
     Send.w_getAddress := Js.Value Examples.account0;
     Send.w_token := Js.Value "0x2222222222222222222222222222222222222222";
     Send.w_decimals := fun _ => Js.Value 18;
     Send.w_SEND := Js.Value 1;
     Send.w_enforcedOptions := fun _ _ => Js.Value "0x";
     Send.w_combineOptions := fun _ _ o => Js.Value o;
     Send.w_quoteSend := fun _ => Js.Throws (Js.mkError "execution reverted");
     Send.w_send := fun _ _ _ _ => Js.Value {| Send.hash := "0xaaaa" |};
     Send.w_getFeeData := Js.Value {| Send.gasPrice := Some 7; Send.maxFeePerGas := None |};
     Send.w_sendTransaction := fun _ => Js.Value {| Send.hash := "0xbbbb" |};
     Send.w_target := Examples.oftAddress |}.

(** An error whose own message names the missing trie node while the
    node's nested message says something else. *)
Definition shadowedTrieError : Js.Err :=
  {| Js.message := Some "could not coalesce error: missing trie node 5a3f";
     Js.nested_message := Js.MStr "execution reverted";
     Js.data := None |}.

(** A world whose contract call fails with that error. *)
Definition worldShadowed : Send.World :=
  {| Send.w_switch := Send.SwitchOk;
     Send.w_getSigner := Js.Value tt;
     Send.w_getAddress := Js.Value Examples.account0;
     Send.w_token := Js.Value "0x2222222222222222222222222222222222222222";
     Send.w_decimals := fun _ => Js.Value 18;
     Send.w_SEND := Js.Value 1;
     Send.w_enforcedOptions := fun _ _ => Js.Value "0x";
     Send.w_combineOptions := fun _ _ o => Js.Value o;
     Send.w_quoteSend := fun _ => Js.Value {| Send.nativeFee := 1000; Send.lzTokenFee := 0 |};
     Send.w_send := fun _ _ _ _ => Js.Throws shadowedTrieError;
     Send.w_getFeeData := Js.Value {| Send.gasPrice := Some 7; Send.maxFeePerGas := None |};
     Send.w_sendTransaction := fun _ => Js.Value {| Send.hash := "0xbbbb" |};
     Send.w_target := Examples.oftAddress |}.

(** Stand-ins for the two errors of the [Response] constructor. *)
Definition rangeError : Js.Err :=
  Js.mkError "RangeError: status must be in the range of 200 to 599".
Definition nullBodyError : Js.Err :=
  Js.mkError "TypeError: invalid response status code for a body".

(** A request that names a network nobody configured. *)
Definition requestUnknown : Correlator.Request :=
  {| Correlator.txHash := Some "0x5e";
     Correlator.sourceNetwork := Some "goerli";
     Correlator.destNetwork := Some "sepolia";
     Correlator.tokenId := Some "default";
     Correlator.scanWindow := None;
     Correlator.includeDvn := None |}.

(** A fee request that names no amount. *)
Definition feeRequestNoAmount : EstimateFee.Request :=
  {| EstimateFee.src := Some "hii"; EstimateFee.dst := Some "sepolia";
     EstimateFee.amount := None; EstimateFee.tokenId := Some "default" |}.

Definition parseTokensJson (s : string) : option (list Config.TokenConfig) := None.

(** A stand-in for [ethers.formatEther] on the fees of the examples. *)
Definition formatEther (wei : Z) : string :=
  if wei =? 1000 then "0.000000000000001" else "0.0".

End Samples.

(** * Properties *)

(** ** Ranks and the rank merge *)

Section StatusFacts.

Import Status.

Lemma indexOf_from_range (i : Z) (x : string) (l : list string) :
  Js.indexOf_from i x l = -1
  \/ i <= Js.indexOf_from i x l < i + Z.of_nat (length l).
Proof.
  revert i. induction l as [|y r IH]; intros i; simpl; [now left|].
  destruct (String.eqb y x); [right; lia|].
  destruct (IH (i + 1)) as [->|H]; [now left | right; lia].
Qed.

Lemma indexOf_from_absent (i : Z) (x : string) (l : list string) :
  ~ In x l -> Js.indexOf_from i x l = -1.
Proof.
  revert i. induction l as [|y r IH]; intros i Hn; simpl; [reflexivity|].
  destruct (String.eqb_spec y x) as [->|_].
  - exfalso. apply Hn. now left.
  - apply IH. intros Hin. apply Hn. now right.
Qed.

Lemma getStatusRank_range (s : option string) : 0 <= getStatusRank s <= 5.
Proof.
  unfold getStatusRank, Js.indexOf. cbv zeta.
  pose proof (indexOf_from_range 0 (Js.toLowerCase (Js.or_else s "unknown")) order) as H.
  change (Z.of_nat (length order)) with 6 in H.
  destruct (Z.eqb_spec (Js.indexOf_from 0 (Js.toLowerCase (Js.or_else s "unknown")) order) (-1));
    lia.
Qed.

Lemma getStatusRank_outside (s : option string) :
  ~ In (Js.toLowerCase (Js.or_else s "unknown")) order -> getStatusRank s = 0.
Proof.
  intros H. unfold getStatusRank, Js.indexOf.
  now rewrite (indexOf_from_absent 0 _ _ H).
Qed.

Lemma getStatusRank_none : getStatusRank None = 0.
Proof. reflexivity. Qed.

Section Generic.
Context {A : Type} (rk : option A -> Z).
Hypothesis rk_min : forall x, rk None <= rk x.

Lemma rankMerge_rank (next prev : option A) :
  rk (rankMerge rk next prev) = Z.max (rk prev) (rk next).
Proof.
  unfold rankMerge. destruct prev as [p|].
  - destruct (Z.geb_spec (rk next) (rk (Some p))); lia.
  - specialize (rk_min next). lia.
Qed.

Lemma rankMerge_choice (next prev : option A) :
  rankMerge rk next prev = next \/ rankMerge rk next prev = prev.
Proof.
  unfold rankMerge. destruct prev; [destruct (_ >=? _)|]; auto.
Qed.

Lemma rankMerge_same (x : option A) : rankMerge rk x x = x.
Proof.
  unfold rankMerge. destruct x as [a|]; [|reflexivity].
  destruct (Z.geb_spec (rk (Some a)) (rk (Some a))); [reflexivity | lia].
Qed.

Lemma rankMerge_idem (next prev : option A) :
  rankMerge rk next (rankMerge rk next prev) = rankMerge rk next prev.
Proof.
  destruct (rankMerge_choice next prev) as [H|H].
  - rewrite H. apply rankMerge_same.
  - rewrite H. exact H.
Qed.

Lemma rankMerge_lower (next : option A) (p : A) :
  rk next < rk (Some p) -> rankMerge rk next (Some p) = Some p.
Proof.
  intros H. unfold rankMerge.
  destruct (Z.geb_spec (rk next) (rk (Some p))); [lia|reflexivity].
Qed.

Lemma rankMergeAll_rank (l : list (option A)) (prev : option A) :
  rk (rankMergeAll rk prev l) = fold_left Z.max (map rk l) (rk prev).
Proof.
  revert prev. induction l as [|n l IH]; intros prev; simpl; [reflexivity|].
  unfold rankMergeAll in *. simpl. rewrite IH. now rewrite rankMerge_rank.
Qed.

Lemma rankMergeAll_elem (l : list (option A)) (prev : option A) :
  rankMergeAll rk prev l = prev \/ In (rankMergeAll rk prev l) l.
Proof.
  revert prev. induction l as [|n l IH]; intros prev; [now left|].
  unfold rankMergeAll in *. simpl.
  destruct (IH (rankMerge rk n prev)) as [H|H].
  - rewrite H. destruct (rankMerge_choice n prev) as [->| ->]; auto.
  - auto.
Qed.

Lemma rankMerge_ge (next prev : option A) :
  rankMerge rk next prev = if rk next >=? rk prev then next else prev.
Proof.
  unfold rankMerge. destruct prev as [p|]; [reflexivity|].
  specialize (rk_min next).
  destruct (Z.geb_spec (rk next) (rk None)); [reflexivity | lia].
Qed.

(** Folding the merge over a sequence ends on the last status of maximal
    rank, the initial status counting as the first of the sequence. *)
Lemma rankMergeAll_last_max (l : list (option A)) (prev : option A) :
  exists l1 l2,
    prev :: l = (l1 ++ rankMergeAll rk prev l :: l2)%list
    /\ (forall y, In y l1 -> rk y <= rk (rankMergeAll rk prev l))
    /\ (forall y, In y l2 -> rk y < rk (rankMergeAll rk prev l)).
Proof.
  revert prev. induction l as [|n l IH]; intros prev.
  - exists [], []. split; [reflexivity|]. split; intros y [].
  - change (rankMergeAll rk prev (n :: l)) with (rankMergeAll rk (rankMerge rk n prev) l).
    assert (Hm : (rankMerge rk n prev = n /\ rk prev <= rk n)
                 \/ (rankMerge rk n prev = prev /\ rk n < rk prev)).
    { rewrite rankMerge_ge.
      destruct (Z.geb_spec (rk n) (rk prev)); [left | right]; split; auto; lia. }
    destruct (IH (rankMerge rk n prev)) as (l1 & l2 & E & H1 & H2).
    destruct l1 as [|h l1'].
    + injection E as E1 E2. subst l2.
      destruct Hm as [[Hm Hle]|[Hm Hlt]]; rewrite Hm in E1, H2 |- *;
        rewrite <- E1 in H2 |- *.
      * exists [prev], l. split; [reflexivity|]. split; [|exact H2].
        intros y [<-|[]]. exact Hle.
      * exists [], (n :: l). split; [reflexivity|]. split; [intros y []|].
        intros y [<-|Hy]; [exact Hlt | now apply H2].
    + injection E as E1 E2.
      exists (prev :: n :: l1'), l2. split; [cbn; do 2 f_equal; exact E2|].
      split; [|exact H2].
      pose proof (H1 _ (or_introl eq_refl)) as Hmx.
      rewrite <- E1 in Hmx at 1. rewrite rankMerge_rank in Hmx.
      intros y [<-|[<-|Hy]]; [lia | lia | apply H1; now right].
Qed.

End Generic.

Lemma fold_max_perm (l1 l2 : list Z) :
  Permutation l1 l2 -> forall a, fold_left Z.max l1 a = fold_left Z.max l2 a.
Proof.
  induction 1 as [|x l l' _ IH|x y l|l l' l'' _ IH1 _ IH2]; intros a; simpl.
  - reflexivity.
  - apply IH.
  - f_equal. lia.
  - now rewrite IH1.
Qed.

Lemma rkAgg_min (x : option AggStatus) : rkAgg None <= rkAgg x.
Proof. unfold rkAgg. simpl. rewrite getStatusRank_none. apply getStatusRank_range. Qed.

Lemma rkWorker_min (x : option WorkerStatus) : rkWorker None <= rkWorker x.
Proof. unfold rkWorker. simpl. rewrite getStatusRank_none. apply getStatusRank_range. Qed.

Lemma mergeAgg_rankMerge (json prev : option AggStatus) :
  mergeAgg json prev = rankMerge rkAgg json prev.
Proof. reflexivity. Qed.

Lemma mergeWorker_rankMerge (next : WorkerStatus) (prev : option WorkerStatus) :
  mergeWorker next prev = rankMerge rkWorker (Some next) prev.
Proof. reflexivity. Qed.

Lemma mergeAll_rankMergeAll (l : list WorkerStatus) (prev : option WorkerStatus) :
  mergeAll prev l = rankMergeAll rkWorker prev (map Some l).
Proof.
  revert prev. induction l as [|n l IH]; intros prev; [reflexivity|].
  unfold mergeAll, rankMergeAll in *. simpl. now rewrite IH.
Qed.

Lemma mergeAllAgg_rankMergeAll (l : list (option AggStatus)) (prev : option AggStatus) :
  mergeAllAgg prev l = rankMergeAll rkAgg prev l.
Proof. reflexivity. Qed.

Lemma keepWorker_rank (prev : option WorkerStatus) :
  rkWorker (keepWorker prev) = rkWorker prev.
Proof. destruct prev; reflexivity. Qed.


Lemma tick_aggRank (agg : fetched AggStatus) (wk : fetched WorkerJson) (st : PollState) :
  aggRank st <= aggRank (tick agg wk st).
Proof.
  unfold aggRank, tick. destruct agg; simpl; try lia.
  rewrite mergeAgg_rankMerge.
  change (rkAgg (aggStatus st) <= rkAgg (rankMerge rkAgg json (aggStatus st))).
  rewrite (rankMerge_rank rkAgg rkAgg_min). lia.
Qed.

Lemma tick_workerRank (agg : fetched AggStatus) (wk : fetched WorkerJson) (st : PollState) :
  workerRank st <= workerRank (tick agg wk st).
Proof.
  unfold workerRank, tick.
  assert (Hw : lzWorkerStatus (match agg with
                               | Ok200 json =>
                                   {| aggStatus := mergeAgg json (aggStatus st);
                                      lzWorkerStatus := lzWorkerStatus st;
                                      stopped := stopped st || is_executed (agg_stage json) |}
                               | _ => st
                               end) = lzWorkerStatus st) by (destruct agg; reflexivity).
  simpl. rewrite Hw.
  change (rkWorker (lzWorkerStatus st) <=
          rkWorker (match wk with
                    | Ok200 json => mergeWorker (nextOfJson json) (lzWorkerStatus st)
                    | _ => keepWorker (lzWorkerStatus st)
                    end)).
  destruct wk; rewrite ?keepWorker_rank; try lia.
  rewrite mergeWorker_rankMerge, (rankMerge_rank rkWorker rkWorker_min). lia.
Qed.

Lemma interval_ranks (agg : fetched AggStatus) (wk : fetched WorkerJson) (st : PollState) :
  aggRank st <= aggRank (interval agg wk st)
  /\ workerRank st <= workerRank (interval agg wk st).
Proof.
  unfold interval. destruct (stopped st); [lia|].
  split; [apply tick_aggRank | apply tick_workerRank].
Qed.

Lemma poll_from_ranks (ticks : list (fetched AggStatus * fetched WorkerJson)) (st : PollState) :
  aggRank st <= aggRank (poll_from st ticks)
  /\ workerRank st <= workerRank (poll_from st ticks).
Proof.
  revert st. induction ticks as [|[a w] r IH]; intros st; [simpl; lia|].
  unfold poll_from in *. simpl.
  destruct (interval_ranks a w st) as [H1 H2].
  destruct (IH (interval a w st)) as [H3 H4]. lia.
Qed.

End StatusFacts.

Section StatusClaims.

Import Status.


Lemma tick_lzWorkerStatus (agg : fetched AggStatus) (wk : fetched WorkerJson) (st : PollState) :
  lzWorkerStatus (tick agg wk st)
  = match wk with
    | Ok200 json => mergeWorker (nextOfJson json) (lzWorkerStatus st)
    | _ => keepWorker (lzWorkerStatus st)
    end.
Proof. destruct agg, wk; reflexivity. Qed.


Lemma mergeWorker_replaces (next : WorkerStatus) (prev : option WorkerStatus) :
  mergeWorker next prev = keepWorker prev
  \/ (mergeWorker next prev = Some next /\ rkWorker prev <= rank_of next).
Proof.
  unfold mergeWorker. destruct prev as [p|].
  - destruct (Z.geb_spec (getStatusRank (Some (stage next)))
                         (getStatusRank (worker_stage (Some p)))) as [H|H].
    + right. split; [reflexivity|]. unfold rkWorker, rank_of. lia.
    + left. reflexivity.
  - right. split; [reflexivity|]. apply (rkWorker_min (Some next)).
Qed.







(** C10 does not hold for every name outside the list: such a name can
    still rank above zero, because the rank lower-cases its input. *)
Lemma rank_outside_list_counterexample :
  ~ In "EXECUTED" order /\ getStatusRank (Some "EXECUTED") = 5.
Proof.
  split; [|reflexivity].
  unfold order. simpl. intros H.
  repeat (destruct H as [H|H]; [discriminate H|]). exact H.
Qed.

(** C10 (amended). The rank is defined on every input, [null] and
    [undefined] included, and lies in 0..5; a name whose lower-case form
    is outside the list ranks 0; the correlator's stage ranks 5 when a
    delivered match exists and 0 otherwise, so inflight and verified rank
    0; and an on-chain answer of stage inflight or verified never
    replaces a published worker status of rank 1 or more. *)
Theorem rank_total_and_onchain_stages_rank_zero
    (s : option string) (m v : option Correlator.Matched)
    (r : option Correlator.Receipt)
    (agg : fetched AggStatus) (j : WorkerJson) (st : PollState) (p : WorkerStatus) :
  0 <= getStatusRank s <= 5
  /\ (~ In (Js.toLowerCase (Js.or_else s "unknown")) order -> getStatusRank s = 0)
  /\ getStatusRank (Some (Correlator.deriveStage m v r))
     = match m with Some _ => 5 | None => 0 end
  /\ getStatusRank (Some "inflight") = 0
  /\ getStatusRank (Some "verified") = 0
  /\ (j_stage j = Some "inflight" \/ j_stage j = Some "verified" ->
      lzWorkerStatus st = Some p ->
      1 <= rank_of p ->
      lzWorkerStatus (tick agg (Ok200 (Some j)) st) = Some p).
Proof.
  split; [apply getStatusRank_range|].
  split; [apply getStatusRank_outside|].
  split.
  { unfold Correlator.deriveStage.
    destruct m; [reflexivity|]. destruct v; [reflexivity|].
    destruct r; [|reflexivity].
    destruct (Correlator.sentOk _); reflexivity. }
  split; [reflexivity|]. split; [reflexivity|].
  intros Hj Hp Hr. rewrite tick_lzWorkerStatus, Hp.
  rewrite mergeWorker_rankMerge. apply rankMerge_lower.
  change (rkWorker (Some p)) with (rank_of p).
  assert (rkWorker (Some (nextOfJson (Some j))) = 0) as ->; [|lia].
  unfold rkWorker, nextOfJson. simpl.
  destruct Hj as [-> | ->]; reflexivity.
Qed.

(** A verified answer of the correlator, merged into a worker status
    that already holds stage sent. *)
Lemma rank_total_and_onchain_stages_rank_zero_witness :
  let st := {| aggStatus := None; lzWorkerStatus := Some (withStage "sent");
               stopped := false |} in
  getStatusRank (Some "delivered") = 0
  /\ lzWorkerStatus (tick NetworkError (Ok200 (Some (jsonWithStage "verified"))) st)
     = Some (withStage "sent").
Proof.
  intros st.
  destruct (rank_total_and_onchain_stages_rank_zero
              (Some "delivered") None None None NetworkError
              (jsonWithStage "verified") st (withStage "sent"))
    as (_ & H0 & _ & _ & _ & Hk).
  split.
  - apply H0. unfold order. simpl. intros H.
    repeat (destruct H as [H|H]; [discriminate H|]). exact H.
  - apply Hk; [right; reflexivity | reflexivity | vm_compute; discriminate].
Defined.

Lemma mergeAll_perm_rank (prev : option WorkerStatus) (l1 l2 : list WorkerStatus) :
  Permutation l1 l2 ->
  rkWorker (mergeAll prev l1) = rkWorker (mergeAll prev l2).
Proof.
  intros HP. rewrite !mergeAll_rankMergeAll.
  rewrite !(rankMergeAll_rank rkWorker rkWorker_min).
  apply fold_max_perm. now do 2 apply Permutation_map.
Qed.

Lemma mergeAllAgg_perm_rank (prev : option AggStatus) (l1 l2 : list (option AggStatus)) :
  Permutation l1 l2 ->
  rkAgg (mergeAllAgg prev l1) = rkAgg (mergeAllAgg prev l2).
Proof.
  intros HP. rewrite !mergeAllAgg_rankMergeAll.
  rewrite !(rankMergeAll_rank rkAgg rkAgg_min).
  apply fold_max_perm. now apply Permutation_map.
Qed.

(** The merged sequence ends on nothing (nothing was fed) or on one of
    the statuses that went in. *)
Lemma mergeAll_candidate (prev : option WorkerStatus) (l : list WorkerStatus) :
  (mergeAll prev l = None /\ prev = None /\ l = [])
  \/ exists x, mergeAll prev l = Some x /\ In x (candidates prev l).
Proof.
  rewrite mergeAll_rankMergeAll.
  destruct (rankMergeAll_elem rkWorker (map Some l) prev) as [H|H].
  - rewrite H. destruct prev as [p|].
    + right. exists p. split; [reflexivity | now left].
    + destruct l as [|n l]; [now left|]. exfalso.
      revert H. rewrite <- mergeAll_rankMergeAll.
      unfold mergeAll. simpl.
      change (fold_left (fun p n0 => mergeWorker n0 p) l (Some n))
        with (mergeAll (Some n) l).
      rewrite mergeAll_rankMergeAll.
      destruct (rankMergeAll_elem rkWorker (map Some l) (Some n)) as [H'|H'].
      * rewrite H'. discriminate.
      * intros E. rewrite E in H'. apply in_map_iff in H'.
        destruct H' as (x & Hx & _). discriminate.
  - apply in_map_iff in H. destruct H as (x & Hx & Hin).
    right. exists x. split; [now rewrite Hx|].
    unfold candidates. destruct prev; [now right | exact Hin].
Qed.

(** C4 does not hold for the stage itself: two statuses of equal rank
    replace each other, so the last one fed wins. The correlator's
    inflight and verified both rank 0. *)
Lemma merge_order_counterexample :
  Permutation [withStage "inflight"; withStage "verified"]
              [withStage "verified"; withStage "inflight"]
  /\ shownStage (mergeAll None [withStage "inflight"; withStage "verified"]) = "verified"
  /\ shownStage (mergeAll None [withStage "verified"; withStage "inflight"]) = "inflight".
Proof.
  split; [apply perm_swap|]. split; reflexivity.
Qed.

Lemma mergeAll_snoc (prev : option WorkerStatus) (l : list WorkerStatus)
    (a : WorkerStatus) :
  mergeAll prev (l ++ [a]) = mergeWorker a (mergeAll prev l).
Proof. unfold mergeAll. now rewrite fold_left_app. Qed.

(** A status of maximal rank, merged last, is the one published. *)
Lemma mergeAll_last_wins (prev : option WorkerStatus) (l : list WorkerStatus)
    (a : WorkerStatus) :
  In a l -> rank_of a = rkWorker (mergeAll prev l) ->
  exists l', Permutation l l' /\ mergeAll prev l' = Some a.
Proof.
  intros Hin Hr. destruct (List.in_split _ _ Hin) as (u & v & ->).
  exists ((u ++ v) ++ [a])%list.
  assert (HP : Permutation (u ++ a :: v) ((u ++ v) ++ [a])).
  { eapply Permutation_trans; [apply Permutation_sym, Permutation_middle|].
    apply Permutation_cons_append. }
  split; [exact HP|].
  pose proof (mergeAll_perm_rank prev _ _ HP) as Hperm.
  rewrite mergeAll_snoc in Hperm |- *. rewrite mergeWorker_rankMerge in Hperm |- *.
  rewrite (rankMerge_rank rkWorker rkWorker_min) in Hperm.
  rewrite (rankMerge_ge rkWorker rkWorker_min).
  change (rkWorker (Some a)) with (rank_of a) in *.
  destruct (Z.geb_spec (rank_of a) (rkWorker (mergeAll prev (u ++ v))));
    [reflexivity | lia].
Qed.

(** What a merged sequence ends on: the initial status when no fetched
    one reaches its rank, else a fetched status of maximal rank. *)
Lemma mergeAll_max (prev : option WorkerStatus) (l : list WorkerStatus) :
  (mergeAll prev l = prev
   /\ forall y, In y l -> rank_of y < rkWorker (mergeAll prev l))
  \/ exists a, mergeAll prev l = Some a /\ In a l.
Proof.
  destruct (rankMergeAll_last_max rkWorker rkWorker_min (map Some l) prev)
    as (c1 & c2 & E & H1 & H2).
  rewrite <- mergeAll_rankMergeAll in *.
  destruct c1 as [|h c1'].
  - injection E as E1 E2. left. split; [now symmetry|].
    intros y Hy. apply (H2 (Some y)). rewrite <- E2. now apply in_map.
  - injection E as E1 E2. right.
    assert (Hin : In (mergeAll prev l) (map Some l)).
    { rewrite E2. apply in_or_app. right. now left. }
    apply in_map_iff in Hin. destruct Hin as (a & Ha & Hin). exists a. auto.
Qed.

(** C4 (amended). The rank merge is idempotent; merging the same status
    again, or a lower-ranked one after a higher-ranked one, leaves the
    published status as it is. A merged sequence ends on the last status
    of maximal rank in it, the previously published status counting as
    its first element, for the worker status and for the aggregator
    status alike; so feeding the same statuses in any order ends on the
    same rank. The final stage is the same in any order as soon as
    statuses of equal rank carry equal stages, and it is the same in
    every order exactly when all fetched statuses of maximal rank show
    the same stage. *)
Theorem merge_idempotent_and_rank_order_independent
    (prev : option WorkerStatus) (n p : WorkerStatus) (l1 l2 : list WorkerStatus)
    (aprev ajson : option AggStatus) (a1 a2 : list (option AggStatus)) :
  Permutation l1 l2 ->
  Permutation a1 a2 ->
  mergeWorker n (mergeWorker n prev) = mergeWorker n prev
  /\ mergeAgg ajson (mergeAgg ajson aprev) = mergeAgg ajson aprev
  /\ mergeWorker p (Some p) = Some p
  /\ (rank_of n < rank_of p -> mergeWorker n (Some p) = Some p)
  /\ getStatusRank (worker_stage (mergeAll prev l1))
      = getStatusRank (worker_stage (mergeAll prev l2))
  /\ getStatusRank (agg_stage (mergeAllAgg aprev a1))
      = getStatusRank (agg_stage (mergeAllAgg aprev a2))
  /\ ((forall a b, In a (candidates prev l1) -> In b (candidates prev l1) ->
                   rank_of a = rank_of b -> stage a = stage b) ->
      shownStage (mergeAll prev l1) = shownStage (mergeAll prev l2))
  /\ (exists c1 c2,
        prev :: map Some l1 = (c1 ++ mergeAll prev l1 :: c2)%list
        /\ (forall y, In y c1 -> rkWorker y <= rkWorker (mergeAll prev l1))
        /\ (forall y, In y c2 -> rkWorker y < rkWorker (mergeAll prev l1)))
  /\ (exists c1 c2,
        aprev :: a1 = (c1 ++ mergeAllAgg aprev a1 :: c2)%list
        /\ (forall y, In y c1 -> rkAgg y <= rkAgg (mergeAllAgg aprev a1))
        /\ (forall y, In y c2 -> rkAgg y < rkAgg (mergeAllAgg aprev a1)))
  /\ ((forall l', Permutation l1 l' ->
         shownStage (mergeAll prev l') = shownStage (mergeAll prev l1))
      <-> (forall a b, In a l1 -> In b l1 ->
             rank_of a = rkWorker (mergeAll prev l1) ->
             rank_of b = rkWorker (mergeAll prev l1) ->
             shownStage (Some a) = shownStage (Some b))).
Proof.
  intros HP HA.
  split; [rewrite !mergeWorker_rankMerge; apply rankMerge_idem|].
  split; [rewrite !mergeAgg_rankMerge; apply rankMerge_idem|].
  split; [rewrite mergeWorker_rankMerge; apply rankMerge_same|].
  split; [intros H; rewrite mergeWorker_rankMerge; now apply rankMerge_lower|].
  split; [now apply mergeAll_perm_rank|].
  split; [now apply mergeAllAgg_perm_rank|].
  split.
  { intros Hinj.
    pose proof (mergeAll_perm_rank prev l1 l2 HP) as Hr.
    destruct (mergeAll_candidate prev l1) as [(E1 & -> & ->)|(x & E1 & Hx)].
    - apply Permutation_nil in HP. subst l2. reflexivity.
    - destruct (mergeAll_candidate prev l2) as [(E2 & -> & ->)|(y & E2 & Hy)].
      + apply Permutation_sym, Permutation_nil in HP. subst l1. destruct Hx.
      + rewrite E1, E2 in Hr |- *.
        assert (Hy' : In y (candidates prev l1)).
        { unfold candidates in *. destruct prev as [q|].
          - destruct Hy as [->|Hy]; [now left | right].
            now apply (Permutation_in _ (Permutation_sym HP)).
          - now apply (Permutation_in _ (Permutation_sym HP)). }
        unfold shownStage. simpl. now rewrite (Hinj x y Hx Hy' Hr). }
  split.
  { rewrite mergeAll_rankMergeAll. apply (rankMergeAll_last_max rkWorker rkWorker_min). }
  split.
  { rewrite mergeAllAgg_rankMergeAll. apply (rankMergeAll_last_max rkAgg rkAgg_min). }
  split.
  - intros Hall a b Ha Hb Hra Hrb.
    destruct (mergeAll_last_wins prev l1 a Ha Hra) as (la & Pa & Ea).
    destruct (mergeAll_last_wins prev l1 b Hb Hrb) as (lb & Pb & Eb).
    rewrite <- Ea, <- Eb, (Hall la Pa), (Hall lb Pb). reflexivity.
  - intros Hsame l' HP'.
    pose proof (mergeAll_perm_rank prev l1 l' HP') as Hr.
    destruct (mergeAll_max prev l1) as [[E1 H1]|(a & E1 & Ha)],
      (mergeAll_max prev l') as [[E2 H2]|(b & E2 & Hb)].
    + now rewrite E1, E2.
    + exfalso. apply (Permutation_in _ (Permutation_sym HP')) in Hb.
      specialize (H1 b Hb). rewrite Hr, E2 in H1.
      change (rkWorker (Some b)) with (rank_of b) in H1. lia.
    + exfalso. apply (Permutation_in _ HP') in Ha.
      specialize (H2 a Ha). rewrite <- Hr, E1 in H2.
      change (rkWorker (Some a)) with (rank_of a) in H2. lia.
    + apply (Permutation_in _ (Permutation_sym HP')) in Hb.
      rewrite E1, E2. symmetry. apply Hsame; try assumption.
      * rewrite E1. reflexivity.
      * rewrite Hr, E2. reflexivity.
Qed.

(** Sent and executed, fed in either order, end on executed. *)
Lemma merge_idempotent_and_rank_order_independent_witness :
  shownStage (mergeAll None [withStage "sent"; withStage "executed"])
  = shownStage (mergeAll None [withStage "executed"; withStage "sent"])
  /\ mergeWorker (withStage "sent") (Some (withStage "executed"))
      = Some (withStage "executed").
Proof.
  destruct (merge_idempotent_and_rank_order_independent
              None (withStage "sent") (withStage "executed")
              [withStage "sent"; withStage "executed"]
              [withStage "executed"; withStage "sent"]
              None None [] [] (perm_swap _ _ _) (perm_nil _))
    as (_ & _ & _ & Hl & _ & _ & Hs & _).
  split.
  - apply Hs. intros a b Ha Hb.
    destruct Ha as [<-|[<-|[]]], Hb as [<-|[<-|[]]];
      first [reflexivity | vm_compute; discriminate].
  - apply Hl. reflexivity.
Defined.

End StatusClaims.

(** ** The send parameters *)

Section ContractsClaims.

Import Contracts.

Variable Number_ : string -> option Z.
Variable parseNetworksJson : string -> option Config.NetworksConfig.
Variable parseUnits : string -> Z -> Js.attempt Z.
Variable e : Config.env.

Lemma slippage_floor (p : Z) :
  0 <= p ->
  Js.bigint_div (p * 9900) 10000 = p * 9900 / 10000
  /\ p * 9900 / 10000 <= p.
Proof.
  intros Hp. split.
  - unfold Js.bigint_div. apply Z.quot_div_nonneg; lia.
  - apply Z.div_le_upper_bound; lia.
Qed.

(** C3. For an amount string that [parseUnits] accepts as a non-negative
    amount and a configured destination, [buildSendParam] returns a
    SendParam whose [amountLD] is the parsed amount, whose [minAmountLD]
    is the floor of amount * 9900 / 10000 over the integers, and whose
    [minAmountLD] does not exceed [amountLD]. *)
Theorem buildSendParam_min_amount
    (src dst amount receiver : string) (decimals : option Z)
    (extraOptions : option string) (cfg : Config.NetworkConfig) (p : Z) :
  Config.getNetworkConfig Number_ parseNetworksJson e dst = Js.Value cfg ->
  parseUnits amount (Js.nullish decimals 18) = Js.Value p ->
  0 <= p ->
  exists sp,
    buildSendParam Number_ parseNetworksJson parseUnits e
      src dst amount receiver decimals extraOptions = Js.Value sp
    /\ amountLD sp = p
    /\ minAmountLD sp = p * 9900 / 10000
    /\ minAmountLD sp <= amountLD sp.
Proof.
  intros Hc Hp Hnn. unfold buildSendParam. rewrite Hc, Hp.
  eexists. split; [reflexivity|]. simpl.
  destruct (slippage_floor p Hnn) as [-> Hle]. auto.
Qed.

End ContractsClaims.

(** 12.5 tokens of 18 decimals keep 12.375 as the minimum. *)
Lemma buildSendParam_min_amount_witness :
  exists sp,
    Contracts.buildSendParam Examples.Number_ Examples.parseNetworksJson
      Examples.parseUnits Examples.env0
      "hii" "sepolia" "12.5" Examples.oftAddress (Some 18) None = Js.Value sp
    /\ Contracts.amountLD sp = 12500000000000000000
    /\ Contracts.minAmountLD sp = 12375000000000000000.
Proof.
  destruct (buildSendParam_min_amount Examples.Number_ Examples.parseNetworksJson
              Examples.parseUnits Examples.env0
              "hii" "sepolia" "12.5" Examples.oftAddress (Some 18) None
              Examples.sepoliaConfig
              12500000000000000000)
    as (sp & Hsp & Ha & Hm & _).
  - vm_compute. reflexivity.
  - vm_compute. reflexivity.
  - lia.
  - exists sp. split; [exact Hsp|]. split; [exact Ha|]. rewrite Hm. reflexivity.
Defined.

(** BigInt division rounds toward zero, so on a negative amount (which
    [parseUnits] accepts and the send flow rejects) the minimum is not
    the floor and lies above the amount. *)
Remark bigint_div_negative_amount :
  Js.bigint_div (-1 * 9900) 10000 = 0 /\ (-1 * 9900) / 10000 = -1.
Proof. split; reflexivity. Qed.

(** ** The send flow *)

Section SendFacts.

Import Contracts Send.

Variable Number_ : string -> option Z.
Variable parseNetworksJson : string -> option Config.NetworksConfig.
Variable parseUnits : string -> Z -> Js.attempt Z.
Variable buildLzReceiveOptions : Z -> Z -> string.
Variable encodeSend : SendParam -> Fee -> string -> string.
Variable decodeOftError : Js.Err -> option string.
Variable e : Config.env.

Lemma trace_bind {A B} (m : M A) (k : A -> M B) :
  trace (m ≫= k)
  = (trace m ++ match result m with Val a => trace (k a) | _ => [] end)%list.
Proof.
  destruct m as [t [a| |er]]; unfold mbind, M_bind, bind, trace, result; simpl.
  - destruct (k a); reflexivity.
  - now rewrite app_nil_r.
  - now rewrite app_nil_r.
Qed.

Lemma result_bind {A B} (m : M A) (k : A -> M B) :
  result (m ≫= k)
  = match result m with
    | Val a => result (k a)
    | Ret => Ret
    | Thr er => Thr er
    end.
Proof.
  destruct m as [t [a| |er]]; unfold mbind, M_bind, bind, trace, result; simpl;
    [destruct (k a)|..]; reflexivity.
Qed.

Lemma trace_try_catch {A} (m : M A) (h : Js.Err -> M A) :
  trace (try_catch m h)
  = (trace m ++ match result m with Thr er => trace (h er) | _ => [] end)%list.
Proof.
  destruct m as [t [a| |er]]; unfold try_catch, trace, result; simpl.
  - now rewrite app_nil_r.
  - now rewrite app_nil_r.
  - destruct (h er); reflexivity.
Qed.

Lemma result_try_catch {A} (m : M A) (h : Js.Err -> M A) :
  result (try_catch m h)
  = match result m with
    | Thr er => result (h er)
    | o => o
    end.
Proof.
  destruct m as [t [a| |er]]; unfold try_catch, trace, result; simpl;
    [..|destruct (h er)]; reflexivity.
Qed.

Lemma in_bind {A B} (m : M A) (k : A -> M B) (ev : Event) :
  In ev (trace (m ≫= k)) ->
  In ev (trace m) \/ exists a, result m = Val a /\ In ev (trace (k a)).
Proof.
  rewrite trace_bind. intros H. apply in_app_or in H. destruct H as [H|H]; [now left|].
  destruct (result m) as [a| |er]; [right; eauto | destruct H..].
Qed.

Lemma quiet_in (t : list Event) (ev : Event) :
  quiet t = true -> In ev t -> relevant ev = false.
Proof.
  unfold quiet. rewrite forallb_forall. intros H Hin.
  apply H in Hin. now destruct (relevant ev).
Qed.

Lemma quiet_lift {A} (r : Js.attempt A) : quiet (trace (lift r)) = true.
Proof. destruct r; reflexivity. Qed.

Lemma quiet_switchNetwork (w : World) (pg : Page) :
  quiet (trace (switchNetwork Number_ parseNetworksJson e w pg)) = true.
Proof.
  unfold switchNetwork, getNetworkConfig.
  destruct (negb _); [reflexivity|].
  destruct (Config.getNetworkConfig _ _ _ _); [|reflexivity].
  destruct (w_switch w) as [|[]|]; reflexivity.
Qed.

Lemma resolveDecimals_val (w : World) (pg : Page) :
  exists d, result (resolveDecimals w pg) = Val d
            /\ quiet (trace (resolveDecimals w pg)) = true.
Proof.
  unfold resolveDecimals, call, emit, lift.
  destruct (w_token w) as [u|er]; cbn.
  - destruct (usingNativeAdapter pg); cbn.
    + eexists. split; reflexivity.
    + destruct (w_decimals w u) as [d|er]; cbn; eexists; split; reflexivity.
  - eexists. split; reflexivity.
Qed.

Lemma decimalsOf_spec (w : World) (pg : Page) (d : Z) :
  result (resolveDecimals w pg) = Val d -> decimalsOf w pg = d.
Proof. unfold decimalsOf. now intros ->. Qed.

Lemma quiet_validateAmount (pg : Page) (r : string) (d : Z) :
  quiet (trace (validateAmount parseUnits pg r d)) = true.
Proof.
  unfold validateAmount.
  destruct (parseUnits r d) as [amt|er]; cbn; [|reflexivity].
  destruct (match balanceWei pg with Some b => amt >? b | None => false end);
    [reflexivity|].
  destruct (amt <=? 0); reflexivity.
Qed.

Lemma validateAmount_val (pg : Page) (r : string) (d : Z) (u : unit) :
  result (validateAmount parseUnits pg r d) = Val u ->
  exists amt, parseUnits r d = Js.Value amt
              /\ 0 < amt
              /\ forall b, balanceWei pg = Some b -> amt <= b.
Proof.
  unfold validateAmount.
  destruct (parseUnits r d) as [amt|er]; cbn; [|discriminate].
  destruct (balanceWei pg) as [b|].
  - destruct (Z.gtb_spec amt b); cbn; [discriminate|].
    destruct (Z.leb_spec amt 0); cbn; [discriminate|].
    intros _. exists amt. split; [reflexivity|]. split; [lia|].
    intros b' [= <-]. lia.
  - destruct (Z.leb_spec amt 0); cbn; [discriminate|].
    intros _. exists amt. split; [reflexivity|]. split; [lia|]. discriminate.
Qed.

Lemma quiet_resolveOptions (w : World) (dstEid : Z) :
  quiet (trace (resolveOptions buildLzReceiveOptions w dstEid)) = true.
Proof.
  unfold resolveOptions, call, emit, lift.
  destruct (w_SEND w) as [mt|er]; cbn; [|reflexivity].
  destruct (w_enforcedOptions w dstEid mt) as [en|er]; cbn; [|reflexivity].
  destruct (w_combineOptions w dstEid mt (buildLzReceiveOptions 200000 0));
    cbn; reflexivity.
Qed.

Lemma quiet_call {A} (ev : Event) (r : Js.attempt A) :
  relevant ev = false -> quiet (trace (call ev r)) = true.
Proof. intros H. unfold call, emit, lift. destruct r; cbn; now rewrite H. Qed.

Lemma lift_val {A} (r : Js.attempt A) (a : A) :
  result (lift r) = Val a -> r = Js.Value a.
Proof. destruct r; cbn; congruence. Qed.

Lemma call_val {A} (ev : Event) (r : Js.attempt A) (a : A) :
  result (call ev r) = Val a -> r = Js.Value a.
Proof. unfold call, emit, lift. destruct r; cbn; congruence. Qed.

Lemma buildSendParam_amount (src dst amount receiver : string) (d : Z)
    (opts : option string) (sp : SendParam) (amt : Z) :
  buildSendParam Number_ parseNetworksJson parseUnits e src dst amount receiver
    (Some d) opts = Js.Value sp ->
  parseUnits amount d = Js.Value amt ->
  amountLD sp = amt.
Proof.
  unfold buildSendParam. intros H Hp.
  destruct (Config.getNetworkConfig _ _ _ _); [|discriminate].
  cbn in H. rewrite Hp in H. now injection H as <-.
Qed.

(** Every event of the submission is the contract call on [sendParam],
    or the raw transaction that encodes the same [sendParam]. *)
Lemma submit_events (w : World) (pg : Page) (r : string) (d : Z)
    (sp : SendParam) (fee : Fee) (ev : Event) :
  In ev (trace (submit parseUnits encodeSend w pg r d sp fee)) ->
  match ev with
  | CallQuoteSend _ => False
  | CallSend p _ _ _ => p = sp
  | SendTransaction raw => exists f a, raw_data raw = encodeSend sp f a
  | _ => True
  end.
Proof.
  unfold submit, call, emit, lift, throw.
  destruct (parseUnits r d) as [amt|er]; cbn.
  2: { intros []. }
  destruct (w_getAddress w) as [refund|er]; cbn.
  - destruct (w_send w sp _ refund _) as [tx|sendErr]; cbn.
    + intros H. repeat (destruct H as [<-|H]; [cbn; eauto|]). destruct H.
    + destruct (isTrieMissing sendErr); cbn.
      * destruct (w_sendTransaction w _); cbn;
          intros H; repeat (destruct H as [<-|H]; [cbn; eauto|]); destruct H.
      * intros H. repeat (destruct H as [<-|H]; [cbn; eauto|]). destruct H.
  - destruct (isTrieMissing er); cbn;
      intros H; repeat (destruct H as [<-|H]; [cbn; eauto|]); destruct H.
Qed.

Ltac step H :=
  apply in_bind in H; destruct H as [H | (? & ? & H)].

Lemma quiet_resolveDecimals (w : World) (pg : Page) :
  quiet (trace (resolveDecimals w pg)) = true.
Proof. destruct (resolveDecimals_val w pg) as (d & _ & Hq). exact Hq. Qed.

Ltac by_quiet H Hrel :=
  let Hq := fresh "Hq" in
  assert (Hq : relevant _ = false)
    by (eapply quiet_in; [|exact H];
        first [ apply quiet_lift | apply quiet_switchNetwork
              | apply quiet_call; reflexivity | apply quiet_validateAmount
              | apply quiet_resolveOptions | apply quiet_resolveDecimals ]);
  rewrite Hq in Hrel; discriminate Hrel.

Ltac by_list H Hrel :=
  cbn in H; repeat (destruct H as [<-|H]; [discriminate Hrel|]); destruct H.

Lemma sendBody_relevant (w : World) (pg : Page) (ev : Event) :
  In ev (trace (sendBody Number_ parseNetworksJson parseUnits buildLzReceiveOptions
                  encodeSend e w pg)) ->
  relevant ev = true ->
  exists amt,
    parseUnits (resolvedAmountOf pg) (decimalsOf w pg) = Js.Value amt
    /\ 0 < amt
    /\ (forall b, balanceWei pg = Some b -> amt <= b)
    /\ carries encodeSend ev amt.
Proof.
  intros H Hrel. unfold sendBody in H.
  step H; [by_list H Hrel|].
  step H; [by_list H Hrel|].
  step H; [by_list H Hrel|].
  step H; [by_quiet H Hrel|].
  step H.
  { destruct (match currentChainId pg with Some _ => _ | None => _ end).
    - by_quiet H Hrel.
    - destruct H. }
  step H; [by_quiet H Hrel|].
  destruct (negb (nonempty (resolvedAmountOf pg))); [by_list H Hrel|].
  destruct (Config.tokenAddress _ _ _) as [[|c a]|]; [by_list H Hrel| |by_list H Hrel].
  step H.
  { by_quiet H Hrel. }
  match goal with Hd : result (resolveDecimals w pg) = Val ?d |- _ =>
    rewrite (decimalsOf_spec _ _ _ Hd); rename Hd into Hdec end.
  step H; [by_quiet H Hrel|].
  match goal with Hv : result (validateAmount _ _ _ _) = Val _ |- _ =>
    destruct (validateAmount_val _ _ _ _ Hv) as (amt & Hp & Hpos & Hbal) end.
  exists amt. split; [exact Hp|]. split; [exact Hpos|]. split; [exact Hbal|].
  step H; [by_quiet H Hrel|].
  step H; [by_quiet H Hrel|].
  step H; [by_quiet H Hrel|].
  match goal with Hb : result (lift (buildSendParam _ _ _ _ _ _ _ _ _ _)) = Val ?sp |- _ =>
    apply lift_val in Hb;
    pose proof (buildSendParam_amount _ _ _ _ _ _ _ _ Hb Hp) as Hamt end.
  step H.
  { unfold call, emit, lift in H.
    match type of H with context [w_quoteSend w ?sp] =>
      destruct (w_quoteSend w sp) end; cbn in H;
      destruct H as [<-|[]]; exact Hamt. }
  step H.
  { apply submit_events in H. destruct ev; try discriminate Hrel; cbn.
    - destruct H.
    - now subst.
    - destruct H as (f0 & a0 & Hd). eauto. }
  by_list H Hrel.
Qed.

Lemma sendCrossChain_relevant (w : World) (pg : Page) (ev : Event) :
  In ev (trace (sendCrossChain Number_ parseNetworksJson parseUnits buildLzReceiveOptions
                  encodeSend decodeOftError e w pg)) ->
  In ev (trace (sendBody Number_ parseNetworksJson parseUnits buildLzReceiveOptions
                  encodeSend e w pg))
  \/ relevant ev = false.
Proof.
  unfold sendCrossChain. intros H.
  destruct (_ || _); [right; cbn in H; destruct H as [<-|[]]; reflexivity|].
  destruct (negb (nonempty (account pg)));
    [right; cbn in H; destruct H as [<-|[]]; reflexivity|].
  destruct (negb (nonempty (tokenId pg)));
    [right; cbn in H; destruct H as [<-|[]]; reflexivity|].
  destruct (negb (isPairSupported pg));
    [right; cbn in H; destruct H as [<-|[]]; reflexivity|].
  destruct (negb (hasEthereum pg));
    [right; cbn in H; destruct H as [<-|[]]; reflexivity|].
  rewrite trace_try_catch in H. apply in_app_or in H.
  destruct H as [H|H]; [left; exact H|].
  right. destruct (result _) as [u| |er]; [destruct H | destruct H |].
  cbn in H. repeat (destruct H as [<-|H]; [reflexivity|]). destruct H.
Qed.

End SendFacts.

Section SendClaims.

Import Contracts Send.

Variable Number_ : string -> option Z.
Variable parseNetworksJson : string -> option Config.NetworksConfig.
Variable parseUnits : string -> Z -> Js.attempt Z.
Variable buildLzReceiveOptions : Z -> Z -> string.
Variable encodeSend : SendParam -> Fee -> string -> string.
Variable decodeOftError : Js.Err -> option string.
Variable e : Config.env.

(** The test [typeof msg === "string" && msg.includes("missing trie
    node")] in terms of the error's fields: the message looked at is the
    nested one when that is a non-empty string, the error's own when the
    nested one is absent or empty, and no string at all when the nested
    one is some other truthy value. *)
Lemma isTrieMissing_spec (sendErr : Js.Err) :
  isTrieMissing sendErr = true
  <-> (exists s, Js.nested_message sendErr = Js.MStr s /\ s <> EmptyString
                 /\ Js.includes "missing trie node" s = true)
      \/ ((Js.nested_message sendErr = Js.MAbsent
           \/ Js.nested_message sendErr = Js.MStr EmptyString)
          /\ Js.includes "missing trie node"
               (Js.or_else (Js.message sendErr) EmptyString) = true).
Proof.
  unfold isTrieMissing. destruct (Js.nested_message sendErr) as [|[|c r]|].
  - split; [intros H; right; auto|].
    intros [(s & Hs & _)|[_ H]]; [discriminate Hs | exact H].
  - split; [intros H; right; auto|].
    intros [(s & Hs & Hne & _)|[_ H]]; [|exact H].
    injection Hs as <-. now contradiction Hne.
  - split.
    + intros H. left. exists (String c r). repeat split; [discriminate | exact H].
    + intros [(s & Hs & _ & H)|[[Hn|Hn] _]]; try discriminate Hn.
      injection Hs as <-. exact H.
  - split; [discriminate|].
    intros [(s & Hs & _)|[[Hn|Hn] _]]; discriminate.
Qed.

(** C5 does not hold as worded: an error whose message contains "missing
    trie node" gets no fallback when the node's nested message is some
    other non-empty text, because the nested message is the one looked
    at; the error is thrown on. *)
Lemma submit_fallback_on_missing_trie_node_counterexample :
  let m := submit Examples.parseUnits Examples.encodeSend Samples.worldShadowed
             (Examples.pageWith "default" "12.5") "12.5" 18
             Examples.sendParam0 Examples.fee0 in
  Js.includes "missing trie node"
    (Js.or_else (Js.message Samples.shadowedTrieError) EmptyString) = true
  /\ In (CallSend Examples.sendParam0 Examples.fee0 Examples.account0 1000) (trace m)
  /\ result m = Thr Samples.shadowedTrieError
  /\ List.filter is_raw (trace m) = [].
Proof. vm_compute. repeat split. right. left. reflexivity. Qed.

(** C5 (amended). When the contract call [send] is made and fails, the
    message looked at is the error's nested [info.error.data.message]
    when that is truthy, else the error's own message, else the empty
    string. If that message is a string containing "missing trie node",
    exactly one raw transaction is issued, of legacy type 0, with gas
    limit 600000, to the token contract, carrying the same call data and
    the same total value as the failed call, and the submission ends as
    that transaction ends; in every other case the same error is thrown
    on and no raw transaction is issued. The total value is the native
    fee, plus the amount when the selected token is flagged as a
    native-asset adapter. *)
Theorem submit_fallback_on_missing_trie_node
    (w : World) (pg : Page) (resolvedAmount : string) (decimals : Z)
    (sendParam : SendParam) (fee : Fee) (amtLD : Z) (refund : string)
    (sendErr : Js.Err) :
  parseUnits resolvedAmount decimals = Js.Value amtLD ->
  w_getAddress w = Js.Value refund ->
  let m := submit parseUnits encodeSend w pg resolvedAmount decimals sendParam fee in
  let adapter :=
    match Config.findToken (tokens pg) (tokenId pg) with
    | Some t => match Config.nativeAdapter t with Some true => true | _ => false end
    | None => false
    end in
  let total := if adapter then nativeFee fee + amtLD else nativeFee fee in
  let containsIt :=
    (exists s, Js.nested_message sendErr = Js.MStr s /\ s <> EmptyString
               /\ Js.includes "missing trie node" s = true)
    \/ ((Js.nested_message sendErr = Js.MAbsent
         \/ Js.nested_message sendErr = Js.MStr EmptyString)
        /\ Js.includes "missing trie node"
             (Js.or_else (Js.message sendErr) EmptyString) = true) in
  w_send w sendParam fee refund total = Js.Throws sendErr ->
  List.filter is_submission (trace m)
  = CallSend sendParam fee refund total :: List.filter is_raw (trace m)
  /\ (containsIt ->
      exists raw,
        List.filter is_raw (trace m) = [SendTransaction raw]
        /\ raw_gasLimit raw = 600000
        /\ raw_type raw = 0
        /\ raw_value raw = total
        /\ raw_to raw = w_target w
        /\ raw_data raw = encodeSend sendParam fee refund
        /\ result m = result (lift (w_sendTransaction w raw)))
  /\ (~ containsIt ->
      result m = Thr sendErr /\ List.filter is_raw (trace m) = []).
Proof.
  intros Hp Ha m adapter total containsIt Hs.
  assert (Ht : totalValue pg fee amtLD = total).
  { unfold totalValue, usingNativeAdapter. subst total adapter.
    destruct (Config.findToken (tokens pg) (tokenId pg)) as [t|]; [|reflexivity].
    destruct (Config.nativeAdapter t) as [[|]|]; reflexivity. }
  pose proof (isTrieMissing_spec sendErr) as Hspec. fold containsIt in Hspec.
  clearbody total containsIt. clear adapter. subst m.
  unfold submit, call, emit, lift, throw. rewrite Hp. cbn. rewrite Ht.
  destruct fee as [nf lf]. cbn in *. rewrite Ha. cbn. rewrite Hs. cbn.
  destruct (isTrieMissing sendErr); cbn.
  - rewrite ?Ha. cbn.
    split; [destruct (w_sendTransaction w _); reflexivity|].
    split.
    + intros _. eexists. split; [destruct (w_sendTransaction w _); reflexivity|].
      repeat split. destruct (w_sendTransaction w _); reflexivity.
    + intros Hn. exfalso. apply Hn, Hspec. reflexivity.
  - split; [reflexivity|]. split.
    + intros Hc. apply Hspec in Hc. discriminate Hc.
    + intros _. split; reflexivity.
Qed.

(** C6. In the send flow, every fee quote and every submission (contract
    call or raw transaction) happens only after the amount has been
    parsed and found strictly positive and, when a balance is known, at
    most that balance, and it carries exactly that amount; when the
    amount does not parse, is not positive, or exceeds the known balance,
    the flow issues no quote and no submission at all. *)
Theorem amount_validated_before_quote (w : World) (pg : Page) :
  let t := trace (sendCrossChain Number_ parseNetworksJson parseUnits
                    buildLzReceiveOptions encodeSend decodeOftError e w pg) in
  let r := resolvedAmountOf pg in
  let d := decimalsOf w pg in
  (forall ev, In ev t -> relevant ev = true ->
     exists amt,
       parseUnits r d = Js.Value amt
       /\ 0 < amt
       /\ (forall b, balanceWei pg = Some b -> amt <= b)
       /\ carries encodeSend ev amt)
  /\ ((forall amt, parseUnits r d = Js.Value amt ->
         amt <= 0 \/ exists b, balanceWei pg = Some b /\ b < amt) ->
      quiet t = true).
Proof.
  intros t r d.
  assert (Hmain : forall ev, In ev t -> relevant ev = true ->
     exists amt,
       parseUnits r d = Js.Value amt
       /\ 0 < amt
       /\ (forall b, balanceWei pg = Some b -> amt <= b)
       /\ carries encodeSend ev amt).
  { intros ev Hin Hrel.
    destruct (sendCrossChain_relevant _ _ _ _ _ _ _ _ _ _ Hin) as [Hb|Hq];
      [|rewrite Hq in Hrel; discriminate].
    exact (sendBody_relevant _ _ _ _ _ _ _ _ _ Hb Hrel). }
  split; [exact Hmain|].
  intros Hbad. unfold quiet. apply forallb_forall. intros ev Hin.
  destruct (relevant ev) eqn:Hrel; [|reflexivity]. exfalso.
  destruct (Hmain ev Hin Hrel) as (amt & Hp & Hpos & Hbal & _).
  destruct (Hbad amt Hp) as [Hle|(b & Hb & Hlt)]; [lia|].
  specialize (Hbal b Hb). lia.
Qed.

End SendClaims.

(** On a node with the missing state, an ordinary token sends its fee as
    value in one raw legacy transaction of gas limit 600000, and a
    native-asset adapter sends the fee plus the amount. *)
Lemma submit_fallback_on_missing_trie_node_witness :
  (exists raw,
     List.filter Send.is_raw
       (Send.trace (Send.submit Examples.parseUnits Examples.encodeSend
                      Examples.worldTrie (Examples.pageWith "default" "12.5")
                      "12.5" 18 Examples.sendParam0 Examples.fee0))
     = [Send.SendTransaction raw]
     /\ Send.raw_gasLimit raw = 600000
     /\ Send.raw_value raw = 1000)
  /\ (exists raw,
        List.filter Send.is_raw
          (Send.trace (Send.submit Examples.parseUnits Examples.encodeSend
                         Examples.worldTrie (Examples.pageWith "hnc_native" "12.5")
                         "12.5" 18 Examples.sendParam0 Examples.fee0))
        = [Send.SendTransaction raw]
        /\ Send.raw_type raw = 0
        /\ Send.raw_value raw = 12500000000000001000).
Proof.
  split.
  - destruct (submit_fallback_on_missing_trie_node
                Examples.parseUnits Examples.encodeSend
                Examples.worldTrie (Examples.pageWith "default" "12.5")
                "12.5" 18 Examples.sendParam0 Examples.fee0
                12500000000000000000 Examples.account0 Examples.trieError)
      as (_ & Hyes & _); [vm_compute; reflexivity | reflexivity | reflexivity |].
    destruct Hyes as (raw & Hf & Hg & _ & Hv & _).
    + right. split; [left; reflexivity | vm_compute; reflexivity].
    + exists raw. split; [exact Hf|]. split; [exact Hg|]. rewrite Hv. reflexivity.
  - destruct (submit_fallback_on_missing_trie_node
                Examples.parseUnits Examples.encodeSend
                Examples.worldTrie (Examples.pageWith "hnc_native" "12.5")
                "12.5" 18 Examples.sendParam0 Examples.fee0
                12500000000000000000 Examples.account0 Examples.trieError)
      as (_ & Hyes & _); [vm_compute; reflexivity | reflexivity | reflexivity |].
    destruct Hyes as (raw & Hf & _ & Hty & Hv & _).
    + right. split; [left; reflexivity | vm_compute; reflexivity].
    + exists raw. split; [exact Hf|]. split; [exact Hty|]. rewrite Hv. reflexivity.
Defined.

(** An amount of 12.5 against a balance of 20 is quoted; an amount of 0
    is stopped before any quote. *)
Lemma amount_validated_before_quote_witness :
  (exists amt,
     Examples.parseUnits (Send.resolvedAmountOf (Examples.pageWith "default" "12.5"))
       (Send.decimalsOf Examples.world0 (Examples.pageWith "default" "12.5"))
     = Js.Value amt
     /\ 0 < amt
     /\ Contracts.amountLD Examples.sendParam0 = amt)
  /\ Send.quiet
       (Send.trace
          (Send.sendCrossChain Examples.Number_ Examples.parseNetworksJson
             Examples.parseUnits Examples.buildLzReceiveOptions Examples.encodeSend
             Examples.decodeOftError Examples.env0 Examples.world0
             (Examples.pageWith "default" "0"))) = true.
Proof.
  split.
  - destruct (amount_validated_before_quote
                Examples.Number_ Examples.parseNetworksJson Examples.parseUnits
                Examples.buildLzReceiveOptions Examples.encodeSend
                Examples.decodeOftError Examples.env0 Examples.world0
                (Examples.pageWith "default" "12.5")) as [H _].
    destruct (H (Send.CallQuoteSend Examples.sendParam0)) as (amt & Hp & Hpos & _ & Hc).
    + vm_compute. repeat (first [left; reflexivity | right]).
    + reflexivity.
    + exists amt. auto.
  - destruct (amount_validated_before_quote
                Examples.Number_ Examples.parseNetworksJson Examples.parseUnits
                Examples.buildLzReceiveOptions Examples.encodeSend
                Examples.decodeOftError Examples.env0 Examples.world0
                (Examples.pageWith "default" "0")) as [_ H].
    apply H. intros amt Hp. left.
    vm_compute in Hp. injection Hp as <-. lia.
Defined.

(** ** The packet correlator *)

Section CorrelatorFacts.

Import Correlator.

Lemma matches_spec (eventName : string) (eid : Z) (token : string) (log : Log) :
  matches eventName eid (pad32 token) log = true
  <-> MatchesSpec eventName eid token log.
Proof.
  unfold matches, matchLog, MatchesSpec. split.
  - destruct (endpointParse log) as [[parsed|]|er]; try discriminate.
    destruct (String.eqb_spec (ev_name parsed) eventName) as [Hn|Hn];
      cbn; [|discriminate].
    destruct (ev_origin parsed) as [o|] eqn:Ho; [|discriminate].
    destruct (Z.eqb_spec (srcEid o) eid) as [He|He]; cbn; [|discriminate].
    destruct (String.eqb_spec (Js.toLowerCase (sender o))
                              (Js.toLowerCase (pad32 token))) as [Hs|Hs];
      [|discriminate].
    intros _. exists parsed, o. repeat split; first [assumption | reflexivity].
  - intros (parsed & o & -> & Hn & Ho & He & Hs).
    rewrite Ho, Hn, String.eqb_refl, He, Z.eqb_refl, Hs, String.eqb_refl.
    reflexivity.
Qed.

Lemma scan_existsb (eventName : string) (eid : Z) (snd_ : string) (logs : list Log) :
  match scan eventName eid snd_ logs with Some _ => true | None => false end
  = existsb (matches eventName eid snd_) logs.
Proof.
  induction logs as [|log rest IH]; [reflexivity|].
  cbn. unfold matches at 1.
  destruct (matchLog eventName eid snd_ log); [reflexivity | exact IH].
Qed.

(** The scan stops at the first log the loop body accepts. *)
Lemma scan_first (eventName : string) (eid : Z) (snd_ : string)
    (logs : list Log) (m : Matched) :
  scan eventName eid snd_ logs = Some m ->
  exists l1 log l2,
    logs = (l1 ++ log :: l2)%list
    /\ (forall x, In x l1 -> matches eventName eid snd_ x = false)
    /\ matchLog eventName eid snd_ log = Some m.
Proof.
  induction logs as [|log rest IH]; [discriminate|].
  cbn. destruct (matchLog eventName eid snd_ log) as [m'|] eqn:E.
  - intros [= <-]. exists [], log, rest. split; [reflexivity|].
    split; [intros x []|exact E].
  - intros H. destruct (IH H) as (l1 & lg & l2 & -> & Hn & Hm).
    exists (log :: l1), lg, l2. split; [reflexivity|]. split; [|exact Hm].
    intros x [<-|Hx]; [unfold matches; now rewrite E | now apply Hn].
Qed.

Lemma matchLog_origin (eventName : string) (eid : Z) (snd_ : string)
    (log : Log) (m : Matched) :
  matchLog eventName eid snd_ log = Some m ->
  originOf log = Some (m_origin m) /\ dstTx m = transactionHash log.
Proof.
  unfold matchLog, originOf.
  destruct (endpointParse log) as [[parsed|]|er]; try discriminate.
  destruct (negb _); [discriminate|].
  destruct (ev_origin parsed) as [o|]; [|discriminate].
  destruct (_ && _); [|discriminate].
  intros [= <-]. split; reflexivity.
Qed.

Section Handler.

Variable Number_ : string -> option Z.
Variable parseNetworksJson : string -> option Config.NetworksConfig.
Variable ethers_id : string -> string.
Variable e : Config.env.
Variable tokens : list Config.TokenConfig.
Variable getProvider : string -> Provider.

Variable rq : Request.
Variables srcConfig dstConfig : Config.NetworkConfig.
Variable toBlock : Z.

Let hash := Js.or_else (txHash rq) EmptyString.
Let src := Js.or_else (sourceNetwork rq) EmptyString.
Let dst := Js.or_else (destNetwork rq) EmptyString.
Let tok := Js.or_else (tokenId rq) EmptyString.
Let oftSrc := Js.or_else (Config.tokenAddress tokens tok src) EmptyString.
Let srcReceipt := Js.catch_default (getTransactionReceipt (getProvider src) hash) None.
Let fromBlock := fromBlockOf srcReceipt toBlock (scanWindow rq).
Let logsFor (topic : string) : list Log :=
  Js.catch_default
    (getLogs (getProvider dst)
       {| f_address := Config.endpointV2 dstConfig; f_fromBlock := fromBlock;
          f_toBlock := toBlock; f_topics := Some [topic] |})
    [].
Let deliveredLogs := logsFor (deliveredTopic ethers_id).
Let verifiedLogs := logsFor (verifiedTopic ethers_id).

Hypothesis has_txHash : Js.truthy (txHash rq) = true.
Hypothesis has_source : Js.truthy (sourceNetwork rq) = true.
Hypothesis has_dest : Js.truthy (destNetwork rq) = true.
Hypothesis has_token : Js.truthy (tokenId rq) = true.
Hypothesis source_configured :
  Config.getNetworkConfig Number_ parseNetworksJson e src = Js.Value srcConfig.
Hypothesis dest_configured :
  Config.getNetworkConfig Number_ parseNetworksJson e dst = Js.Value dstConfig.
Hypothesis token_on_source : Js.truthy (Config.tokenAddress tokens tok src) = true.
Hypothesis dest_height : getBlockNumber (getProvider dst) = Js.Value toBlock.

Lemma POST_success :
  exists r,
    POST Number_ parseNetworksJson ethers_id e tokens getProvider
      (Js.Value (Some rq)) = Success r
    /\ stage r
       = deriveStage
           (scan "PacketDelivered" (Config.eid srcConfig) (pad32 oftSrc) deliveredLogs)
           (match scan "PacketDelivered" (Config.eid srcConfig) (pad32 oftSrc)
                    deliveredLogs with
            | Some _ => None
            | None => scan "PacketVerified" (Config.eid srcConfig) (pad32 oftSrc)
                        verifiedLogs
            end)
           srcReceipt
    /\ origin r
       = match scan "PacketDelivered" (Config.eid srcConfig) (pad32 oftSrc)
                 deliveredLogs with
         | Some m => Some (m_origin m)
         | None => m_origin <$> scan "PacketVerified" (Config.eid srcConfig)
                                  (pad32 oftSrc) verifiedLogs
         end
    /\ window_fromBlock r = fromBlock
    /\ window_toBlock r = toBlock.
Proof.
  unfold POST, observe. cbn [Js.nullish].
  rewrite has_txHash, has_source, has_dest, has_token. cbn [negb orb].
  fold src dst tok hash.
  rewrite source_configured, dest_configured, token_on_source. cbn [negb].
  rewrite dest_height.
  eexists. split; [reflexivity|]. cbn.
  destruct (scan "PacketDelivered" _ _ _); repeat split; reflexivity.
Qed.

(** C2. On every request the handler answers with a stage, the stage
    follows the priority order: executed if some delivered log decodes to
    an origin with the source network's endpoint id and the source token
    address as padded sender; else verified if some verified log does;
    else inflight when the source receipt is present and successful,
    unknown when it is present and failed, inflight when there is none.
    When the stage is executed, the delivered logs contain a matching
    log, no log before it matches, and the reported origin is that
    log's. *)
Theorem correlator_stage_priority :
  exists r,
    POST Number_ parseNetworksJson ethers_id e tokens getProvider
      (Js.Value (Some rq)) = Success r
    /\ stage r
       = (if existsb (matches "PacketDelivered" (Config.eid srcConfig) (pad32 oftSrc))
               deliveredLogs
          then "executed"
          else if existsb (matches "PacketVerified" (Config.eid srcConfig) (pad32 oftSrc))
                    verifiedLogs
          then "verified"
          else match srcReceipt with
               | Some rc => if Js.nullish (status rc) 0 =? 1 then "inflight" else "unknown"
               | None => "inflight"
               end)
    /\ (forall eventName log,
          matches eventName (Config.eid srcConfig) (pad32 oftSrc) log = true
          <-> MatchesSpec eventName (Config.eid srcConfig) oftSrc log)
    /\ (stage r = "executed" ->
        exists l1 log l2,
          deliveredLogs = (l1 ++ log :: l2)%list
          /\ (forall x, In x l1 ->
                ~ MatchesSpec "PacketDelivered" (Config.eid srcConfig) oftSrc x)
          /\ MatchesSpec "PacketDelivered" (Config.eid srcConfig) oftSrc log
          /\ origin r = originOf log).
Proof.
  destruct POST_success as (r & HP & Hs & Ho & _).
  exists r. split; [exact HP|].
  pose proof (scan_existsb "PacketDelivered" (Config.eid srcConfig) (pad32 oftSrc)
                deliveredLogs) as HD.
  pose proof (scan_existsb "PacketVerified" (Config.eid srcConfig) (pad32 oftSrc)
                verifiedLogs) as HV.
  split.
  { rewrite Hs, <- HD, <- HV. unfold deriveStage, sentOk.
    destruct (scan "PacketDelivered" _ _ _); [reflexivity|].
    destruct (scan "PacketVerified" _ _ _); [reflexivity|].
    destruct srcReceipt; reflexivity. }
  split; [intros; apply matches_spec|].
  intros Hex. rewrite Hs in Hex. rewrite Ho.
  destruct (scan "PacketDelivered" _ _ _) as [m|] eqn:E.
  - destruct (scan_first _ _ _ _ _ E) as (l1 & log & l2 & Hl & Hn & Hm).
    exists l1, log, l2. split; [exact Hl|]. split; [|split].
    + intros x Hx Hspec. apply matches_spec in Hspec.
      rewrite (Hn x Hx) in Hspec. discriminate.
    + apply matches_spec. unfold matches. now rewrite Hm.
    + symmetry. apply (matchLog_origin _ _ _ _ _ Hm).
  - exfalso. unfold deriveStage in Hex.
    destruct (scan "PacketVerified" _ _ _); [discriminate|].
    destruct srcReceipt; [destruct (sentOk _)|]; discriminate.
Qed.

(** C7 (amended). On every request the handler answers with a stage, the
    scan range ends at the current destination block height and starts
    at the source receipt's block number when the receipt and its block
    number are known, else at the current height minus the scan window
    (20,000 when none is supplied), but never below block 0. *)
Theorem correlator_scan_range :
  exists r,
    POST Number_ parseNetworksJson ethers_id e tokens getProvider
      (Js.Value (Some rq)) = Success r
    /\ window_toBlock r = toBlock
    /\ window_fromBlock r
       = match srcReceipt with
         | Some {| blockNumber := Some b |} => b
         | _ => Z.max 0 (toBlock - match scanWindow rq with
                                   | Some w => w
                                   | None => 20000
                                   end)
         end.
Proof.
  destruct POST_success as (r & HP & _ & _ & Hf & Ht).
  exists r. split; [exact HP|]. split; [exact Ht|].
  rewrite Hf. unfold fromBlock, fromBlockOf, Js.nullish.
  destruct srcReceipt as [[st [b|]]|]; reflexivity.
Qed.

End Handler.

End CorrelatorFacts.

(** With a successful receipt in block 500 and the delivery found among
    the destination logs, after a foreign log and another sender's
    delivery, the stage is executed. *)
Lemma correlator_stage_priority_witness :
  exists r,
    Correlator.POST Examples.Number_ Examples.parseNetworksJson Examples.ethers_id
      Examples.env0 Examples.tokens0
      (Examples.provider
         (Some {| Correlator.status := Some 1; Correlator.blockNumber := Some 500 |})
         1000 Examples.deliveredLogs0 [])
      (Js.Value (Some Examples.request0)) = Correlator.Success r
    /\ Correlator.stage r = "executed"
    /\ Correlator.window_fromBlock r = 500.
Proof.
  destruct (correlator_stage_priority
              Examples.Number_ Examples.parseNetworksJson Examples.ethers_id
              Examples.env0 Examples.tokens0
              (Examples.provider
                 (Some {| Correlator.status := Some 1;
                          Correlator.blockNumber := Some 500 |})
                 1000 Examples.deliveredLogs0 [])
              Examples.request0 Examples.hiiConfig Examples.sepoliaConfig 1000)
    as (r & HP & Hs & _ & _);
    try (vm_compute; reflexivity).
  exists r. split; [exact HP|]. split; [rewrite Hs; vm_compute; reflexivity|].
  revert HP. vm_compute. intros [= <-]. reflexivity.
Defined.

(** C7 does not hold near the start of a chain: with no receipt, a
    destination at height 100 and the default window, the scan starts at
    block 0, not at 100 - 20000. *)
Lemma correlator_scan_range_counterexample :
  match Correlator.POST Examples.Number_ Examples.parseNetworksJson Examples.ethers_id
          Examples.env0 Examples.tokens0
          (Examples.provider None 100 [] [])
          (Js.Value (Some Examples.request0)) with
  | Correlator.Success r =>
      Correlator.window_toBlock r = 100
      /\ Correlator.window_fromBlock r = 0
      /\ Correlator.window_fromBlock r <> 100 - 20000
  | Correlator.Failure _ _ => False
  end.
Proof. vm_compute. repeat split. discriminate. Qed.

(** No receipt yet, a destination at height 50,000 and a window of 300
    blocks: the scan covers blocks 49,700 to 50,000. *)
Lemma correlator_scan_range_witness :
  exists r,
    Correlator.POST Examples.Number_ Examples.parseNetworksJson Examples.ethers_id
      Examples.env0 Examples.tokens0
      (Examples.provider None 50000 [] [])
      (Js.Value (Some {| Correlator.txHash := Some "0x5e";
                         Correlator.sourceNetwork := Some "hii";
                         Correlator.destNetwork := Some "sepolia";
                         Correlator.tokenId := Some "default";
                         Correlator.scanWindow := Some 300;
                         Correlator.includeDvn := None |})) = Correlator.Success r
    /\ Correlator.window_toBlock r = 50000
    /\ Correlator.window_fromBlock r = 49700.
Proof.
  destruct (correlator_scan_range
              Examples.Number_ Examples.parseNetworksJson Examples.ethers_id
              Examples.env0 Examples.tokens0
              (Examples.provider None 50000 [] [])
              {| Correlator.txHash := Some "0x5e";
                 Correlator.sourceNetwork := Some "hii";
                 Correlator.destNetwork := Some "sepolia";
                 Correlator.tokenId := Some "default";
                 Correlator.scanWindow := Some 300;
                 Correlator.includeDvn := None |}
              Examples.hiiConfig Examples.sepoliaConfig 50000)
    as (r & HP & Ht & Hf);
    try (vm_compute; reflexivity).
  exists r. split; [exact HP|]. split; [exact Ht|]. rewrite Hf. reflexivity.
Defined.

(** ** The aggregator proxy *)

Section AggProxyClaims.

Import Http AggProxy.

Variable base64 : string -> string.
Variable rangeError nullBodyError : Js.Err.
Variable fetch : FetchRequest -> Js.attempt Upstream.
Variable e : Config.env.

Lemma Response_json_ok (data : json) (code : Z) :
  200 <= code <= 599 -> nullBodyStatus code = false ->
  Response_json rangeError nullBodyError data code
  = Js.Value {| status := code; body := data |}.
Proof.
  intros H Hn. unfold Response_json. rewrite Hn.
  destruct (Z.leb_spec 200 code); [|lia].
  destruct (Z.leb_spec code 599); [reflexivity|lia].
Qed.

(** Of the statuses 300..599 only 304 cannot carry a body. *)
Lemma nullBodyStatus_non2xx (code : Z) :
  300 <= code <= 599 -> code <> 304 -> nullBodyStatus code = false.
Proof.
  intros H Hn. unfold nullBodyStatus. cbn.
  repeat match goal with
         | |- context [code =? ?k] => destruct (Z.eqb_spec code k); [lia|]
         end.
  reflexivity.
Qed.

(** C8 (amended). The proxy answers 400 when [txHash] is missing or not
    a string. With a [txHash]: it answers 500 with an error when no
    aggregator base is configured; on a 2xx upstream answer it passes the
    decoded JSON through unchanged; on a non-2xx upstream answer of a
    status in 200..599 other than 304 it returns the same status with an
    error object that carries [upstreamStatus], and the object holds the
    credential hint exactly when the upstream status is 401 or 403; on an
    upstream 304, which no response with a body can carry, it answers 500
    with the message of the error the response constructor throws. *)
Theorem agg_status_responses
    (reqBody : json) (txHash base : string) (res : Upstream)
    (text : string) (j : json) :
  ((forall s, get "txHash" reqBody <> Some (JStr s)) ->
   POST base64 rangeError nullBodyError fetch e (Js.Value reqBody)
   = {| status := 400; body := JObj [("error", JStr "txHash is required")] |})
  /\ (get "txHash" reqBody = Some (JStr txHash) -> txHash <> EmptyString ->
      (Js.truthy (resolveBase e) = false ->
       status (POST base64 rangeError nullBodyError fetch e (Js.Value reqBody)) = 500
       /\ get "error" (body (POST base64 rangeError nullBodyError fetch e
                               (Js.Value reqBody)))
          = Some (JStr "STATUS_API_BASE not configured"))
      /\ (resolveBase e = Some base -> base <> EmptyString ->
          fetch (upstreamRequest base64 e base txHash) = Js.Value res ->
          (ok res = true -> up_json res = Js.Value j ->
           POST base64 rangeError nullBodyError fetch e (Js.Value reqBody)
           = {| status := 200; body := j |})
          /\ (ok res = false -> 200 <= up_status res <= 599 ->
              up_status res <> 304 ->
              up_text res = Js.Value text ->
              let resp := POST base64 rangeError nullBodyError fetch e
                            (Js.Value reqBody) in
              status resp = up_status res
              /\ get "upstreamStatus" (body resp) = Some (JNum (up_status res))
              /\ (exists msg, get "error" (body resp) = Some (JStr msg))
              /\ (get "hint" (body resp) = Some credentialHint
                  <-> up_status res = 401 \/ up_status res = 403)
              /\ (get "hint" (body resp) = None
                  <-> ~ (up_status res = 401 \/ up_status res = 403)))
          /\ (up_status res = 304 -> up_text res = Js.Value text ->
              POST base64 rangeError nullBodyError fetch e (Js.Value reqBody)
              = {| status := 500;
                   body := JObj [("error",
                                  JStr (Js.or_else (Js.message nullBodyError)
                                                   "Internal error"))] |}))).
Proof.
  split.
  { intros Hno. unfold POST, handle.
    destruct (get "txHash" reqBody) as [[| | |[|c r]| |]|]; try reflexivity.
    exfalso. now apply (Hno (String c r)). }
  intros Htx Hne. unfold POST, handle. rewrite Htx.
  destruct txHash as [|c r]; [contradiction|].
  split.
  { intros Hb. destruct (resolveBase e) as [[|c' r']|]; try discriminate;
      cbn; split; reflexivity. }
  intros Hb Hbne Hf. rewrite Hb. destruct base as [|c' r']; [contradiction|].
  rewrite Hf. split.
  { intros Hok Hj. rewrite Hok, Hj. reflexivity. }
  split.
  - intros Hok Hrange H304 Ht. rewrite Hok, Ht. cbn [negb].
    assert (Hnb : nullBodyStatus (up_status res) = false).
    { apply nullBodyStatus_non2xx; [|exact H304].
      unfold ok in Hok. destruct (Z.leb_spec 200 (up_status res)); [|lia].
      destruct (Z.leb_spec (up_status res) 299); [discriminate Hok | lia]. }
    destruct (Z.eqb_spec (up_status res) 404) as [E404|N404].
    { rewrite (Response_json_ok _ _ Hrange Hnb). cbn.
      repeat split; try reflexivity; try (eexists; reflexivity);
        try discriminate; try lia. }
    destruct (Z.eqb_spec (up_status res) 401) as [E401|N401];
      [|destruct (Z.eqb_spec (up_status res) 403) as [E403|N403]];
      cbn [orb]; rewrite (Response_json_ok _ _ Hrange Hnb); cbn;
      repeat split; try reflexivity; try (eexists; reflexivity);
      try discriminate; try lia; try tauto.
  - intros H304 Ht. unfold ok. rewrite Ht, H304. reflexivity.
Qed.

End AggProxyClaims.

(** C8 does not hold for every non-2xx upstream status: an upstream 304
    is not relayed, because a response with a body cannot carry it; the
    constructor throws and the proxy answers 500. *)
Lemma agg_status_responses_counterexample :
  let res := Examples.upstream 304 EmptyString in
  let resp :=
    AggProxy.POST Examples.base64 Samples.rangeError Samples.nullBodyError
      (fun _ => Js.Value res)
      (Examples.envAgg "alice" "hunter2")
      (Js.Value (Http.JObj [("txHash", Http.JStr "0x5e")])) in
  AggProxy.ok res = false
  /\ AggProxy.up_status res = 304
  /\ Http.status resp = 500
  /\ Http.get "upstreamStatus" (Http.body resp) = None.
Proof. repeat split. Qed.

(** Scenario C: the aggregator answers 403; the proxy answers 403 with
    the credential hint. A request without [txHash] is answered 400. *)
Lemma agg_status_responses_witness :
  let resp :=
    AggProxy.POST Examples.base64 Samples.rangeError Samples.nullBodyError
      (fun _ => Js.Value (Examples.upstream 403 "Forbidden"))
      (Examples.envAgg "alice" "hunter2")
      (Js.Value (Http.JObj [("txHash", Http.JStr "0x5e")])) in
  Http.status resp = 403
  /\ Http.get "hint" (Http.body resp) = Some AggProxy.credentialHint
  /\ Http.status
       (AggProxy.POST Examples.base64 Samples.rangeError Samples.nullBodyError
          (fun _ => Js.Value (Examples.upstream 403 "Forbidden"))
          (Examples.envAgg "alice" "hunter2")
          (Js.Value (Http.JObj [("hash", Http.JStr "0x5e")]))) = 400.
Proof.
  intros resp. subst resp.
  destruct (agg_status_responses Examples.base64 Samples.rangeError
              Samples.nullBodyError
              (fun _ => Js.Value (Examples.upstream 403 "Forbidden"))
              (Examples.envAgg "alice" "hunter2")
              (Http.JObj [("txHash", Http.JStr "0x5e")])
              "0x5e" "https://agg.example/v1"
              (Examples.upstream 403 "Forbidden") "Forbidden" Http.JNull)
    as [_ Hgo].
  destruct Hgo as [_ Hup]; [reflexivity | discriminate |].
  destruct Hup as (_ & Hbad & _); [vm_compute; reflexivity | discriminate | reflexivity |].
  destruct Hbad as (Hs & _ & _ & Hh & _);
    [reflexivity | vm_compute; split; discriminate | discriminate | reflexivity |].
  split; [rewrite Hs; reflexivity|]. split.
  - apply Hh. right. reflexivity.
  - destruct (agg_status_responses Examples.base64 Samples.rangeError
                Samples.nullBodyError
                (fun _ => Js.Value (Examples.upstream 403 "Forbidden"))
                (Examples.envAgg "alice" "hunter2")
                (Http.JObj [("hash", Http.JStr "0x5e")])
                EmptyString EmptyString (Examples.upstream 403 "Forbidden") EmptyString Http.JNull)
      as [H400 _].
    rewrite H400; [reflexivity|]. intros s. vm_compute. discriminate.
Defined.

(** ** The diagnostics route *)

Section EnvCheckClaims.

Import EnvCheck.

Variable Number_ : string -> option Z.
Variable parseNetworksJson : string -> option Config.NetworksConfig.

Lemma buildFrom_public (prefix : string) (e1 e2 : Config.env) :
  (forall k, e1 !! (prefix +:+ k) = e2 !! (prefix +:+ k)) ->
  Config.buildFrom Number_ prefix e1 = Config.buildFrom Number_ prefix e2.
Proof. intros H. unfold Config.buildFrom. cbv zeta. now rewrite !H. Qed.

Lemma hii_not_secret (k : string) : is_secret ("NEXT_PUBLIC_HII_" +:+ k) = false.
Proof. reflexivity. Qed.

Lemma sepolia_not_secret (k : string) : is_secret ("NEXT_PUBLIC_SEPOLIA_" +:+ k) = false.
Proof. reflexivity. Qed.

Lemma getNetworksConfig_public (e1 e2 : Config.env) :
  agree_public e1 e2 ->
  Config.getNetworksConfig Number_ parseNetworksJson e1
  = Config.getNetworksConfig Number_ parseNetworksJson e2.
Proof.
  intros H. unfold Config.getNetworksConfig, Config.buildHii, Config.buildSepolia.
  rewrite (buildFrom_public "NEXT_PUBLIC_HII_" e1 e2)
    by (intros k; apply H, hii_not_secret).
  rewrite (buildFrom_public "NEXT_PUBLIC_SEPOLIA_" e1 e2)
    by (intros k; apply H, sepolia_not_secret).
  now rewrite (H "NEXT_PUBLIC_NETWORKS_CONFIG" eq_refl).
Qed.

Lemma GET_public (e1 e2 : Config.env) :
  agree_public e1 e2 ->
  aggregatorOf e1 = aggregatorOf e2 ->
  GET Number_ parseNetworksJson e1 = GET Number_ parseNetworksJson e2.
Proof.
  intros H Ha. unfold GET. now rewrite (getNetworksConfig_public e1 e2 H), Ha.
Qed.

Lemma truthy_mask (o : option string) : Js.truthy (mask <$> o) = Js.truthy o.
Proof. destruct o as [[|c r]|]; reflexivity. Qed.

Lemma present_alter (e : Config.env) (k' k : string) :
  present (alter mask k' e) k = present e k.
Proof.
  unfold present. destruct (decide (k' = k)) as [->|Hne].
  - rewrite lookup_alter_eq. apply truthy_mask.
  - now rewrite lookup_alter_ne.
Qed.

Lemma present_redact (e : Config.env) (k : string) :
  present (redact e) k = present e k.
Proof. unfold redact, secrets. cbn. now rewrite !present_alter. Qed.

Lemma is_secret_false (k s : string) :
  is_secret k = false -> In s secrets -> s <> k.
Proof.
  unfold is_secret. intros H Hin ->.
  assert (existsb (String.eqb k) secrets = true); [|congruence].
  apply existsb_exists. exists k. split; [exact Hin | apply String.eqb_refl].
Qed.

Lemma redact_public (e : Config.env) : agree_public e (redact e).
Proof.
  intros k Hk. unfold redact, secrets. cbn.
  rewrite !lookup_alter_ne; [reflexivity|..];
    apply (is_secret_false k _ Hk); cbn; auto.
Qed.

(** C9. Two environments that agree on every non-secret variable and on
    which of the secret variables (the aggregator base, user name and
    password) are present get the same answer, whatever the secret
    values are; in particular the answer is the one computed after every
    present secret has been replaced by a fixed marker, so no secret
    value enters it. *)
Theorem env_check_presence_only (e1 e2 : Config.env) :
  (forall k, is_secret k = false -> e1 !! k = e2 !! k) ->
  (forall k, In k secrets -> present e1 k = present e2 k) ->
  GET Number_ parseNetworksJson e1 = GET Number_ parseNetworksJson e2
  /\ GET Number_ parseNetworksJson e1 = GET Number_ parseNetworksJson (redact e1).
Proof.
  intros Hpub Hsec. split.
  - apply GET_public; [exact Hpub|]. unfold aggregatorOf.
    rewrite !Hsec by (cbn; auto). reflexivity.
  - apply GET_public; [apply redact_public|]. unfold aggregatorOf.
    now rewrite !present_redact.
Qed.

End EnvCheckClaims.

(** Two deployments with different credentials get the same diagnostics. *)
Lemma env_check_presence_only_witness :
  EnvCheck.GET Examples.Number_ Examples.parseNetworksJson
    (Examples.envAgg "alice" "hunter2")
  = EnvCheck.GET Examples.Number_ Examples.parseNetworksJson
      (Examples.envAgg "bob" "correct horse").
Proof.
  apply (env_check_presence_only Examples.Number_ Examples.parseNetworksJson
           (Examples.envAgg "alice" "hunter2")
           (Examples.envAgg "bob" "correct horse")).
  - intros k Hk. unfold Examples.envAgg.
    destruct (decide ("STATUS_API_PASSWORD" = k)) as [<-|Hp]; [discriminate Hk|].
    destruct (decide ("STATUS_API_USERNAME" = k)) as [<-|Hu]; [discriminate Hk|].
    now rewrite !(lookup_insert_ne _ "STATUS_API_PASSWORD") by exact Hp;
      rewrite !(lookup_insert_ne _ "STATUS_API_USERNAME") by exact Hu.
  - intros k [<-|[<-|[<-|[<-|[]]]]]; vm_compute; reflexivity.
Defined.

(** * Further properties *)

(** ** The poll and the loading state *)

Section PollFacts.

Import Status.

Lemma rank_five (s : option string) :
  getStatusRank s = 5 <-> Js.toLowerCase (Js.or_else s "unknown") = "executed".
Proof.
  unfold getStatusRank, Js.indexOf, order. cbn [Js.indexOf_from].
  generalize (Js.toLowerCase (Js.or_else s "unknown")). intros x.
  destruct (String.eqb_spec "unknown" x) as [E|N0];
    [subst x; cbn; split; intros H; discriminate H|].
  destruct (String.eqb_spec "sent" x) as [E|N1];
    [subst x; cbn; split; intros H; discriminate H|].
  destruct (String.eqb_spec "dvn_verifying" x) as [E|N2];
    [subst x; cbn; split; intros H; discriminate H|].
  destruct (String.eqb_spec "committed" x) as [E|N3];
    [subst x; cbn; split; intros H; discriminate H|].
  destruct (String.eqb_spec "executing" x) as [E|N4];
    [subst x; cbn; split; intros H; discriminate H|].
  destruct (String.eqb_spec "executed" x) as [E|N5]; cbn.
  - subst x. split; reflexivity.
  - split; [intros H; discriminate H | intros E; now symmetry in E].
Qed.

Lemma lower_executed (s : option string) :
  Js.toLowerCase (Js.or_else s EmptyString) = "executed"
  <-> Js.toLowerCase (Js.or_else s "unknown") = "executed".
Proof. destruct s as [[|c r]|]; cbn; split; intros H; try discriminate H; exact H. Qed.

Lemma executedFromAgg_rank (a : option AggStatus) :
  Page.executedFromAgg a = true <-> rkAgg a = 5.
Proof.
  unfold Page.executedFromAgg, rkAgg.
  rewrite String.eqb_eq, lower_executed. symmetry. apply rank_five.
Qed.

Lemma shown_executed_rank (w : option WorkerStatus) :
  Js.toLowerCase (shownStage w) = "executed" <-> rkWorker w = 5.
Proof.
  unfold rkWorker, shownStage. symmetry. apply rank_five.
Qed.

Lemma shown_executed_stops (w : option WorkerStatus) :
  Js.toLowerCase (shownStage w) = "executed" -> Page.executedFromWorker w = true.
Proof.
  unfold shownStage, Page.executedFromWorker. intros H.
  apply lower_executed in H. rewrite H. reflexivity.
Qed.

(** X1. Executed is final for each slot of the poll: once the aggregator
    status or the worker stage reads executed (in any letter case), it
    still does after one more tick and after any run of interval ticks,
    so the condition that ends the loading state stays true. *)
Theorem executed_is_final
    (agg : fetched AggStatus) (wk : fetched WorkerJson) (st : PollState)
    (ticks : list (fetched AggStatus * fetched WorkerJson)) :
  (Page.executedFromAgg (aggStatus st) = true ->
   Page.executedFromAgg (aggStatus (tick agg wk st)) = true
   /\ Page.executedFromAgg (aggStatus (poll_from st ticks)) = true)
  /\ (Js.toLowerCase (shownStage (lzWorkerStatus st)) = "executed" ->
      Js.toLowerCase (shownStage (lzWorkerStatus (tick agg wk st))) = "executed"
      /\ Js.toLowerCase (shownStage (lzWorkerStatus (poll_from st ticks))) = "executed"
      /\ Page.executedFromWorker (lzWorkerStatus (poll_from st ticks)) = true).
Proof.
  pose proof (tick_aggRank agg wk st) as Ha1.
  pose proof (tick_workerRank agg wk st) as Hw1.
  destruct (poll_from_ranks ticks st) as [Ha2 Hw2].
  unfold aggRank, workerRank in *.
  split.
  - rewrite !executedFromAgg_rank. unfold rkAgg. intros H.
    pose proof (getStatusRank_range (agg_stage (aggStatus (tick agg wk st)))).
    pose proof (getStatusRank_range (agg_stage (aggStatus (poll_from st ticks)))).
    lia.
  - intros H.
    assert (H5 : rkWorker (lzWorkerStatus (poll_from st ticks)) = 5).
    { apply shown_executed_rank in H. unfold rkWorker in *.
      pose proof (getStatusRank_range
                    (worker_stage (lzWorkerStatus (poll_from st ticks)))). lia. }
    split; [|split].
    + apply shown_executed_rank. apply shown_executed_rank in H. unfold rkWorker in *.
      pose proof (getStatusRank_range (worker_stage (lzWorkerStatus (tick agg wk st)))).
      lia.
    + now apply shown_executed_rank.
    + apply shown_executed_stops. now apply shown_executed_rank.
Qed.




(** X3. A delivery found on chain ends the loading state at the next
    on-chain tick, whatever was published before: the worker stage
    becomes executed and the effect turns the sending flag off. *)
Theorem delivered_match_stops_loading
    (r : Correlator.Result) (agg : fetched AggStatus) (st : PollState)
    (txHash : string) :
  Correlator.stage r = "executed" ->
  txHash <> EmptyString ->
  let st' := tick agg (Page.onchainFetched (Correlator.Success r)) st in
  worker_stage (lzWorkerStatus st') = Some "executed"
  /\ Page.stopsLoading txHash st' = true.
Proof.
  intros Hs Hne st'.
  assert (Hw : lzWorkerStatus st' = Some (nextOfJson (Some (Page.onchainJson r)))).
  { unfold st'. rewrite tick_lzWorkerStatus. cbn [Page.onchainFetched].
    destruct (mergeWorker_replaces (nextOfJson (Some (Page.onchainJson r)))
                (lzWorkerStatus st)) as [H|[H _]]; [|exact H].
    rewrite mergeWorker_rankMerge in *.
    pose proof (rankMerge_rank rkWorker rkWorker_min
                  (Some (nextOfJson (Some (Page.onchainJson r)))) (lzWorkerStatus st)) as Hr.
    assert (H5 : rkWorker (Some (nextOfJson (Some (Page.onchainJson r)))) = 5).
    { unfold rkWorker. cbn. rewrite Hs. reflexivity. }
    rewrite H, keepWorker_rank, H5 in Hr.
    pose proof (getStatusRank_range (worker_stage (lzWorkerStatus st))).
    unfold rkWorker in Hr.
    unfold rankMerge in *. destruct (lzWorkerStatus st) as [p|]; [|reflexivity].
    destruct (Z.geb_spec (rkWorker (Some (nextOfJson (Some (Page.onchainJson r)))))
                         (rkWorker (Some p))) as [_|Hlt]; [reflexivity|].
    unfold rkWorker in Hlt, H5. rewrite H5 in Hlt. cbn in Hr. lia. }
  rewrite Hw. cbn. rewrite Hs. split; [reflexivity|].
  unfold Page.stopsLoading, Page.executedFromWorker. rewrite Hw. cbn. rewrite Hs. cbn.
  rewrite orb_true_r. destruct txHash; [contradiction|reflexivity].
Qed.

End PollFacts.

(** ** The scanner route *)

Section ScannerFacts.

Import Http Scanner.

Lemma truthy_lower (s : option string) : Js.truthy (lower s) = Js.truthy s.
Proof. destruct s as [[|c r]|]; reflexivity. Qed.

Lemma includes_opt_truthy (sub : string) (d : option string) :
  sub <> EmptyString -> includes_opt sub d = true -> Js.truthy d = true.
Proof.
  intros Hne. destruct d as [[|c r]|]; cbn; try discriminate; [|reflexivity].
  destruct sub; [contradiction|]. cbn. discriminate.
Qed.

(** X4. The scanner stage is executed only on a destination transaction
    whose status contains "delivered", or when nothing more specific
    applies and the message's own status name reads executed. A
    destination status without "delivered" (such as one that only says
    success) on a message with a destination transaction yields
    executing, or dvn_verifying while no sealer status is present:
    never executed. *)
Theorem scanner_executed_requires_delivered (msg : ScanMessage) :
  (deriveWorkerStage msg = "executed" ->
   (Js.truthy (destination_txHash msg) = true
    /\ includes_opt "delivered" (lower (destination_status msg)) = true)
   \/ lower (status_name msg) = Some "executed")
  /\ (Js.truthy (destination_txHash msg) = true ->
      Js.truthy (destination_status msg) = true ->
      includes_opt "delivered" (lower (destination_status msg)) = false ->
      deriveWorkerStage msg = "executing" \/ deriveWorkerStage msg = "dvn_verifying").
Proof.
  unfold deriveWorkerStage. cbv zeta.
  pose proof (includes_opt_truthy "success" (lower (destination_status msg))) as HS.
  pose proof (includes_opt_truthy "delivered" (lower (destination_status msg))) as HD.
  rewrite !truthy_lower in *.
  destruct (status_name msg) as [[|c r]|].
  all: destruct (Js.truthy (destination_txHash msg));
    destruct (Js.truthy (dvn_status msg));
    destruct (Js.truthy (sealer_status msg));
    destruct (Js.truthy (destination_status msg));
    destruct (Js.truthy (source_txHash msg));
    destruct (includes_opt "delivered" (lower (destination_status msg)));
    destruct (includes_opt "success" (lower (destination_status msg)));
    destruct (Js.truthy (payloadStoredTx msg));
    cbn in *.
  all: try (specialize (HS ltac:(discriminate) eq_refl); discriminate HS).
  all: try (specialize (HD ltac:(discriminate) eq_refl); discriminate HD).
  all: split; [intros H; try discriminate H | intros H1 H2 H3; try discriminate; auto].
  all: try (left; split; reflexivity).
  all: right; now rewrite H.
Qed.






End ScannerFacts.

(** ** Network configuration, keys and chain ids *)

Section ConfigFacts.

Variable Number_ : string -> option Z.
Variable parseNetworksJson : string -> option Config.NetworksConfig.

Ltac read_var H e prefix k :=
  destruct (e !! (prefix +:+ k)) as [[|? ?]|] eqn:?; cbn in H; try discriminate H.

(** X6. A network read from its per-variable environment is complete: if
    [buildHii] or [buildSepolia] (the same reader under two prefixes)
    yields a configuration, each of its thirteen required fields is the
    value of its variable, no text field is empty and neither the chain
    id nor the endpoint id is zero; and one missing or empty required
    variable is enough for the network to be left out. *)
Theorem network_config_is_complete (prefix : string) (e : Config.env) :
  (forall c, Config.buildFrom Number_ prefix e = Some c ->
     (e !! (prefix +:+ "NAME") = Some (Config.name c) /\ Config.name c <> EmptyString)
     /\ (e !! (prefix +:+ "RPC_HTTP") = Some (Config.rpcHttp c)
         /\ Config.rpcHttp c <> EmptyString)
     /\ (e !! (prefix +:+ "ENDPOINT_V2") = Some (Config.endpointV2 c)
         /\ Config.endpointV2 c <> EmptyString)
     /\ (e !! (prefix +:+ "DVN") = Some (Config.dvn c) /\ Config.dvn c <> EmptyString)
     /\ (e !! (prefix +:+ "EXECUTOR") = Some (Config.executor c)
         /\ Config.executor c <> EmptyString)
     /\ (e !! (prefix +:+ "LZ_EXECUTOR") = Some (Config.lzExecutor c)
         /\ Config.lzExecutor c <> EmptyString)
     /\ (e !! (prefix +:+ "OFT") = Some (Config.oft c) /\ Config.oft c <> EmptyString)
     /\ (e !! (prefix +:+ "PRICE_FEED") = Some (Config.priceFeed c)
         /\ Config.priceFeed c <> EmptyString)
     /\ (e !! (prefix +:+ "RECEIVE_ULN") = Some (Config.receiveUln c)
         /\ Config.receiveUln c <> EmptyString)
     /\ (e !! (prefix +:+ "SEND_ULN") = Some (Config.sendUln c)
         /\ Config.sendUln c <> EmptyString)
     /\ (e !! (prefix +:+ "TREASURY") = Some (Config.treasury c)
         /\ Config.treasury c <> EmptyString)
     /\ (Config.parseNum Number_ (e !! (prefix +:+ "CHAIN_ID")) = Some (Config.chainId c)
         /\ Config.chainId c <> 0)
     /\ (Config.parseNum Number_ (e !! (prefix +:+ "EID")) = Some (Config.eid c)
         /\ Config.eid c <> 0)
     /\ Config.rpcWs c = e !! (prefix +:+ "RPC_WS")
     /\ Config.explorerTxBase c = e !! (prefix +:+ "EXPLORER_TX_BASE"))
  /\ (forall k,
        In k ["NAME"; "RPC_HTTP"; "ENDPOINT_V2"; "DVN"; "EXECUTOR"; "LZ_EXECUTOR";
              "OFT"; "PRICE_FEED"; "RECEIVE_ULN"; "SEND_ULN"; "TREASURY"] ->
        Js.truthy (e !! (prefix +:+ k)) = false ->
        Config.buildFrom Number_ prefix e = None)
  /\ (forall k, In k ["CHAIN_ID"; "EID"] ->
        Config.num_truthy (Config.parseNum Number_ (e !! (prefix +:+ k))) = false ->
        Config.buildFrom Number_ prefix e = None).
Proof.
  split; [|split].
  - intros c H. unfold Config.buildFrom in H. cbv zeta in H.
    read_var H e prefix "NAME".
    destruct (Config.parseNum Number_ (e !! (prefix +:+ "CHAIN_ID"))) as [cid|] eqn:Ecid;
      cbn in H; try discriminate H.
    destruct (Z.eqb_spec cid 0) as [|Hcid]; cbn in H; try discriminate H.
    read_var H e prefix "RPC_HTTP".
    destruct (Config.parseNum Number_ (e !! (prefix +:+ "EID"))) as [eid|] eqn:Eeid;
      cbn in H; try discriminate H.
    destruct (Z.eqb_spec eid 0) as [|Heid]; cbn in H; try discriminate H.
    read_var H e prefix "ENDPOINT_V2".
    read_var H e prefix "DVN".
    read_var H e prefix "EXECUTOR".
    read_var H e prefix "LZ_EXECUTOR".
    read_var H e prefix "OFT".
    read_var H e prefix "PRICE_FEED".
    read_var H e prefix "RECEIVE_ULN".
    read_var H e prefix "SEND_ULN".
    read_var H e prefix "TREASURY".
    injection H as <-. cbn.
    repeat split; first [reflexivity | discriminate | assumption].
  - intros k Hk Hf. unfold Config.buildFrom. cbv zeta.
    cbn in Hk.
    repeat (destruct Hk as [<-|Hk];
            [rewrite Hf; cbn; rewrite ?orb_true_r; reflexivity|]).
    destruct Hk.
  - intros k Hk Hf. unfold Config.buildFrom. cbv zeta.
    cbn in Hk.
    repeat (destruct Hk as [<-|Hk];
            [rewrite Hf; cbn; rewrite ?orb_true_r; reflexivity|]).
    destruct Hk.
Qed.

Lemma lookup_key_in {A} (k : string) (l : list (string * A)) :
  In k (map fst l) <-> exists v, Config.lookup_key k l = Some v.
Proof.
  induction l as [|[k' v'] r IH]; cbn.
  - split; [intros [] | intros [v H]; discriminate].
  - destruct (String.eqb_spec k' k) as [->|Hne].
    + split; [eauto | now left].
    + rewrite <- IH. split; [intros [H|H]; [contradiction | exact H] | now right].
Qed.

Lemma keys_and_lookup (e : Config.env) (k : string) :
  (forall keys, Tokens.getNetworkKeys Number_ parseNetworksJson e = Js.Value keys ->
     (In k keys <-> exists c, Config.getNetworkConfig Number_ parseNetworksJson e k
                              = Js.Value c)
     /\ (~ In k keys ->
         Config.getNetworkConfig Number_ parseNetworksJson e k
         = Js.Throws (Js.mkError ("Network configuration for " +:+ k +:+ " not found"))))
  /\ (forall er, Tokens.getNetworkKeys Number_ parseNetworksJson e = Js.Throws er ->
        Config.getNetworkConfig Number_ parseNetworksJson e k = Js.Throws er
        /\ er = Js.mkError "No network configuration found in environment variables").
Proof.
  unfold Tokens.getNetworkKeys, Config.getNetworkConfig.
  destruct (Config.getNetworksConfig Number_ parseNetworksJson e) as [nets|er0] eqn:E.
  - split; [|discriminate]. intros keys [= <-].
    rewrite lookup_key_in. split.
    + split.
      * intros [c Hc]. rewrite Hc. eauto.
      * intros [c Hc]. destruct (Config.lookup_key k nets); [eauto|discriminate].
    + intros Hn. destruct (Config.lookup_key k nets) as [c|] eqn:Ec; [|reflexivity].
      exfalso. apply Hn. eauto.
  - split; [discriminate|]. intros er [= <-]. split; [reflexivity|].
    unfold Config.getNetworksConfig in E.
    destruct (_ ++ _)%list; [|discriminate].
    destruct (Js.truthy _); [|now injection E].
    destruct (e !! "NEXT_PUBLIC_NETWORKS_CONFIG"); [|now injection E].
    destruct (parseNetworksJson _); [discriminate | now injection E].
Qed.


(** X7. Network keys and network lookup agree: for every key among
    [getNetworkKeys()], [getNetworkConfig(key)] returns a configuration;
    for a key that is no property name inherited from [Object.prototype]
    the converse holds too, and outside the keys the lookup throws
    "Network configuration for <key> not found"; and when no
    configuration can be read at all, both throw the same error. *)
Theorem network_keys_match_lookup (e : Config.env) (k : string) :
  (forall keys, Tokens.getNetworkKeys Number_ parseNetworksJson e = Js.Value keys ->
     (In k keys -> exists c, Config.getNetworkConfig Number_ parseNetworksJson e k
                             = Js.Value c)
     /\ (Js.inherited k = false ->
         ((exists c, Config.getNetworkConfig Number_ parseNetworksJson e k = Js.Value c)
          -> In k keys)
         /\ (~ In k keys ->
             Config.getNetworkConfig Number_ parseNetworksJson e k
             = Js.Throws (Js.mkError ("Network configuration for " +:+ k
                                      +:+ " not found")))))
  /\ (forall er, Tokens.getNetworkKeys Number_ parseNetworksJson e = Js.Throws er ->
        Config.getNetworkConfig Number_ parseNetworksJson e k = Js.Throws er
        /\ er = Js.mkError "No network configuration found in environment variables").
Proof.
  destruct (keys_and_lookup e k) as [Hk Ht]. split; [|exact Ht].
  intros keys Hkeys. destruct (Hk keys Hkeys) as [[H1 H2] H3].
  split; [exact H1|]. intros _. split; [exact H2 | exact H3].
Qed.

(** X8. Per-variable configuration takes precedence: as soon as one of
    the two networks is complete in the environment, [getNetworksConfig]
    returns exactly the complete ones, hii before sepolia, and the JSON
    blob is not consulted; the blob is read only when neither is
    complete. *)
Theorem per_variable_config_takes_precedence
    (otherJson : string -> option Config.NetworksConfig) (e : Config.env) :
  (Config.buildHii Number_ e <> None \/ Config.buildSepolia Number_ e <> None ->
   Config.getNetworksConfig Number_ parseNetworksJson e
   = Js.Value (Config.opt_entry "hii" (Config.buildHii Number_ e)
               ++ Config.opt_entry "sepolia" (Config.buildSepolia Number_ e))%list
   /\ Config.getNetworksConfig Number_ parseNetworksJson e
      = Config.getNetworksConfig Number_ otherJson e)
  /\ (Config.buildHii Number_ e = None -> Config.buildSepolia Number_ e = None ->
      forall s cfgs, e !! "NEXT_PUBLIC_NETWORKS_CONFIG" = Some s -> s <> EmptyString ->
                     parseNetworksJson s = Some cfgs ->
                     Config.getNetworksConfig Number_ parseNetworksJson e = Js.Value cfgs).
Proof.
  unfold Config.getNetworksConfig. split.
  - intros H.
    destruct (Config.buildHii Number_ e) as [h|], (Config.buildSepolia Number_ e) as [sp|];
      cbn; try (split; reflexivity).
    destruct H as [H|H]; contradiction.
  - intros -> -> s cfgs Hs Hne Hp. cbn. rewrite Hs.
    destruct s; [contradiction|]. cbn. now rewrite Hp.
Qed.

Lemma firstByChainId_spec {A} (proj : Config.NetworkConfig -> A) (e : Config.env)
    (id : Z) (keys : list string) :
  (forall k, In k keys ->
     exists c, Config.getNetworkConfig Number_ parseNetworksJson e k = Js.Value c) ->
  (exists l1 k l2 c,
     keys = (l1 ++ k :: l2)%list
     /\ Config.getNetworkConfig Number_ parseNetworksJson e k = Js.Value c
     /\ Config.chainId c = id
     /\ (forall k' c', In k' l1 ->
           Config.getNetworkConfig Number_ parseNetworksJson e k' = Js.Value c' ->
           Config.chainId c' <> id)
     /\ Page.firstByChainId Number_ parseNetworksJson proj e id keys
        = Js.Value (Some (proj c)))
  \/ ((forall k c, In k keys ->
         Config.getNetworkConfig Number_ parseNetworksJson e k = Js.Value c ->
         Config.chainId c <> id)
      /\ Page.firstByChainId Number_ parseNetworksJson proj e id keys = Js.Value None).
Proof.
  induction keys as [|k rest IH]; intros Hall.
  - right. split; [intros ? ? []|reflexivity].
  - destruct (Hall k (or_introl eq_refl)) as [c Hc]. cbn. rewrite Hc.
    destruct (Z.eqb_spec (Config.chainId c) id) as [Heq|Hne].
    + left. exists [], k, rest, c. repeat split; auto; try (intros ? ? []).
    + destruct IH as [(l1 & k1 & l2 & c1 & -> & Hc1 & Hid & Hbefore & Hres)|[Hnone Hres]].
      { intros k' Hk'. apply Hall. now right. }
      * left. exists (k :: l1), k1, l2, c1. repeat split; auto.
        intros k' c' [<-|Hin] Hk'; [rewrite Hc in Hk'; now injection Hk' as <-|].
        now apply (Hbefore k' c').
      * right. split; [|exact Hres].
        intros k' c' [<-|Hin] Hk'; [rewrite Hc in Hk'; now injection Hk' as <-|].
        now apply (Hnone k' c').
Qed.

(** X9. Looking a network up by chain id ([getNetworkNameByChainId],
    [getExplorerByChainId]) answers nothing for a missing or zero chain
    id; a name it answers is the name of a configured network with that
    chain id; and for a non-zero chain id that some configured network
    has, it answers the name of one, and the explorer base it answers is
    that of a network with that chain id. *)
Theorem chain_id_lookup_is_sound_and_complete (e : Config.env) :
  Page.getNetworkNameByChainId Number_ parseNetworksJson e None = None
  /\ Page.getNetworkNameByChainId Number_ parseNetworksJson e (Some 0) = None
  /\ Page.getExplorerByChainId Number_ parseNetworksJson e None = None
  /\ Page.getExplorerByChainId Number_ parseNetworksJson e (Some 0) = None
  /\ (forall id n,
        Page.getNetworkNameByChainId Number_ parseNetworksJson e (Some id) = Some n ->
        id <> 0
        /\ exists k c, Config.getNetworkConfig Number_ parseNetworksJson e k = Js.Value c
                       /\ Config.chainId c = id /\ Config.name c = n)
  /\ (forall id x,
        Page.getExplorerByChainId Number_ parseNetworksJson e (Some id) = Some x ->
        id <> 0
        /\ exists k c, Config.getNetworkConfig Number_ parseNetworksJson e k = Js.Value c
                       /\ Config.chainId c = id /\ Config.explorerTxBase c = Some x)
  /\ (forall id k c,
        id <> 0 ->
        Config.getNetworkConfig Number_ parseNetworksJson e k = Js.Value c ->
        Config.chainId c = id ->
        (exists k' c',
           Config.getNetworkConfig Number_ parseNetworksJson e k' = Js.Value c'
           /\ Config.chainId c' = id
           /\ Page.getNetworkNameByChainId Number_ parseNetworksJson e (Some id)
              = Some (Config.name c'))
        /\ (exists k' c',
              Config.getNetworkConfig Number_ parseNetworksJson e k' = Js.Value c'
              /\ Config.chainId c' = id
              /\ Page.getExplorerByChainId Number_ parseNetworksJson e (Some id)
                 = Config.explorerTxBase c')).
Proof.
  assert (Hby : forall A (proj : Config.NetworkConfig -> A) id,
             id <> 0 ->
             (exists k c,
                 Config.getNetworkConfig Number_ parseNetworksJson e k = Js.Value c
                 /\ Config.chainId c = id
                 /\ Page.byChainId Number_ parseNetworksJson proj e (Some id)
                    = Some (proj c))
             \/ ((forall k c,
                     Config.getNetworkConfig Number_ parseNetworksJson e k = Js.Value c ->
                     Config.chainId c <> id)
                 /\ Page.byChainId Number_ parseNetworksJson proj e (Some id) = None)).
  { intros A proj id Hid. unfold Page.byChainId. cbn.
    destruct (Z.eqb_spec id 0) as [|_]; [contradiction|]. cbn.
    destruct (Tokens.getNetworkKeys Number_ parseNetworksJson e) as [keys|er] eqn:Ek.
    - destruct (firstByChainId_spec proj e id keys)
        as [(l1 & k & l2 & c & _ & Hc & Hcid & _ & ->)|[Hnone ->]].
      + intros k Hin. destruct (keys_and_lookup e k) as [Hk' _].
        now apply (Hk' keys Ek).
      + left. exists k, c. auto.
      + right. split; [|reflexivity]. intros k c Hc.
        destruct (keys_and_lookup e k) as [Hk' _].
        apply (Hnone k c); [|exact Hc]. apply (Hk' keys Ek). eauto.
    - right. split; [|reflexivity]. intros k c Hc.
      destruct (keys_and_lookup e k) as [_ Ht].
      destruct (Ht er Ek) as [Ht' _]. rewrite Ht' in Hc. discriminate. }
  assert (Hz : forall A (proj : Config.NetworkConfig -> A),
             Page.byChainId Number_ parseNetworksJson proj e (Some 0) = None)
    by reflexivity.
  repeat split; try reflexivity.
  - intros ->. unfold Page.getNetworkNameByChainId in H. rewrite Hz in H. discriminate.
  - unfold Page.getNetworkNameByChainId in H.
    destruct (Z.eq_dec id 0) as [->|Hid]; [rewrite Hz in H; discriminate|].
    destruct (Hby _ Config.name id Hid) as [(k & c & Hc & Hcid & Hr)|[_ Hr]];
      rewrite Hr in H; [|discriminate].
    injection H as <-. eauto.
  - intros ->. unfold Page.getExplorerByChainId in H. rewrite Hz in H. discriminate.
  - unfold Page.getExplorerByChainId in H.
    destruct (Z.eq_dec id 0) as [->|Hid]; [rewrite Hz in H; discriminate|].
    destruct (Hby _ Config.explorerTxBase id Hid) as [(k & c & Hc & Hcid & Hr)|[_ Hr]];
      rewrite Hr in H; [|discriminate].
    eauto.
  - unfold Page.getNetworkNameByChainId.
    destruct (Hby _ Config.name id H) as [(k1 & c1 & Hc1 & Hcid1 & Hr1)|[Hnone _]];
      [|exfalso; now apply (Hnone k c H0)].
    exists k1, c1. auto.
  - unfold Page.getExplorerByChainId.
    destruct (Hby _ Config.explorerTxBase id H)
      as [(k2 & c2 & Hc2 & Hcid2 & Hr2)|[Hnone _]];
      [|exfalso; now apply (Hnone k c H0)].
    exists k2, c2. rewrite Hr2. auto.
Qed.

End ConfigFacts.

(** ** Supported pairs, tokens and the transfer history *)

Section TokenFacts.

Variable Number_ : string -> option Z.
Variable parseNetworksJson : string -> option Config.NetworksConfig.
Variable parseTokensJson : string -> option (list Config.TokenConfig).

(** X10. Without [NEXT_PUBLIC_SUPPORTED_PAIRS] (unset or empty) the only
    supported pair is hii to sepolia, so the send flow's pair check
    passes for that direction alone; with it, every pair listed has a
    non-empty source and a non-empty destination (entries without a
    colon or with an empty side are dropped). *)
Theorem supported_pairs_default_and_shape (e : Config.env) (pg : Send.Page) :
  (Js.truthy (e !! "NEXT_PUBLIC_SUPPORTED_PAIRS") = false ->
   Tokens.getSupportedPairs e = [("hii", "sepolia")]
   /\ (Send.supportedPairs pg = Tokens.getSupportedPairs e ->
       (Send.isPairSupported pg = true
        <-> Send.sourceNetwork pg = "hii" /\ Send.destNetwork pg = "sepolia")))
  /\ (forall p, In p (Tokens.getSupportedPairs e) ->
        fst p <> EmptyString /\ snd p <> EmptyString).
Proof.
  split.
  - intros Hf.
    assert (Hd : Tokens.getSupportedPairs e = [("hii", "sepolia")]).
    { unfold Tokens.getSupportedPairs.
      destruct (e !! "NEXT_PUBLIC_SUPPORTED_PAIRS") as [[|c r]|];
        first [reflexivity | discriminate Hf]. }
    split; [exact Hd|]. intros Hp. unfold Send.isPairSupported.
    rewrite Hp, Hd. cbn [existsb fst snd]. rewrite orb_false_r. split.
    + intros H. apply andb_true_iff in H. destruct H as [_ H].
      apply andb_true_iff in H. destruct H as [H1 H2].
      apply String.eqb_eq in H1, H2. now split.
    + intros [-> ->]. reflexivity.
  - intros p. unfold Tokens.getSupportedPairs.
    destruct (e !! "NEXT_PUBLIC_SUPPORTED_PAIRS") as [[|c r]|].
    + intros [<-|[]]. split; discriminate.
    + intros H. apply in_map_iff in H. destruct H as ([s d] & <- & H).
      apply filter_In in H. destruct H as [_ H].
      unfold Tokens.pairComplete in H. cbn in *.
      apply andb_true_iff in H. destruct H as [H1 H2].
      destruct s; [discriminate H1|]. destruct d as [[|c' r']|]; try discriminate H2.
      cbn. split; discriminate.
    + intros [<-|[]]. split; discriminate.
Qed.

Lemma oftAddresses_sound_from (networks : Config.NetworksConfig)
    (acc : gmap string string) (k a : string) :
  fold_left (fun acc kc =>
               if Send.nonempty (Config.oft (snd kc))
               then <[fst kc := Config.oft (snd kc)]> acc else acc)
            networks acc !! k = Some a ->
  acc !! k = Some a
  \/ exists c, In (k, c) networks /\ Config.oft c = a /\ a <> EmptyString.
Proof.
  revert acc. induction networks as [|[k' c'] rest IH]; intros acc H; [now left|].
  cbn [fold_left fst snd] in H. apply IH in H.
  destruct H as [H|(c & Hin & Ho & Hne)].
  - destruct (Send.nonempty (Config.oft c')) eqn:En; [|left; exact H].
    destruct (decide (k' = k)) as [->|Hk].
    + rewrite lookup_insert_eq in H. injection H as <-. right. exists c'.
      split; [now left|]. split; [reflexivity|].
      intros E. rewrite E in En. discriminate.
    + rewrite lookup_insert_ne in H by exact Hk. now left.
  - right. exists c. split; [now right|]. auto.
Qed.

Lemma extraTokens_ids (e : Config.env) :
  exists a b c d : bool,
    map Config.id (Tokens.extraTokens e)
    = ((if a then ["hnc_native"] else [])
       ++ (if b then ["eth_native"] else [])
       ++ (if c then ["weth_wrapped"] else [])
       ++ (if d then ["whnc_wrapped"] else []))%list.
Proof.
  unfold Tokens.extraTokens, Tokens.extraIf.
  exists (Js.truthy (e !! "NEXT_PUBLIC_HII_NATIVE_ADAPTER")),
         (Js.truthy (e !! "NEXT_PUBLIC_SEPOLIA_NATIVE_ADAPTER")),
         (Js.truthy (e !! "NEXT_PUBLIC_HII_WETH_OFT")),
         (Js.truthy (e !! "NEXT_PUBLIC_SEPOLIA_WHNC_OFT")).
  rewrite !map_app.
  destruct (e !! "NEXT_PUBLIC_HII_NATIVE_ADAPTER") as [[|? ?]|];
    destruct (e !! "NEXT_PUBLIC_SEPOLIA_NATIVE_ADAPTER") as [[|? ?]|];
    destruct (e !! "NEXT_PUBLIC_HII_WETH_OFT") as [[|? ?]|];
    destruct (e !! "NEXT_PUBLIC_SEPOLIA_WHNC_OFT") as [[|? ?]|]; reflexivity.
Qed.

Lemma extraTokens_native (e : Config.env) (t : Config.TokenConfig) :
  In t (Tokens.extraTokens e) ->
  Config.nativeAdapter t = Some true ->
  (Config.id t = "hnc_native"
   /\ exists a, e !! "NEXT_PUBLIC_HII_NATIVE_ADAPTER" = Some a
                /\ a <> EmptyString /\ Config.addresses t = {[ "hii" := a ]})
  \/ (Config.id t = "eth_native"
      /\ exists a, e !! "NEXT_PUBLIC_SEPOLIA_NATIVE_ADAPTER" = Some a
                   /\ a <> EmptyString /\ Config.addresses t = {[ "sepolia" := a ]}).
Proof.
  unfold Tokens.extraTokens, Tokens.extraIf. intros Hin Hn.
  repeat (apply in_app_or in Hin; destruct Hin as [Hin|Hin]).
  - destruct (e !! "NEXT_PUBLIC_HII_NATIVE_ADAPTER") as [[|c r]|]; cbn in Hin;
      [destruct Hin | | destruct Hin].
    destruct Hin as [<-|[]]. left. split; [reflexivity|].
    eexists. split; [reflexivity|]. split; [discriminate | reflexivity].
  - destruct (e !! "NEXT_PUBLIC_SEPOLIA_NATIVE_ADAPTER") as [[|c r]|]; cbn in Hin;
      [destruct Hin | | destruct Hin].
    destruct Hin as [<-|[]]. right. split; [reflexivity|].
    eexists. split; [reflexivity|]. split; [discriminate | reflexivity].
  - destruct (e !! "NEXT_PUBLIC_HII_WETH_OFT") as [[|c r]|]; cbn in Hin;
      [destruct Hin | | destruct Hin].
    destruct Hin as [<-|[]]. discriminate Hn.
  - destruct (e !! "NEXT_PUBLIC_SEPOLIA_WHNC_OFT") as [[|c r]|]; cbn in Hin;
      [destruct Hin | | destruct Hin].
    destruct Hin as [<-|[]]. discriminate Hn.
Qed.

(** X11. The token list built from the network configuration (when the
    JSON override is absent or unusable) starts with the token
    "default", whose addresses are token addresses of configured
    networks; its token ids are pairwise distinct; and a token flagged
    as native-asset adapter is hnc_native, addressable on hii only, or
    eth_native, addressable on sepolia only, so such a token has no
    address on any other source network. *)
Theorem builtin_tokens_shape (e : Config.env) (ts : list Config.TokenConfig) :
  Tokens.builtinTokens Number_ parseNetworksJson e = Js.Value ts ->
  (exists networks rest,
     Config.getNetworksConfig Number_ parseNetworksJson e = Js.Value networks
     /\ ts = Tokens.defaultToken networks :: rest
     /\ forall k a, Config.tokenAddress ts "default" k = Some a ->
                    exists c, In (k, c) networks /\ Config.oft c = a /\ a <> EmptyString)
  /\ List.NoDup (map Config.id ts)
  /\ (forall t, In t ts -> Config.nativeAdapter t = Some true ->
        (Config.id t = "hnc_native"
         /\ forall k a, Config.addresses t !! k = Some a ->
                        k = "hii" /\ e !! "NEXT_PUBLIC_HII_NATIVE_ADAPTER" = Some a)
        \/ (Config.id t = "eth_native"
            /\ forall k a, Config.addresses t !! k = Some a ->
                           k = "sepolia"
                           /\ e !! "NEXT_PUBLIC_SEPOLIA_NATIVE_ADAPTER" = Some a)).
Proof.
  unfold Tokens.builtinTokens.
  destruct (Config.getNetworksConfig Number_ parseNetworksJson e) as [nets|er];
    [|discriminate].
  intros H.
  assert (Hts : exists rest, ts = Tokens.defaultToken nets :: rest
                             /\ (rest = [] \/ rest = Tokens.extraTokens e)).
  { destruct (negb _); injection H as <-; eexists; split; try reflexivity; auto. }
  clear H. destruct Hts as (rest & -> & Hrest).
  split; [|split].
  - exists nets, rest. split; [reflexivity|]. split; [reflexivity|].
    intros k a. unfold Config.tokenAddress, Config.findToken. cbn.
    intros Ha. unfold Tokens.oftAddresses in Ha.
    apply oftAddresses_sound_from in Ha. destruct Ha as [Ha|Ha]; [|exact Ha].
    rewrite lookup_empty in Ha. discriminate.
  - cbn. destruct Hrest as [->| ->].
    + repeat constructor. intros [].
    + destruct (extraTokens_ids e) as (a & b & c & d & ->).
      destruct a, b, c, d; cbn;
        repeat (constructor; [cbn; intuition discriminate|]); constructor.
  - intros t [<-|Hin] Hn; [discriminate Hn|].
    destruct Hrest as [->| ->]; [destruct Hin|].
    destruct (extraTokens_native e t Hin Hn)
      as [(Hid & a & Ha & Hne & Hadd)|(Hid & a & Ha & Hne & Hadd)].
    + left. split; [exact Hid|]. intros k x. rewrite Hadd.
      intros Hx. apply lookup_singleton_Some in Hx. destruct Hx as [<- <-]. auto.
    + right. split; [exact Hid|]. intros k x. rewrite Hadd.
      intros Hx. apply lookup_singleton_Some in Hx. destruct Hx as [<- <-]. auto.
Qed.

Lemma firstn_app_firstn {A} (n : nat) (l m : list A) :
  firstn n (l ++ firstn n m) = firstn n (l ++ m).
Proof.
  rewrite !firstn_app, firstn_firstn. f_equal. f_equal. lia.
Qed.

Lemma saveAll_capped (txs h : list Send.HistoryEntry) :
  (length h <= 5)%nat ->
  Page.saveAll txs (Page.Stored h) = Page.Stored (firstn 5 (rev txs ++ h)).
Proof.
  revert h. induction txs as [|t txs IH]; intros h Hh.
  - cbn. now rewrite firstn_all2.
  - unfold Page.saveAll in *. cbn [fold_left Page.saveToHistory].
    rewrite IH by apply firstn_le_length.
    rewrite firstn_app_firstn. cbn [rev]. now rewrite <- app_assoc.
Qed.

Lemma saveAll_corrupt (txs : list Send.HistoryEntry) :
  Page.saveAll txs Page.Corrupt = Page.Corrupt.
Proof.
  induction txs as [|x xs IH]; [reflexivity|]. unfold Page.saveAll in *. exact IH.
Qed.

(** X12. The transfer history keeps the five most recent entries, newest
    first: after saving one or more entries in turn, the stored list is
    the first five of the saved entries in reverse order followed by
    what was stored before, and so never longer than five; storage whose
    content cannot be read is never written. *)
Theorem history_keeps_last_five
    (t : Send.HistoryEntry) (txs h : list Send.HistoryEntry) :
  Page.saveAll (t :: txs) (Page.Stored h)
  = Page.Stored (firstn 5 (rev (t :: txs) ++ h))
  /\ (forall l, Page.saveAll (t :: txs) (Page.Stored h) = Page.Stored l ->
        (length l <= 5)%nat /\ head l = Some (List.last (t :: txs) t))
  /\ Page.saveAll (t :: txs) Page.Corrupt = Page.Corrupt.
Proof.
  assert (E : Page.saveAll (t :: txs) (Page.Stored h)
              = Page.Stored (firstn 5 (rev (t :: txs) ++ h))).
  { unfold Page.saveAll. cbn [fold_left Page.saveToHistory].
    change (fold_left (fun s tx => Page.saveToHistory tx s) txs
              (Page.Stored (firstn 5 (t :: h))))
      with (Page.saveAll txs (Page.Stored (firstn 5 (t :: h)))).
    rewrite saveAll_capped by apply firstn_le_length.
    rewrite firstn_app_firstn. cbn [rev]. now rewrite <- app_assoc. }
  split; [exact E|]. split.
  - intros l Hl. rewrite E in Hl. injection Hl as <-.
    split; [apply firstn_le_length|].
    clear E. cbn [rev]. destruct (rev txs ++ [t])%list as [|y ys] eqn:Er.
    + destruct (rev txs); discriminate Er.
    + assert (Ht : t :: txs = rev (y :: ys))
        by (rewrite <- Er, rev_unit, rev_involutive; reflexivity).
      rewrite Ht. cbn [rev]. rewrite last_last. reflexivity.
  - apply saveAll_corrupt.
Qed.

End TokenFacts.

(** ** Revert decoding and address padding *)

Section DecodeFacts.

Import Decode.

Variable parseError : string -> Js.attempt (option ErrorDescription).

(** X13. [decodeOftError] answers nothing unless the error carries a
    revert payload that starts with "0x"; on such a payload, when the ABI
    has no matching error it answers "UnknownError"; and the table of
    known selectors is consulted only when decoding throws (or the
    arguments cannot be written as JSON): then the answer is
    "InvalidOptions(bytes)" exactly when the first ten characters,
    lower-cased, are 0x6592671c. A non-empty string in the error's own
    [data] is preferred to every nested place. *)
Theorem decode_revert_payload (err : candidate) :
  ((forall p, payload err = Some p -> String.prefix "0x" p = false) ->
   decodeOftError parseError err = None)
  /\ (forall p, payload err = Some p -> String.prefix "0x" p = true ->
        (parseError p = Js.Value None ->
         decodeOftError parseError err = Some "UnknownError")
        /\ (forall d, parseError p = Js.Value (Some d) -> pe_args d = None ->
              decodeOftError parseError err = Some (pe_name d))
        /\ ((exists er, parseError p = Js.Throws er)
            \/ (exists d er, parseError p = Js.Value (Some d)
                             /\ pe_args d = Some (Js.Throws er)) ->
            decodeOftError parseError err
            = if String.eqb (Js.toLowerCase (substring 0 10 p)) "0x6592671c"
              then Some "InvalidOptions(bytes)" else None))
  /\ (forall s info, s <> EmptyString ->
        payload (CObject (DString s) info) = Some s).
Proof.
  unfold decodeOftError. split; [|split].
  - intros H. destruct (payload err) as [[|c r]|]; try reflexivity.
    now rewrite (H _ eq_refl).
  - intros p Hp Hx. rewrite Hp.
    destruct p as [|c r]; [discriminate Hx|]. rewrite Hx. cbn [negb].
    assert (Hfb : fallback (String c r)
                  = if String.eqb (Js.toLowerCase (substring 0 10 (String c r)))
                                  "0x6592671c"
                    then Some "InvalidOptions(bytes)" else None).
    { unfold fallback, known. destruct (String.eqb _ _); reflexivity. }
    split; [|split].
    + now intros ->.
    + intros d -> Ha. now rewrite Ha.
    + intros [[er ->]|(d & er & -> & Ha)]; [exact Hfb | rewrite Ha; exact Hfb].
  - intros s info Hs. destruct s; [contradiction|reflexivity].
Qed.

End DecodeFacts.

Section PaddingFacts.

Lemma lower_ascii_idem (c : ascii) : Js.lower_ascii (Js.lower_ascii c) = Js.lower_ascii c.
Proof. destruct c as [[] [] [] [] [] [] [] []]; reflexivity. Qed.

Lemma toLowerCase_idem (s : string) : Js.toLowerCase (Js.toLowerCase s) = Js.toLowerCase s.
Proof. induction s as [|c r IH]; cbn; [reflexivity|]. now rewrite lower_ascii_idem, IH. Qed.

Lemma app_cons (c : ascii) (r b : string) : String c r +:+ b = String c (r +:+ b).
Proof. reflexivity. Qed.

Lemma toLowerCase_app (a b : string) :
  Js.toLowerCase (a +:+ b) = Js.toLowerCase a +:+ Js.toLowerCase b.
Proof.
  induction a as [|c r IH]; [reflexivity|].
  rewrite app_cons. cbn [Js.toLowerCase]. rewrite app_cons. f_equal. exact IH.
Qed.

Lemma toLowerCase_length (s : string) :
  String.length (Js.toLowerCase s) = String.length s.
Proof. induction s as [|c r IH]; cbn; [reflexivity|]. now rewrite IH. Qed.

Lemma toLowerCase_slice (n : nat) (s : string) :
  Js.toLowerCase (Js.slice_from n s) = Js.slice_from n (Js.toLowerCase s).
Proof.
  revert s. induction n as [|n IH]; intros s; [reflexivity|].
  destruct s as [|c r]; [reflexivity|]. cbn. apply IH.
Qed.

Lemma toLowerCase_zeros (n : nat) :
  Js.toLowerCase (Js.repeat_char "0" n) = Js.repeat_char "0" n.
Proof. induction n as [|n IH]; cbn; [reflexivity|]. now rewrite IH. Qed.

Lemma length_app_string (a b : string) :
  String.length (a +:+ b) = (String.length a + String.length b)%nat.
Proof.
  induction a as [|c r IH]; [reflexivity|].
  rewrite app_cons. cbn [String.length]. rewrite IH. reflexivity.
Qed.

Lemma length_repeat_char (c : ascii) (n : nat) : String.length (Js.repeat_char c n) = n.
Proof. induction n as [|n IH]; cbn; [reflexivity|]. now rewrite IH. Qed.

Lemma length_slice_from (n : nat) (s : string) :
  String.length (Js.slice_from n s) = (String.length s - n)%nat.
Proof.
  revert s. induction n as [|n IH]; intros s; cbn; [lia|].
  destruct s as [|c r]; cbn; [reflexivity | apply IH].
Qed.

Lemma pad32_lower (a : string) :
  Correlator.pad32 a = Js.toLowerCase (Contracts.addressToBytes32 a).
Proof.
  unfold Correlator.pad32, Contracts.addressToBytes32, Js.padStart.
  rewrite !toLowerCase_app, toLowerCase_zeros, toLowerCase_slice.
  rewrite !length_slice_from, toLowerCase_length. reflexivity.
Qed.

(** X14. The sender the correlator expects is the lower-cased form of
    the 32-byte value the send helpers build for the same address:
    [pad32 a] equals [addressToBytes32 a] lower-cased. It depends on the
    address only up to letter case, and for an address of at most 66
    characters it has exactly 66: "0x", the zero padding, then the
    address digits. *)
Theorem sender_padding_agrees (a b : string) :
  Correlator.pad32 a = Js.toLowerCase (Contracts.addressToBytes32 a)
  /\ (Js.toLowerCase a = Js.toLowerCase b -> Correlator.pad32 a = Correlator.pad32 b)
  /\ ((2 <= String.length a <= 66)%nat ->
      String.length (Correlator.pad32 a) = 66%nat
      /\ String.length (Contracts.addressToBytes32 a) = 66%nat
      /\ Correlator.pad32 a
         = "0x" +:+ Js.repeat_char "0" (66 - String.length a)
                +:+ Js.toLowerCase (Js.slice_from 2 a)).
Proof.
  split; [apply pad32_lower|]. split.
  - intros H. unfold Correlator.pad32. now rewrite H.
  - intros Hl. unfold Correlator.pad32, Contracts.addressToBytes32, Js.padStart.
    rewrite <- toLowerCase_slice, toLowerCase_length.
    rewrite !length_app_string, !length_repeat_char, toLowerCase_length,
      !length_slice_from.
    change (String.length "0x") with 2%nat.
    replace (64 - (String.length a - 2))%nat with (66 - String.length a)%nat by lia.
    repeat split; lia.
Qed.

End PaddingFacts.

(** ** More on the packet correlator *)

Section CorrelatorMore.

Import Correlator.

Variable Number_ : string -> option Z.
Variable parseNetworksJson : string -> option Config.NetworksConfig.
Variable ethers_id : string -> string.
Variable e : Config.env.
Variable tokens : list Config.TokenConfig.
Variable getProvider : string -> Provider.

Lemma observe_includeDvn (b : option bool) (rq : Request) :
  match observe Number_ parseNetworksJson ethers_id e tokens getProvider
          (Js.Value (Some (Vary.setIncludeDvn b rq))),
        observe Number_ parseNetworksJson ethers_id e tokens getProvider
          (Js.Value (Some rq)) with
  | inl x, inl y => x = y
  | inr (o, s, d, snd_, rq'), inr (o', s', d', snd', rq'') =>
      o = o' /\ s = s' /\ d = d' /\ snd_ = snd' /\ rq' = Vary.setIncludeDvn b rq
      /\ rq'' = rq
  | _, _ => False
  end.
Proof.
  unfold observe. cbn [Js.nullish Vary.setIncludeDvn txHash sourceNetwork destNetwork
                         tokenId scanWindow].
  destruct (_ || _); [reflexivity|].
  destruct (Config.getNetworkConfig _ _ _ (Js.or_else (sourceNetwork rq) _));
    [|reflexivity].
  destruct (Config.getNetworkConfig _ _ _ (Js.or_else (destNetwork rq) _));
    [|reflexivity].
  destruct (negb _); [reflexivity|].
  destruct (getBlockNumber _); [|reflexivity].
  repeat split.
Qed.

(** X15. The optional verifier-network scan never changes what the
    correlator derives: with [includeDvn] set to anything, the answer
    has the same status code, error, stage, source and destination
    status, destination transaction, origin, receiver and scan window;
    only the [verification] detail differs. *)
Theorem dvn_scan_changes_only_verification (b : option bool) (rq : Request) :
  Vary.withoutVerification
    (POST Number_ parseNetworksJson ethers_id e tokens getProvider
       (Js.Value (Some (Vary.setIncludeDvn b rq))))
  = Vary.withoutVerification
      (POST Number_ parseNetworksJson ethers_id e tokens getProvider
         (Js.Value (Some rq))).
Proof.
  pose proof (observe_includeDvn b rq) as H. unfold POST.
  destruct (observe _ _ _ _ _ _ (Js.Value (Some (Vary.setIncludeDvn b rq))))
    as [x|[[[[o s] d] sn] r1]],
    (observe _ _ _ _ _ _ (Js.Value (Some rq))) as [y|[[[[o' s'] d'] sn'] r2]];
    try contradiction.
  - subst y. reflexivity.
  - destruct H as (-> & -> & -> & -> & -> & ->). reflexivity.
Qed.

Lemma matchLog_withNonce (eventName : string) (eid : Z) (snd_ : string) (n : Z)
    (log : Log) :
  matchLog eventName eid snd_ (Vary.withNonce n log)
  = match matchLog eventName eid snd_ log with
    | Some m =>
        Some {| dstTx := dstTx m;
                m_origin := {| srcEid := srcEid (m_origin m);
                               sender := sender (m_origin m); nonce := n |};
                m_receiver := m_receiver m |}
    | None => None
    end.
Proof.
  unfold matchLog, Vary.withNonce. cbn.
  destruct (endpointParse log) as [[parsed|]|er]; try reflexivity. cbn.
  destruct (negb _); [reflexivity|].
  destruct (ev_origin parsed) as [o|]; [|reflexivity]. cbn.
  destruct (_ && _); reflexivity.
Qed.

(** X16. The nonce plays no part in the correlation: replacing the nonce
    a log decodes to by any other leaves the log's match unchanged, so a
    scan over logs with arbitrary nonces finds a match exactly when the
    original scan does, in the same transaction. *)
Theorem correlation_ignores_nonce
    (eventName : string) (eid : Z) (snd_ : string) (f : Log -> Z) (logs : list Log) :
  (forall log, matches eventName eid snd_ (Vary.withNonce (f log) log)
               = matches eventName eid snd_ log)
  /\ dstTx <$> scan eventName eid snd_ (map (fun log => Vary.withNonce (f log) log) logs)
     = dstTx <$> scan eventName eid snd_ logs.
Proof.
  split.
  - intros log. unfold matches. rewrite matchLog_withNonce.
    destruct (matchLog eventName eid snd_ log); reflexivity.
  - induction logs as [|log rest IH]; [reflexivity|].
    cbn [map scan]. rewrite matchLog_withNonce.
    destruct (matchLog eventName eid snd_ log); [reflexivity | exact IH].
Qed.

(** X17. The answers when the correlator cannot run, in the order the
    checks are made: an unreadable body gives 500 with the error's
    message; a body without one of txHash, sourceNetwork, destNetwork,
    tokenId gives 400 before any configuration is read; and, for network
    keys that are no property names inherited from [Object.prototype],
    an unknown source or destination network gives 500 with the lookup's
    message, a token without an address on the source network gives 400,
    and a failing destination height query gives 500. *)
Theorem correlator_error_answers (rq : Request) :
  (forall er,
     POST Number_ parseNetworksJson ethers_id e tokens getProvider (Js.Throws er)
     = Failure 500 (Js.or_else (Js.message er) "Internal error"))
  /\ POST Number_ parseNetworksJson ethers_id e tokens getProvider (Js.Value None)
     = Failure 400 "Missing txHash, sourceNetwork, destNetwork, or tokenId"
  /\ (Js.truthy (txHash rq) && Js.truthy (sourceNetwork rq)
      && Js.truthy (destNetwork rq) && Js.truthy (tokenId rq) = false ->
      POST Number_ parseNetworksJson ethers_id e tokens getProvider (Js.Value (Some rq))
      = Failure 400 "Missing txHash, sourceNetwork, destNetwork, or tokenId")
  /\ (Js.truthy (txHash rq) && Js.truthy (sourceNetwork rq)
      && Js.truthy (destNetwork rq) && Js.truthy (tokenId rq) = true ->
      let src := Js.or_else (sourceNetwork rq) EmptyString in
      let dst := Js.or_else (destNetwork rq) EmptyString in
      let tok := Js.or_else (tokenId rq) EmptyString in
      Js.inherited src = false ->
      Js.inherited dst = false ->
      (forall er,
         Config.getNetworkConfig Number_ parseNetworksJson e src = Js.Throws er ->
         POST Number_ parseNetworksJson ethers_id e tokens getProvider
           (Js.Value (Some rq))
         = Failure 500 (Js.or_else (Js.message er) "Internal error"))
      /\ (forall c er,
            Config.getNetworkConfig Number_ parseNetworksJson e src = Js.Value c ->
            Config.getNetworkConfig Number_ parseNetworksJson e dst = Js.Throws er ->
            POST Number_ parseNetworksJson ethers_id e tokens getProvider
              (Js.Value (Some rq))
            = Failure 500 (Js.or_else (Js.message er) "Internal error"))
      /\ (forall c d,
            Config.getNetworkConfig Number_ parseNetworksJson e src = Js.Value c ->
            Config.getNetworkConfig Number_ parseNetworksJson e dst = Js.Value d ->
            (Js.truthy (Config.tokenAddress tokens tok src) = false ->
             POST Number_ parseNetworksJson ethers_id e tokens getProvider
               (Js.Value (Some rq))
             = Failure 400 "OFT address not found for source network")
            /\ (forall er,
                  Js.truthy (Config.tokenAddress tokens tok src) = true ->
                  getBlockNumber (getProvider dst) = Js.Throws er ->
                  POST Number_ parseNetworksJson ethers_id e tokens getProvider
                    (Js.Value (Some rq))
                  = Failure 500 (Js.or_else (Js.message er) "Internal error")))).
Proof.
  split; [reflexivity|]. split; [reflexivity|]. split.
  - intros H. unfold POST, observe. cbn [Js.nullish].
    destruct (Js.truthy (txHash rq)), (Js.truthy (sourceNetwork rq)),
      (Js.truthy (destNetwork rq)), (Js.truthy (tokenId rq));
      first [discriminate H | reflexivity].
  - intros H src dst tok _ _.
    assert (Hg : negb (Js.truthy (txHash rq)) || negb (Js.truthy (sourceNetwork rq))
                 || negb (Js.truthy (destNetwork rq)) || negb (Js.truthy (tokenId rq))
                 = false).
    { destruct (Js.truthy (txHash rq)), (Js.truthy (sourceNetwork rq)),
        (Js.truthy (destNetwork rq)), (Js.truthy (tokenId rq));
        first [discriminate H | reflexivity]. }
    unfold POST, observe. cbn [Js.nullish]. rewrite Hg. fold src dst tok.
    split; [|split].
    + intros er ->. reflexivity.
    + intros c er -> ->. reflexivity.
    + intros c d -> ->. split.
      * intros ->. reflexivity.
      * intros er -> ->. reflexivity.
Qed.

End CorrelatorMore.

Section CorrelatorOutage.

Import Correlator.

Variable Number_ : string -> option Z.
Variable parseNetworksJson : string -> option Config.NetworksConfig.
Variable ethers_id : string -> string.
Variable e : Config.env.
Variable tokens : list Config.TokenConfig.
Variable getProvider : string -> Provider.

(** X18. Failing node queries are swallowed, not reported: when the
    request is well formed and the destination height [h] is known, but
    the source receipt query and every destination log query throw, the
    correlator still answers successfully, with stage inflight, source
    status PendingOrUnknown, destination status NotFound, no destination
    transaction, no origin, no receiver, an empty verifier summary when
    one was asked for, and the window from max(0, h - scanWindow) to h. *)
Theorem node_failures_degrade_to_inflight
    (hash src dst tok : string) (w : option Z) (dvnFlag : option bool)
    (srcConfig dstConfig : Config.NetworkConfig) (h : Z) (er : Js.Err) :
  hash <> EmptyString -> src <> EmptyString -> dst <> EmptyString ->
  tok <> EmptyString ->
  Config.getNetworkConfig Number_ parseNetworksJson e src = Js.Value srcConfig ->
  Config.getNetworkConfig Number_ parseNetworksJson e dst = Js.Value dstConfig ->
  Js.truthy (Config.tokenAddress tokens tok src) = true ->
  getBlockNumber (getProvider dst) = Js.Value h ->
  getTransactionReceipt (getProvider src) hash = Js.Throws er ->
  (forall f, exists er', getLogs (getProvider dst) f = Js.Throws er') ->
  POST Number_ parseNetworksJson ethers_id e tokens getProvider
    (Js.Value (Some {| txHash := Some hash; sourceNetwork := Some src;
                       destNetwork := Some dst; tokenId := Some tok;
                       scanWindow := w; includeDvn := dvnFlag |}))
  = Success
      {| stage := "inflight";
         source_status := "PendingOrUnknown";
         source_txHash := hash;
         destination_status := "NotFound";
         destination_txHash := None;
         origin := None;
         receiver := None;
         verification :=
           if Js.nullish dvnFlag false && Js.truthy (Some (Config.dvn dstConfig))
           then Some {| events := []; dvn_address := Config.dvn dstConfig |}
           else None;
         networkBase := Config.name srcConfig +:+ "â†’" +:+ Config.name dstConfig;
         window_fromBlock := Z.max 0 (h - Js.nullish w 20000);
         window_toBlock := h |}.
Proof.
  intros Hh Hs Hd Ht Hsrc Hdst Htok Hheight Hrec Hlogs.
  unfold POST, observe.
  cbn [Js.nullish txHash sourceNetwork destNetwork tokenId scanWindow includeDvn].
  assert (T : forall s, s <> EmptyString -> Js.truthy (Some s) = true).
  { intros [|c s] N; [contradiction|reflexivity]. }
  rewrite !T by assumption. cbn [negb orb].
  assert (O : forall s, s <> EmptyString -> Js.or_else (Some s) EmptyString = s).
  { intros [|c s] N; [contradiction|reflexivity]. }
  rewrite !O by assumption.
  rewrite Hsrc, Hdst, Htok. cbn [negb]. rewrite Hheight, Hrec.
  cbn [Js.catch_default fromBlockOf].
  assert (L : forall f, Js.catch_default (getLogs (getProvider dst) f) [] = []).
  { intros f. destruct (Hlogs f) as [er' ->]. reflexivity. }
  rewrite !L.
  cbn [scan o_matched o_verified o_srcReceipt o_fromBlock o_toBlock
       deriveStage fmap option_fmap option_map mbind option_bind Js.or_opt
       txHash destNetwork includeDvn].
  rewrite !O by assumption. rewrite L.
  destruct (Js.nullish dvnFlag false && Js.truthy (Some (Config.dvn dstConfig)));
    reflexivity.
Qed.

End CorrelatorOutage.

(** ** More on the aggregator proxy and the diagnostics route *)

Section ProxyFacts.

Import Http AggProxy.

Variable base64 : string -> string.
Variable rangeError nullBodyError : Js.Err.
Variable e : Config.env.

Lemma handle_cases (fetch : FetchRequest -> Js.attempt Upstream)
    (reqBody : Js.attempt json) :
  (exists er, handle base64 rangeError nullBodyError fetch e reqBody = Js.Throws er)
  \/ (exists resp, handle base64 rangeError nullBodyError fetch e reqBody = Js.Value resp
                   /\ (status resp = 200 \/ status resp = 400 \/ status resp = 500))
  \/ (exists b txHash base res resp,
        reqBody = Js.Value b
        /\ get "txHash" b = Some (JStr txHash)
        /\ resolveBase e = Some base
        /\ fetch (upstreamRequest base64 e base txHash) = Js.Value res
        /\ ok res = false
        /\ 200 <= up_status res <= 599
        /\ handle base64 rangeError nullBodyError fetch e reqBody = Js.Value resp
        /\ status resp = up_status res).
Proof.
  unfold handle. destruct reqBody as [b|er]; [|left; eauto].
  destruct (get "txHash" b) as [[| | |[|c r]| |]|] eqn:Etx;
    try (right; left; eexists; split; [reflexivity | cbn; auto]).
  destruct (resolveBase e) as [[|c' r']|] eqn:Eb;
    try (right; left; eexists; split; [reflexivity | cbn; auto]).
  destruct (fetch _) as [res|er] eqn:Ef; [|left; eauto].
  destruct (ok res) eqn:Eok; cbn [negb].
  - destruct (up_json res); [|left; eauto].
    right; left; eexists; split; [reflexivity | cbn; auto].
  - destruct (up_text res) as [text|er]; [|left; eauto].
    assert (R : forall data,
                (exists er, Response_json rangeError nullBodyError data (up_status res)
                            = Js.Throws er)
                \/ (200 <= up_status res <= 599
                    /\ Response_json rangeError nullBodyError data (up_status res)
                       = Js.Value {| status := up_status res; body := data |})).
    { intros data. unfold Response_json.
      destruct (Z.leb_spec 200 (up_status res)); cbn [andb negb]; [|left; eauto].
      destruct (Z.leb_spec (up_status res) 599); cbn [negb]; [|left; eauto].
      destruct (nullBodyStatus (up_status res)); [left; eauto|].
      right. split; [lia | reflexivity]. }
    destruct (up_status res =? 404);
      [|destruct ((up_status res =? 401) || (up_status res =? 403))];
      match goal with
      | |- context [Response_json _ _ ?d _] => destruct (R d) as [[er Her]|[Hr Hv]]
      end;
      first [ left; eexists; exact Her
            | right; right; exists b, (String c r), (String c' r'), res;
              eexists; repeat split; first [eassumption | lia | reflexivity] ].
Qed.

(** X19. Whatever the request, the upstream and the environment, the
    proxy answers, and its status is 200, 400, 500 or the status of a
    non-2xx upstream answer in 200..599 relayed unchanged; so the status
    always lies in 200..599. *)
Theorem proxy_status_codes (fetch : FetchRequest -> Js.attempt Upstream)
    (reqBody : Js.attempt json) :
  let resp := POST base64 rangeError nullBodyError fetch e reqBody in
  (status resp = 200 \/ status resp = 400 \/ status resp = 500
   \/ exists b txHash base res,
        reqBody = Js.Value b
        /\ get "txHash" b = Some (JStr txHash)
        /\ resolveBase e = Some base
        /\ fetch (upstreamRequest base64 e base txHash) = Js.Value res
        /\ ok res = false
        /\ status resp = up_status res)
  /\ 200 <= status resp <= 599.
Proof.
  cbv zeta. unfold POST.
  destruct (handle_cases fetch reqBody)
    as [[er ->]|[(resp & -> & H)|(b & tx & base & res & resp & Hb & Htx & Hbase & Hf
                                  & Hok & Hr & -> & Hs)]].
  - cbn. split; [auto|lia].
  - split; [tauto|lia].
  - split; [|lia]. right; right; right. exists b, tx, base, res.
    repeat split; assumption.
Qed.

(** X20. Every failure inside the handler is answered 500 with the
    error's message, or "Internal error" when it has none: an unreadable
    request body, a failing upstream call, an unreadable upstream body
    (text of a non-2xx answer, JSON of a 2xx answer), and a non-2xx
    upstream status that a response cannot carry, be it outside 200..599
    or the null-body status 304. *)
Theorem proxy_failures_answer_500 (fetch : FetchRequest -> Js.attempt Upstream)
    (b : json) (txHash base : string) (er : Js.Err) :
  let failure :=
    {| status := 500;
       body := JObj [("error", JStr (Js.or_else (Js.message er) "Internal error"))] |} in
  POST base64 rangeError nullBodyError fetch e (Js.Throws er) = failure
  /\ (get "txHash" b = Some (JStr txHash) -> txHash <> EmptyString ->
      resolveBase e = Some base -> base <> EmptyString ->
      (fetch (upstreamRequest base64 e base txHash) = Js.Throws er ->
       POST base64 rangeError nullBodyError fetch e (Js.Value b) = failure)
      /\ (forall res,
            fetch (upstreamRequest base64 e base txHash) = Js.Value res ->
            (ok res = true -> up_json res = Js.Throws er ->
             POST base64 rangeError nullBodyError fetch e (Js.Value b) = failure)
            /\ (ok res = false -> up_text res = Js.Throws er ->
                POST base64 rangeError nullBodyError fetch e (Js.Value b) = failure)
            /\ (forall text,
                  up_status res < 200 \/ 599 < up_status res ->
                  up_text res = Js.Value text ->
                  POST base64 rangeError nullBodyError fetch e (Js.Value b)
                  = {| status := 500;
                       body := JObj [("error",
                                      JStr (Js.or_else (Js.message rangeError)
                                                       "Internal error"))] |})
            /\ (forall text,
                  up_status res = 304 ->
                  up_text res = Js.Value text ->
                  POST base64 rangeError nullBodyError fetch e (Js.Value b)
                  = {| status := 500;
                       body := JObj [("error",
                                      JStr (Js.or_else (Js.message nullBodyError)
                                                       "Internal error"))] |}))).
Proof.
  cbv zeta. split; [reflexivity|].
  intros Htx Hne Hb Hbne. unfold POST, handle. rewrite Htx.
  destruct txHash as [|c r]; [contradiction|]. rewrite Hb.
  destruct base as [|c' r']; [contradiction|].
  split.
  - intros ->. reflexivity.
  - intros res ->. split; [|split; [|split]].
    + intros -> ->. reflexivity.
    + intros -> ->. reflexivity.
    + intros text Hout ->.
      assert (Hok : ok res = false).
      { unfold ok. destruct (Z.leb_spec 200 (up_status res)); [|reflexivity].
        destruct (Z.leb_spec (up_status res) 299); [lia|reflexivity]. }
      rewrite Hok. cbn [negb].
      assert (R : forall data,
                 Response_json rangeError nullBodyError data (up_status res)
                 = Js.Throws rangeError).
      { intros data. unfold Response_json.
        destruct (Z.leb_spec 200 (up_status res)); [|reflexivity].
        destruct (Z.leb_spec (up_status res) 599); [lia|reflexivity]. }
      destruct (up_status res =? 404);
        [|destruct ((up_status res =? 401) || (up_status res =? 403))];
        rewrite R; reflexivity.
    + intros text H304 ->. unfold ok. rewrite H304. reflexivity.
Qed.

(** X21. The proxy consults the upstream at one request only: two
    upstreams that answer the lookup request for this transaction alike
    get the same answer from the proxy, and when the request has no
    usable [txHash] or no base is configured the answer does not depend
    on the upstream at all. The lookup request carries an
    [Authorization] header exactly when both credentials are set. *)
Theorem proxy_consults_one_url (fetch1 fetch2 : FetchRequest -> Js.attempt Upstream)
    (reqBody : Js.attempt json) :
  ((forall b txHash base,
      reqBody = Js.Value b -> get "txHash" b = Some (JStr txHash) ->
      resolveBase e = Some base ->
      fetch1 (upstreamRequest base64 e base txHash)
      = fetch2 (upstreamRequest base64 e base txHash)) ->
   POST base64 rangeError nullBodyError fetch1 e reqBody = POST base64 rangeError nullBodyError fetch2 e reqBody)
  /\ ((forall b, reqBody = Js.Value b ->
         (forall c r, get "txHash" b <> Some (JStr (String c r)))
         \/ Js.truthy (resolveBase e) = false) ->
      POST base64 rangeError nullBodyError fetch1 e reqBody = POST base64 rangeError nullBodyError fetch2 e reqBody)
  /\ (forall base txHash,
        (exists h, authorization (upstreamRequest base64 e base txHash) = Some h)
        <-> Js.truthy (e !! "STATUS_API_USERNAME") = true
            /\ Js.truthy (e !! "STATUS_API_PASSWORD") = true).
Proof.
  split; [|split].
  - intros H. unfold POST, handle. destruct reqBody as [b|er]; [|reflexivity].
    destruct (get "txHash" b) as [[| | |[|c r]| |]|] eqn:Etx; try reflexivity.
    destruct (resolveBase e) as [[|c' r']|] eqn:Eb; try reflexivity.
    rewrite (H b (String c r) (String c' r') eq_refl Etx eq_refl). reflexivity.
  - intros H. unfold POST, handle. destruct reqBody as [b|er]; [|reflexivity].
    destruct (get "txHash" b) as [[| | |[|c r]| |]|] eqn:Etx; try reflexivity.
    destruct (H b eq_refl) as [Hn|Hn].
    + exfalso. exact (Hn c r Etx).
    + destruct (resolveBase e) as [[|c' r']|]; try reflexivity. discriminate Hn.
  - intros base txHash. unfold upstreamRequest. cbn [authorization].
    destruct (e !! "STATUS_API_USERNAME") as [[|c r]|],
      (e !! "STATUS_API_PASSWORD") as [[|c' r']|]; cbn;
      (split; [intros [h Hh]; first [discriminate Hh | split; reflexivity]
              | intros [H1 H2]; first [discriminate H1 | discriminate H2 | eauto]]).
Qed.

End ProxyFacts.

Section DiagnosticsFacts.

Import EnvCheck.

Variable Number_ : string -> option Z.
Variable parseNetworksJson : string -> option Config.NetworksConfig.

(** X22. The diagnostics answer is always [ok] and its [basePresent]
    flag holds exactly when the proxy resolves a base. When at least one
    network is complete in the per-variable environment, the answer
    carries no error and lists exactly the configured network keys, in
    their order, each with its RPC, endpoint and token address present.
    When none is and [NEXT_PUBLIC_NETWORKS_CONFIG] is unset or empty, it
    carries no networks and the error "No network configuration found in
    environment variables". *)
Theorem diagnostics_shape (e : Config.env) :
  let resp := GET Number_ parseNetworksJson e in
  ok resp = true
  /\ basePresent (aggregator resp) = Js.truthy (AggProxy.resolveBase e)
  /\ (Config.buildHii Number_ e <> None \/ Config.buildSepolia Number_ e <> None ->
      networksError resp = None
      /\ exists nets,
           networks resp = Some nets
           /\ Tokens.getNetworkKeys Number_ parseNetworksJson e
              = Js.Value (map fst nets)
           /\ forall k p, In (k, p) nets ->
                rpcHttpPresent p = true /\ endpointV2Present p = true
                /\ oftPresent p = true)
  /\ (Config.buildHii Number_ e = None -> Config.buildSepolia Number_ e = None ->
      Js.truthy (e !! "NEXT_PUBLIC_NETWORKS_CONFIG") = false ->
      networks resp = None
      /\ networksError resp
         = Some "No network configuration found in environment variables").
Proof.
  cbv zeta. unfold GET, Tokens.getNetworkKeys.
  split; [destruct (Config.getNetworksConfig _ _ _); reflexivity|].
  split; [|split].
  - destruct (Config.getNetworksConfig _ _ _); cbn;
      unfold AggProxy.resolveBase, Js.or_opt, present;
      destruct (e !! "STATUS_API_BASE") as [[|? ?]|]; reflexivity.
  - intros Hsome.
    assert (C : forall prefix c, Config.buildFrom Number_ prefix e = Some c ->
                Send.nonempty (Config.rpcHttp c) = true
                /\ Send.nonempty (Config.endpointV2 c) = true
                /\ Send.nonempty (Config.oft c) = true).
    { intros prefix c H. unfold Config.buildFrom in H. cbv zeta in H.
      destruct (negb (Js.truthy (e !! (prefix +:+ "NAME")))); [discriminate H|].
      destruct (negb (Config.num_truthy _)); [discriminate H|].
      destruct (e !! (prefix +:+ "RPC_HTTP")) as [[|? ?]|]; try discriminate H.
      cbn [Js.truthy negb orb] in H.
      destruct (negb (Config.num_truthy _)); [discriminate H|].
      destruct (e !! (prefix +:+ "ENDPOINT_V2")) as [[|? ?]|]; try discriminate H.
      cbn [Js.truthy negb orb] in H.
      destruct (negb (Js.truthy (e !! (prefix +:+ "DVN")))); [discriminate H|].
      destruct (negb (Js.truthy (e !! (prefix +:+ "EXECUTOR")))); [discriminate H|].
      destruct (negb (Js.truthy (e !! (prefix +:+ "LZ_EXECUTOR")))); [discriminate H|].
      destruct (e !! (prefix +:+ "OFT")) as [[|? ?]|]; try discriminate H.
      cbn [Js.truthy negb orb] in H.
      destruct (_ || _); [discriminate H|].
      repeat match type of H with
             | match ?x with _ => _ end = _ => destruct x; try discriminate H
             end.
      injection H as <-. repeat split. }
    unfold Config.getNetworksConfig, Config.buildHii, Config.buildSepolia in *.
    destruct (Config.buildFrom Number_ "NEXT_PUBLIC_HII_" e) as [h|] eqn:Eh,
      (Config.buildFrom Number_ "NEXT_PUBLIC_SEPOLIA_" e) as [s|] eqn:Es; cbn.
    + split; [reflexivity|]. eexists. split; [reflexivity|].
      split; [reflexivity|].
      intros k p [[= <- <-]|[[= <- <-]|[]]]; cbn; eauto.
    + split; [reflexivity|]. eexists. split; [reflexivity|].
      split; [reflexivity|].
      intros k p [[= <- <-]|[]]; cbn; eauto.
    + split; [reflexivity|]. eexists. split; [reflexivity|].
      split; [reflexivity|].
      intros k p [[= <- <-]|[]]; cbn; eauto.
    + destruct Hsome as [N|N]; contradiction.
  - intros Hh Hs Hj. unfold Config.getNetworksConfig. rewrite Hh, Hs. cbn.
    rewrite Hj. split; reflexivity.
Qed.

End DiagnosticsFacts.

(** ** The send flow as a whole *)

Section FlowFacts.

Import Contracts Send Flow.

Variable Number_ : string -> option Z.
Variable parseNetworksJson : string -> option Config.NetworksConfig.
Variable parseUnits : string -> Z -> Js.attempt Z.
Variable buildLzReceiveOptions : Z -> Z -> string.
Variable encodeSend : SendParam -> Fee -> string -> string.
Variable decodeOftError : Js.Err -> option string.
Variable e : Config.env.
Variable w : World.
Variable pg : Page.

Lemma steady_app (a b : list Event) :
  steady (a ++ b) = steady a && steady b.
Proof. apply forallb_app. Qed.

Lemma plain_lift {A} (r : Js.attempt A) : plain (lift r).
Proof. destruct r; split; first [reflexivity | discriminate]. Qed.

Lemma plain_call {A} (ev : Event) (r : Js.attempt A) :
  closing ev = false -> plain (call ev r).
Proof.
  intros H. unfold call, emit, lift, plain.
  destruct r; cbn; rewrite H; split; first [reflexivity | discriminate].
Qed.

Lemma plain_switchNetwork :
  plain (switchNetwork Number_ parseNetworksJson e w pg).
Proof.
  unfold switchNetwork, getNetworkConfig.
  destruct (negb _); [split; [reflexivity | discriminate]|].
  destruct (Config.getNetworkConfig _ _ _ _); [|split; [reflexivity | discriminate]].
  destruct (w_switch w) as [|[]|]; split; first [reflexivity | discriminate].
Qed.

Lemma plain_resolveDecimals : plain (resolveDecimals w pg).
Proof.
  unfold resolveDecimals, call, emit, lift.
  destruct (w_token w) as [u|er]; cbn.
  - destruct (usingNativeAdapter pg); cbn.
    + split; [reflexivity | discriminate].
    + destruct (w_decimals w u) as [d|er]; cbn; split;
        first [reflexivity | discriminate].
  - split; [reflexivity | discriminate].
Qed.

Lemma plain_resolveOptions (dstEid : Z) :
  plain (resolveOptions buildLzReceiveOptions w dstEid).
Proof.
  unfold resolveOptions, call, emit, lift.
  destruct (w_SEND w) as [mt|er]; cbn; [|split; [reflexivity | discriminate]].
  destruct (w_enforcedOptions w dstEid mt) as [en|er]; cbn;
    [|split; [reflexivity | discriminate]].
  destruct (w_combineOptions w dstEid mt (buildLzReceiveOptions 200000 0));
    cbn; split; first [reflexivity | discriminate].
Qed.

Lemma plain_submit (r : string) (d : Z) (sp : SendParam) (fee : Fee) :
  plain (submit parseUnits encodeSend w pg r d sp fee)
  /\ forall tx, result (submit parseUnits encodeSend w pg r d sp fee) = Val tx ->
                delivered w tx.
Proof.
  unfold submit, call, emit, lift, throw, plain, delivered.
  destruct (parseUnits r d) as [amt|er]; cbn.
  2: { repeat split; discriminate. }
  destruct (w_getAddress w) as [refund|er]; cbn.
  - destruct (w_send w sp _ refund _) as [tx|sendErr] eqn:Es; cbn.
    + repeat split; try discriminate. intros tx' [= <-]. left. eauto.
    + destruct (isTrieMissing sendErr); cbn.
      * destruct (w_sendTransaction w _) as [tx|er] eqn:Er; cbn;
          repeat split; try discriminate.
        intros tx' [= <-]. right. eexists. repeat split; [..|exact Er]; reflexivity.
      * repeat split; discriminate.
  - destruct (isTrieMissing er); cbn; repeat split; discriminate.
Qed.

(** Prefixing a shaped computation with a plain step. *)
Lemma Shape_bind {A B} (m : M A) (k : A -> M B) :
  plain m ->
  (forall a, result m = Val a -> Shape parseUnits w pg (k a)) ->
  Shape parseUnits w pg (m ≫= k).
Proof.
  intros [Hs Hr] Hk. unfold Shape.
  rewrite trace_bind, result_bind.
  destruct (result m) as [a| |er] eqn:E.
  - destruct (Hk a eq_refl) as (pre & tail & Ht & Hp & Hres).
    exists (trace m ++ pre)%list, tail. rewrite Ht, app_assoc.
    split; [reflexivity|]. split; [|exact Hres].
    rewrite steady_app, Hs, Hp. reflexivity.
  - contradiction.
  - exists (trace m), []. split; [reflexivity|]. split; [exact Hs | reflexivity].
Qed.

Lemma Shape_emit {B} (ev : Event) (k : unit -> M B) :
  closing ev = false ->
  Shape parseUnits w pg (k tt) ->
  Shape parseUnits w pg (emit ev ≫= k).
Proof.
  intros H Hk. apply Shape_bind.
  - split; [cbn; rewrite H; reflexivity | discriminate].
  - intros [] _. exact Hk.
Qed.

Lemma sendBody_Shape :
  Shape parseUnits w pg
    (sendBody Number_ parseNetworksJson parseUnits buildLzReceiveOptions
       encodeSend e w pg).
Proof.
  unfold sendBody.
  apply Shape_emit; [reflexivity|].
  apply Shape_emit; [reflexivity|].
  apply Shape_emit; [reflexivity|].
  apply Shape_bind; [apply plain_lift|]. intros config _.
  apply Shape_bind.
  { destruct (match currentChainId pg with Some _ => _ | None => _ end).
    - apply plain_switchNetwork.
    - split; [reflexivity | discriminate]. }
  intros _ _.
  apply Shape_bind; [apply plain_call; reflexivity|]. intros _ _.
  destruct (nonempty (resolvedAmountOf pg)) eqn:Hres; cbn [negb].
  2: { exists [], [ SetError "Balance not loaded; connect wallet and choose token";
                    SetStatus "Error"; SetIsSending false ].
       split; [reflexivity|]. split; [reflexivity|]. cbn. left.
       split; [exact Hres | reflexivity]. }
  destruct (Config.tokenAddress _ _ _) as [[|c a]|] eqn:Haddr.
  1, 3: exists [], [ SetError "Selected token is not supported on source network";
                     SetIsSending false ];
        (split; [reflexivity|]); (split; [reflexivity|]); cbn;
        right; left; rewrite Haddr; repeat split; first [exact Hres | reflexivity].
  apply Shape_bind; [apply plain_resolveDecimals|]. intros decimals Hdec.
  rewrite <- (decimalsOf_spec _ _ _ Hdec).
  unfold Shape at 1. rewrite trace_bind, result_bind.
  destruct (result (validateAmount parseUnits pg (resolvedAmountOf pg) (decimalsOf w pg)))
    as [u| |er] eqn:Hval.
  3: { exfalso. revert Hval. unfold validateAmount.
       destruct (parseUnits _ _) as [amt|er']; cbn; [|discriminate].
       destruct (match balanceWei pg with Some b => amt >? b | None => false end);
         [discriminate|].
       destruct (amt <=? 0); discriminate. }
  2: { exists [], (trace (validateAmount parseUnits pg (resolvedAmountOf pg)
                            (decimalsOf w pg))).
       rewrite app_nil_r. split; [reflexivity|]. split; [reflexivity|].
       right; right. rewrite Haddr.
       repeat split; first [exact Hres | exact Hval | reflexivity]. }
  assert (Hq : trace (validateAmount parseUnits pg (resolvedAmountOf pg)
                        (decimalsOf w pg)) = []).
  { revert Hval. unfold validateAmount.
    destruct (parseUnits _ _) as [amt|er']; cbn; [|discriminate].
    destruct (match balanceWei pg with Some b => amt >? b | None => false end);
      [discriminate|].
    destruct (amt <=? 0); [discriminate | reflexivity]. }
  rewrite Hq. cbn [app].
  change (Shape parseUnits w pg
    (dstConfig ← lift (getNetworkConfig Number_ parseNetworksJson e (destNetwork pg));
     opts ← resolveOptions buildLzReceiveOptions w (Config.eid dstConfig);
     let extra := Js.or_else (Some (snd opts)) (fst opts) in
     sendParam ← lift (buildSendParam Number_ parseNetworksJson parseUnits e
                         (sourceNetwork pg) (destNetwork pg) (resolvedAmountOf pg)
                         (receiverAddress pg) (Some (decimalsOf w pg)) (Some extra));
     fee ← call (CallQuoteSend sendParam) (w_quoteSend w sendParam);
     tx ← submit parseUnits encodeSend w pg (resolvedAmountOf pg) (decimalsOf w pg)
            sendParam fee;
     emit (SetTxHash (hash tx));;
     emit (SetStatus "Transaction sent");;
     emit ClearWorkerStatus;;
     emit (SaveToHistory
             {| h_sourceNetwork := sourceNetwork pg;
                h_destNetwork := destNetwork pg;
                h_amount := amount pg;
                h_receiver := receiverAddress pg;
                h_txHash := hash tx;
                h_status := "Success" |}))).
  apply Shape_bind; [apply plain_lift|]. intros dstConfig _.
  apply Shape_bind; [apply plain_resolveOptions|]. intros opts _. cbv zeta.
  apply Shape_bind; [apply plain_lift|]. intros sendParam _.
  apply Shape_bind; [apply plain_call; reflexivity|]. intros fee _.
  apply Shape_bind; [apply plain_submit|]. intros tx Htx.
  exists [], (published pg tx). split; [reflexivity|]. split; [reflexivity|].
  cbn. exists tx. split; [|reflexivity]. eapply plain_submit. exact Htx.
Qed.

Lemma steady_in (t : list Event) (ev : Event) :
  steady t = true -> In ev t -> closing ev = false.
Proof.
  unfold steady. rewrite forallb_forall. intros H Hin.
  apply H in Hin. now destruct (closing ev).
Qed.

Lemma validateAmount_ret (r : string) (d : Z) :
  result (validateAmount parseUnits pg r d) = Ret ->
  exists m, In m ["Amount exceeds balance"; "Amount must be greater than zero";
                  "Invalid amount format"]
            /\ trace (validateAmount parseUnits pg r d)
               = [SetError m; SetStatus "Error"].
Proof.
  unfold validateAmount.
  destruct (parseUnits r d) as [amt|er]; cbn.
  - destruct (match balanceWei pg with Some b => amt >? b | None => false end); cbn.
    + intros _. eexists. split; [|reflexivity]. cbn. auto.
    + destruct (amt <=? 0); cbn; [|discriminate].
      intros _. eexists. split; [|reflexivity]. cbn. auto.
  - intros _. eexists. split; [|reflexivity]. cbn. auto.
Qed.

Lemma sendCrossChain_guarded :
  guardsPass pg = true ->
  sendCrossChain Number_ parseNetworksJson parseUnits buildLzReceiveOptions
    encodeSend decodeOftError e w pg
  = try_catch
      (sendBody Number_ parseNetworksJson parseUnits buildLzReceiveOptions
         encodeSend e w pg)
      (fun error =>
         emit (SetError (failureText decodeOftError error));;
         emit (SetStatus "Error");;
         emit (SetIsSending false)).
Proof.
  unfold guardsPass, sendCrossChain. intros H.
  destruct (nonempty (sourceNetwork pg)); [|discriminate H].
  destruct (nonempty (destNetwork pg)); [|discriminate H].
  destruct (nonempty (amount pg)); [|discriminate H].
  destruct (nonempty (receiverAddress pg)); [|discriminate H].
  destruct (nonempty (account pg)); [|discriminate H].
  destruct (nonempty (tokenId pg)); [|discriminate H].
  destruct (isPairSupported pg); [|discriminate H].
  destruct (hasEthereum pg); [|discriminate H].
  reflexivity.
Qed.

Lemma sendCrossChain_blocked :
  guardsPass pg = false ->
  sendCrossChain Number_ parseNetworksJson parseUnits buildLzReceiveOptions
    encodeSend decodeOftError e w pg
  = ([SetError (guardMessage pg)], Ret).
Proof.
  unfold guardsPass, sendCrossChain, guardMessage. intros H.
  destruct (nonempty (sourceNetwork pg)); [|reflexivity].
  destruct (nonempty (destNetwork pg)); [|reflexivity].
  destruct (nonempty (amount pg)); [|reflexivity].
  destruct (nonempty (receiverAddress pg)); [|reflexivity].
  destruct (nonempty (account pg)); [|reflexivity].
  destruct (nonempty (tokenId pg)); [|reflexivity].
  destruct (isPairSupported pg); [|reflexivity].
  destruct (hasEthereum pg); [discriminate H | reflexivity].
Qed.

Lemma failureText_nonempty (er : Js.Err) :
  failureText decodeOftError er <> EmptyString.
Proof.
  unfold failureText.
  assert (N : forall a b, a <> EmptyString -> a +:+ b <> EmptyString).
  { intros [|c a] b Ha; [contradiction | discriminate]. }
  apply N.
  destruct (decodeOftError er) as [[|c r]|]; try discriminate;
    destruct (Js.message er) as [[|c' r']|]; discriminate.
Qed.

(** X23. Nothing happens before the five guards pass: when one fails the
    whole run is a single error message -- that of the first failing
    guard, never empty -- and an early return, whatever the wallet and
    the chain would answer; when all pass the run starts by raising the
    sending flag, showing "Sending..." and clearing the error. *)
Theorem send_guards_stop_the_flow :
  (guardsPass pg = false ->
   guardMessage pg <> EmptyString
   /\ forall w',
        sendCrossChain Number_ parseNetworksJson parseUnits buildLzReceiveOptions
          encodeSend decodeOftError e w' pg
        = ([SetError (guardMessage pg)], Ret))
  /\ (guardsPass pg = true ->
      exists rest,
        trace (sendCrossChain Number_ parseNetworksJson parseUnits buildLzReceiveOptions
                 encodeSend decodeOftError e w pg)
        = SetIsSending true :: SetStatus "Sending..." :: SetError EmptyString :: rest).
Proof.
  split.
  - intros H. split.
    + unfold guardMessage.
      repeat match goal with |- context [if ?c then _ else _] => destruct c end;
        discriminate.
    + intros w'. clear w. revert H. unfold guardsPass, sendCrossChain, guardMessage.
      destruct (nonempty (sourceNetwork pg)); [|reflexivity].
      destruct (nonempty (destNetwork pg)); [|reflexivity].
      destruct (nonempty (amount pg)); [|reflexivity].
      destruct (nonempty (receiverAddress pg)); [|reflexivity].
      destruct (nonempty (account pg)); [|reflexivity].
      destruct (nonempty (tokenId pg)); [|reflexivity].
      destruct (isPairSupported pg); [|reflexivity].
      destruct (hasEthereum pg); [discriminate | reflexivity].
  - intros H. rewrite (sendCrossChain_guarded H), trace_try_catch.
    unfold sendBody. rewrite !trace_bind. cbn. eexists. reflexivity.
Qed.

(** X24. A transaction hash is published only for a transaction that was
    handed over: when the body of the flow completes, the run ends with
    the four updates for a transaction that the contract call or the raw
    legacy fallback returned -- its hash, "Transaction sent", the worker
    status reset and the history entry with the amount as typed -- with
    the sending flag still raised; and in any run, an event that
    publishes a transaction occurs only if the body completed. *)
Theorem send_publishes_delivered_transaction :
  (guardsPass pg = true ->
   forall u,
     result (sendBody Number_ parseNetworksJson parseUnits buildLzReceiveOptions
               encodeSend e w pg) = Val u ->
     exists pre tx,
       delivered w tx
       /\ trace (sendCrossChain Number_ parseNetworksJson parseUnits buildLzReceiveOptions
                   encodeSend decodeOftError e w pg)
          = (pre ++ published pg tx)%list
       /\ steady pre = true)
  /\ (forall ev,
        In ev (trace (sendCrossChain Number_ parseNetworksJson parseUnits
                        buildLzReceiveOptions encodeSend decodeOftError e w pg)) ->
        closing ev = true ->
        ev = SetIsSending false
        \/ exists u,
             result (sendBody Number_ parseNetworksJson parseUnits buildLzReceiveOptions
                       encodeSend e w pg) = Val u).
Proof.
  pose proof sendBody_Shape as (pre & tail & Ht & Hp & Hres).
  split.
  - intros Hg u Hu. rewrite (sendCrossChain_guarded Hg), trace_try_catch.
    rewrite Hu in *. destruct Hres as (tx & Hd & ->).
    exists pre, tx. rewrite Ht, app_nil_r. auto.
  - intros ev Hin Hc.
    destruct (guardsPass pg) eqn:Hg.
    2: { rewrite (sendCrossChain_blocked Hg) in Hin. cbn in Hin.
         destruct Hin as [<-|[]]. discriminate Hc. }
    rewrite (sendCrossChain_guarded Hg), trace_try_catch, Ht in Hin.
    destruct (result (sendBody _ _ _ _ _ _ _ _)) as [u| |er]; [right; eauto|..].
    + rewrite app_nil_r in Hin. apply in_app_or in Hin. destruct Hin as [Hin|Hin].
      { rewrite (steady_in _ _ Hp Hin) in Hc. discriminate Hc. }
      destruct Hres as [(_ & ->)|[(_ & _ & ->)|(_ & _ & Hv & ->)]].
      * cbn in Hin. destruct Hin as [<-|[<-|[<-|[]]]];
          first [discriminate Hc | left; reflexivity].
      * cbn in Hin. destruct Hin as [<-|[<-|[]]];
          first [discriminate Hc | left; reflexivity].
      * destruct (validateAmount_ret _ _ Hv) as (m & _ & Hm). rewrite Hm in Hin.
        cbn in Hin. destruct Hin as [<-|[<-|[]]]; discriminate Hc.
    + subst tail. rewrite app_nil_r in Hin. apply in_app_or in Hin.
      destruct Hin as [Hin|Hin].
      { rewrite (steady_in _ _ Hp Hin) in Hc. discriminate Hc. }
      cbn in Hin. destruct Hin as [<-|[<-|[<-|[]]]];
        first [discriminate Hc | left; reflexivity].
Qed.

(** X25. A failure thrown anywhere in the body is caught and reported:
    the run continues with the error text, the status "Error" and the
    sending flag cleared, as its last three events; the text is never
    empty; nothing was published before; and the run itself does not
    throw. *)
Theorem send_failure_is_reported (er : Js.Err) :
  guardsPass pg = true ->
  result (sendBody Number_ parseNetworksJson parseUnits buildLzReceiveOptions
            encodeSend e w pg) = Thr er ->
  exists pre,
    sendCrossChain Number_ parseNetworksJson parseUnits buildLzReceiveOptions
      encodeSend decodeOftError e w pg
    = ((pre ++ [SetError (failureText decodeOftError er); SetStatus "Error";
                SetIsSending false])%list, Val tt)
    /\ steady pre = true
    /\ failureText decodeOftError er <> EmptyString.
Proof.
  intros Hg Hr.
  pose proof sendBody_Shape as (pre & tail & Ht & Hp & Hres).
  rewrite Hr in Hres. subst tail. rewrite app_nil_r in Ht.
  exists pre. split; [|split; [exact Hp | apply failureText_nonempty]].
  rewrite (sendCrossChain_guarded Hg).
  destruct (sendBody _ _ _ _ _ _ _ _) as [t o]. cbn in Ht, Hr. subst t o.
  reflexivity.
Qed.

(** X26. The three early returns inside the body, told apart by the
    sending flag: with no resolved amount (a 'max' before the balance is
    loaded) the run ends with the balance message, "Error" and the flag
    cleared; with a token that has no address on the source network it
    ends with the token message and the flag cleared, without setting
    the status; and when the amount is rejected it ends with one of the
    three amount messages and "Error", and the flag raised at the start
    is never cleared. *)
Theorem send_early_returns :
  guardsPass pg = true ->
  result (sendBody Number_ parseNetworksJson parseUnits buildLzReceiveOptions
            encodeSend e w pg) = Ret ->
  let run := sendCrossChain Number_ parseNetworksJson parseUnits buildLzReceiveOptions
               encodeSend decodeOftError e w pg in
  result run = Ret
  /\ exists pre tail,
       trace run = (pre ++ tail)%list /\ steady pre = true
       /\ ((nonempty (resolvedAmountOf pg) = false
            /\ tail = [ SetError "Balance not loaded; connect wallet and choose token";
                        SetStatus "Error"; SetIsSending false ])
           \/ (nonempty (resolvedAmountOf pg) = true
               /\ Js.truthy (Config.tokenAddress (tokens pg) (tokenId pg)
                               (sourceNetwork pg)) = false
               /\ tail = [ SetError "Selected token is not supported on source network";
                           SetIsSending false ])
           \/ (nonempty (resolvedAmountOf pg) = true
               /\ Js.truthy (Config.tokenAddress (tokens pg) (tokenId pg)
                               (sourceNetwork pg)) = true
               /\ (exists m,
                     In m ["Amount exceeds balance"; "Amount must be greater than zero";
                           "Invalid amount format"]
                     /\ tail = [SetError m; SetStatus "Error"])
               /\ In (SetIsSending true) (trace run)
               /\ ~ In (SetIsSending false) (trace run))).
Proof.
  intros Hg Hr run. subst run.
  pose proof sendBody_Shape as (pre & tail & Ht & Hp & Hres).
  rewrite Hr in Hres.
  rewrite (sendCrossChain_guarded Hg), result_try_catch, trace_try_catch, Hr, app_nil_r.
  split; [reflexivity|].
  exists pre, tail. split; [exact Ht|]. split; [exact Hp|].
  destruct Hres as [(H1 & ->)|[(H1 & H2 & ->)|(H1 & H2 & Hv & ->)]].
  - left. auto.
  - right; left. auto.
  - right; right. destruct (validateAmount_ret _ _ Hv) as (m & Hm & Htr).
    repeat split; try assumption.
    + exists m. auto.
    + unfold sendBody. rewrite trace_bind. cbn. left. reflexivity.
    + rewrite Ht. intros Hin. apply in_app_or in Hin. destruct Hin as [Hin|Hin].
      * pose proof (steady_in _ _ Hp Hin) as Hc. discriminate Hc.
      * rewrite Htr in Hin. cbn in Hin. destruct Hin as [Hin|[Hin|[]]]; discriminate Hin.
Qed.

End FlowFacts.

Section FlowSteps.

Import Contracts Send.

Variable buildLzReceiveOptions : Z -> Z -> string.
Variable w : World.
Variable pg : Page.

(** X27. Resolving the options never fails, and the local receive option
    is a fallback only for an empty combination: when the three contract
    reads succeed the extra options are the combined ones, or the local
    option (200000 gas, no value) if the combination is the empty
    string; when any of them fails the extra options are "0x", not the
    local option; and the combination is requested for the local option
    only. *)
Theorem options_fall_back_to_empty (dstEid : Z) :
  exists opts,
    result (resolveOptions buildLzReceiveOptions w dstEid) = Val opts
    /\ (forall mt en c,
          w_SEND w = Js.Value mt ->
          w_enforcedOptions w dstEid mt = Js.Value en ->
          w_combineOptions w dstEid mt (buildLzReceiveOptions 200000 0) = Js.Value c ->
          Js.or_else (Some (snd opts)) (fst opts)
          = Js.or_else (Some c) (buildLzReceiveOptions 200000 0))
    /\ ((forall mt en c,
           ~ (w_SEND w = Js.Value mt
              /\ w_enforcedOptions w dstEid mt = Js.Value en
              /\ w_combineOptions w dstEid mt (buildLzReceiveOptions 200000 0)
                 = Js.Value c)) ->
        Js.or_else (Some (snd opts)) (fst opts) = "0x")
    /\ (forall d mt loc,
          In (CallCombineOptions d mt loc)
             (trace (resolveOptions buildLzReceiveOptions w dstEid)) ->
          d = dstEid /\ w_SEND w = Js.Value mt
          /\ loc = buildLzReceiveOptions 200000 0).
Proof.
  unfold resolveOptions, call, emit, lift.
  destruct (w_SEND w) as [mt|er] eqn:Es; cbn.
  2: { eexists. split; [reflexivity|]. cbn. split; [discriminate|].
       split; [reflexivity|]. intros d mt loc [H|[]]. discriminate H. }
  destruct (w_enforcedOptions w dstEid mt) as [en|er] eqn:Ee; cbn.
  2: { eexists. split; [reflexivity|]. cbn. split.
       - intros mt' en' c [= <-]. rewrite Ee. discriminate.
       - split; [reflexivity|].
         intros d mt' loc [H|[H|[]]]; discriminate H. }
  destruct (w_combineOptions w dstEid mt (buildLzReceiveOptions 200000 0))
    as [c|er] eqn:Ec; cbn.
  - eexists. split; [reflexivity|]. cbn. split.
    + intros mt' en' c' [= <-] _. rewrite Ec. intros [= <-]. reflexivity.
    + split.
      * intros H. exfalso. apply (H mt en c). auto.
      * intros d mt' loc [H|[H|[H|[]]]]; try discriminate H.
        injection H as <- <- <-. auto.
  - eexists. split; [reflexivity|]. cbn. split.
    + intros mt' en' c' [= <-] _. rewrite Ec. discriminate.
    + split; [reflexivity|].
      intros d mt' loc [H|[H|[H|[]]]]; try discriminate H.
      injection H as <- <- <-. auto.
Qed.

(** X28. Reading the decimals never fails and never yields zero: the
    result is 18 for a native-asset adapter (without asking the
    underlying token), 18 when the token or its decimals cannot be read
    or the token reports zero, and the reported decimals otherwise. *)
Theorem decimals_default_to_18 :
  exists d,
    result (resolveDecimals w pg) = Val d
    /\ d <> 0
    /\ (usingNativeAdapter pg = true ->
        d = 18 /\ forall u, ~ In (CallDecimals u) (trace (resolveDecimals w pg)))
    /\ (forall er, w_token w = Js.Throws er -> d = 18)
    /\ (forall u, w_token w = Js.Value u -> usingNativeAdapter pg = false ->
          (forall er, w_decimals w u = Js.Throws er -> d = 18)
          /\ (forall v, w_decimals w u = Js.Value v -> d = if v =? 0 then 18 else v)).
Proof.
  unfold resolveDecimals, call, emit, lift.
  destruct (w_token w) as [u|er]; cbn.
  - destruct (usingNativeAdapter pg); cbn.
    + exists 18. split; [reflexivity|]. split; [discriminate|].
      split; [|split; discriminate].
      intros _. split; [reflexivity|]. intros u' [Hin|[]]. discriminate Hin.
    + destruct (w_decimals w u) as [v|er] eqn:Ed; cbn.
      * exists (if v =? 0 then 18 else v). split; [reflexivity|].
        split; [destruct (Z.eqb_spec v 0); [discriminate | assumption]|].
        split; [discriminate|]. split; [discriminate|].
        intros u' [= <-] _. rewrite Ed. split; [discriminate|].
        intros v' [= <-]. reflexivity.
      * exists 18. split; [reflexivity|]. split; [discriminate|].
        split; [discriminate|]. split; [discriminate|].
        intros u' [= <-] _. rewrite Ed. split; [reflexivity | discriminate].
  - exists 18. split; [reflexivity|]. split; [discriminate|].
    split; [|split; [reflexivity | discriminate]].
    intros _. split; [reflexivity|]. intros u' [Hin|[]]. discriminate Hin.
Qed.

End FlowSteps.

(** ** Instances of the further properties *)

(** A slot that reads EXECUTED keeps ending the loading state while the
    poll goes on. *)
Lemma executed_is_final_witness :
  Page.executedFromAgg
    (Status.aggStatus
       (Status.poll_from Samples.executedState
          [ (Status.NetworkError, Status.NotOk 500);
            (Status.Ok200 (Some (Status.aggWithStatus "sent")), Status.Ok200 None) ]))
  = true.
Proof.
  destruct (executed_is_final Status.NetworkError Status.NetworkError
              Samples.executedState
              [ (Status.NetworkError, Status.NotOk 500);
                (Status.Ok200 (Some (Status.aggWithStatus "sent")), Status.Ok200 None) ])
    as [H _].
  destruct H as [_ H]; [reflexivity | exact H].
Defined.


Lemma delivered_match_stops_loading_witness :
  Page.stopsLoading "0x5e"
    (Status.tick Status.NetworkError
       (Page.onchainFetched (Correlator.Success Samples.executedResult))
       Status.initial)
  = true.
Proof.
  apply (delivered_match_stops_loading Samples.executedResult Status.NetworkError
           Status.initial "0x5e"); [reflexivity | discriminate].
Defined.

(** A destination that reports success is shown as executing. *)
Lemma scanner_executed_requires_delivered_witness :
  Scanner.deriveWorkerStage Samples.successMsg = "executing"
  \/ Scanner.deriveWorkerStage Samples.successMsg = "dvn_verifying".
Proof.
  destruct (scanner_executed_requires_delivered Samples.successMsg) as [_ H].
  apply H; reflexivity.
Defined.


Lemma network_config_is_complete_witness :
  Config.oft Examples.hiiConfig <> EmptyString
  /\ Config.eid Examples.hiiConfig <> 0.
Proof.
  destruct (network_config_is_complete Examples.Number_ "NEXT_PUBLIC_HII_" Examples.env0)
    as [H _].
  destruct (H Examples.hiiConfig)
    as (_ & _ & _ & _ & _ & _ & [_ Hoft] & _ & _ & _ & _ & _ & [_ Heid] & _);
    [vm_compute; reflexivity | split; assumption].
Defined.

Lemma network_keys_match_lookup_witness :
  (exists c,
     Config.getNetworkConfig Examples.Number_ Examples.parseNetworksJson Examples.env0
       "hii" = Js.Value c)
  /\ Config.getNetworkConfig Examples.Number_ Examples.parseNetworksJson Examples.env0
       "goerli"
     = Js.Throws (Js.mkError "Network configuration for goerli not found").
Proof.
  split.
  - destruct (network_keys_match_lookup Examples.Number_ Examples.parseNetworksJson
                Examples.env0 "hii") as [H _].
    destruct (H ["hii"; "sepolia"]) as [Hin _]; [vm_compute; reflexivity|].
    apply Hin. left. reflexivity.
  - destruct (network_keys_match_lookup Examples.Number_ Examples.parseNetworksJson
                Examples.env0 "goerli") as [H _].
    destruct (H ["hii"; "sepolia"]) as [_ Hout]; [vm_compute; reflexivity|].
    destruct Hout as [_ Hthrow]; [reflexivity|].
    apply Hthrow. intros [E|[E|[]]]; discriminate E.
Defined.

Lemma per_variable_config_takes_precedence_witness :
  Config.getNetworksConfig Examples.Number_ Examples.parseNetworksJson Examples.env0
  = Config.getNetworksConfig Examples.Number_ (fun _ => Some []) Examples.env0.
Proof.
  destruct (per_variable_config_takes_precedence Examples.Number_
              Examples.parseNetworksJson (fun _ => Some []) Examples.env0) as [H _].
  destruct H as [_ H]; [left; vm_compute; discriminate | exact H].
Defined.

Lemma chain_id_lookup_is_sound_and_complete_witness :
  exists k c,
    Config.getNetworkConfig Examples.Number_ Examples.parseNetworksJson Examples.env0 k
    = Js.Value c
    /\ Config.chainId c = 22988 /\ Config.name c = "Hii".
Proof.
  destruct (chain_id_lookup_is_sound_and_complete Examples.Number_
              Examples.parseNetworksJson Examples.env0) as (_ & _ & _ & _ & H & _).
  destruct (H 22988 "Hii") as [_ Hex]; [vm_compute; reflexivity | exact Hex].
Defined.

Lemma supported_pairs_default_and_shape_witness :
  Tokens.getSupportedPairs Examples.env0 = [("hii", "sepolia")].
Proof.
  destruct (supported_pairs_default_and_shape Examples.env0
              (Examples.pageWith "default" "1")) as [H _].
  destruct H as [H _]; [vm_compute; reflexivity | exact H].
Defined.

Lemma builtin_tokens_shape_witness :
  List.NoDup (map Config.id Samples.builtin0).
Proof.
  destruct (builtin_tokens_shape Examples.Number_ Examples.parseNetworksJson
              Examples.env0 Samples.builtin0) as (_ & H & _);
    [vm_compute; reflexivity | exact H].
Defined.

Lemma history_keeps_last_five_witness :
  (length [Samples.entry "0x02"; Samples.entry "0x01"] <= 5)%nat
  /\ head [Samples.entry "0x02"; Samples.entry "0x01"] = Some (Samples.entry "0x02").
Proof.
  destruct (history_keeps_last_five (Samples.entry "0x01") [Samples.entry "0x02"] [])
    as (_ & H & _).
  apply (H [Samples.entry "0x02"; Samples.entry "0x01"]). reflexivity.
Defined.

(** The selector is recognised in capitals when the ABI cannot decode it. *)
Lemma decode_revert_payload_witness :
  Decode.decodeOftError Samples.parseError0 (Decode.CString "0x6592671C0000")
  = Some "InvalidOptions(bytes)".
Proof.
  destruct (decode_revert_payload Samples.parseError0 (Decode.CString "0x6592671C0000"))
    as (_ & H & _).
  destruct (H "0x6592671C0000") as (_ & _ & H3); [reflexivity | reflexivity |].
  apply H3. left. eexists. reflexivity.
Defined.

Lemma sender_padding_agrees_witness :
  String.length (Correlator.pad32 Examples.oftAddress) = 66%nat.
Proof.
  destruct (sender_padding_agrees Examples.oftAddress Examples.oftAddress)
    as (_ & _ & H).
  destruct H as [H _]; [vm_compute; lia | exact H].
Defined.

Lemma correlator_error_answers_witness :
  Correlator.POST Examples.Number_ Examples.parseNetworksJson Examples.ethers_id
    Examples.env0 Examples.tokens0 Samples.rpcDown
    (Js.Value (Some Samples.requestNoHash))
  = Correlator.Failure 400 "Missing txHash, sourceNetwork, destNetwork, or tokenId"
  /\ Correlator.POST Examples.Number_ Examples.parseNetworksJson Examples.ethers_id
       Examples.env0 Examples.tokens0 Samples.rpcDown
       (Js.Value (Some Samples.requestUnknown))
     = Correlator.Failure 500 "Network configuration for goerli not found".
Proof.
  split.
  - destruct (correlator_error_answers Examples.Number_ Examples.parseNetworksJson
                Examples.ethers_id Examples.env0 Examples.tokens0 Samples.rpcDown
                Samples.requestNoHash) as (_ & _ & H & _).
    apply H. reflexivity.
  - destruct (correlator_error_answers Examples.Number_ Examples.parseNetworksJson
                Examples.ethers_id Examples.env0 Examples.tokens0 Samples.rpcDown
                Samples.requestUnknown) as (_ & _ & _ & H).
    destruct H as [H _]; [reflexivity | reflexivity | reflexivity |].
    apply (H (Js.mkError "Network configuration for goerli not found")).
    vm_compute. reflexivity.
Defined.

(** With every node query but the height failing, the answer is inflight. *)
Lemma node_failures_degrade_to_inflight_witness :
  match Correlator.POST Examples.Number_ Examples.parseNetworksJson Examples.ethers_id
          Examples.env0 Examples.tokens0 Samples.rpcDown
          (Js.Value (Some {| Correlator.txHash := Some "0x5e";
                             Correlator.sourceNetwork := Some "hii";
                             Correlator.destNetwork := Some "sepolia";
                             Correlator.tokenId := Some "default";
                             Correlator.scanWindow := None;
                             Correlator.includeDvn := Some true |})) with
  | Correlator.Success r =>
      Correlator.stage r = "inflight" /\ Correlator.window_fromBlock r = 0
  | Correlator.Failure _ _ => False
  end.
Proof.
  rewrite (node_failures_degrade_to_inflight Examples.Number_ Examples.parseNetworksJson
             Examples.ethers_id Examples.env0 Examples.tokens0 Samples.rpcDown
             "0x5e" "hii" "sepolia" "default" None (Some true)
             Examples.hiiConfig Examples.sepoliaConfig 1000
             (Js.mkError "request timeout")).
  - split; reflexivity.
  - discriminate.
  - discriminate.
  - discriminate.
  - discriminate.
  - vm_compute; reflexivity.
  - vm_compute; reflexivity.
  - vm_compute; reflexivity.
  - reflexivity.
  - reflexivity.
  - intros f. eexists. reflexivity.
Defined.

Lemma proxy_failures_answer_500_witness :
  AggProxy.POST Examples.base64 Samples.rangeError Samples.nullBodyError Samples.fetchDown (Examples.envAgg "alice" "hunter2")
    (Js.Value Samples.scanRequest)
  = {| Http.status := 500; Http.body := Http.JObj [("error", Http.JStr "fetch failed")] |}.
Proof.
  destruct (proxy_failures_answer_500 Examples.base64 Samples.rangeError
              Samples.nullBodyError (Examples.envAgg "alice" "hunter2")
              Samples.fetchDown Samples.scanRequest "0x5e" "https://agg.example/v1"
              (Js.mkError "fetch failed")) as [_ H].
  destruct H as [H _];
    [reflexivity | discriminate | vm_compute; reflexivity | discriminate |].
  apply H. reflexivity.
Defined.

(** Without a transaction hash the upstream plays no part. *)
Lemma proxy_consults_one_url_witness :
  AggProxy.POST Examples.base64 Samples.rangeError Samples.nullBodyError Samples.fetchDown (Examples.envAgg "alice" "hunter2")
    (Js.Value (Http.JObj []))
  = AggProxy.POST Examples.base64 Samples.rangeError Samples.nullBodyError Samples.fetchUp (Examples.envAgg "alice" "hunter2")
      (Js.Value (Http.JObj [])).
Proof.
  destruct (proxy_consults_one_url Examples.base64 Samples.rangeError
              Samples.nullBodyError (Examples.envAgg "alice" "hunter2")
              Samples.fetchDown Samples.fetchUp (Js.Value (Http.JObj [])))
    as (_ & H & _).
  apply H. intros b Hb. injection Hb as <-. left. intros c r. discriminate.
Defined.

Lemma diagnostics_shape_witness :
  EnvCheck.networksError
    (EnvCheck.GET Examples.Number_ Examples.parseNetworksJson Examples.env0) = None.
Proof.
  destruct (diagnostics_shape Examples.Number_ Examples.parseNetworksJson Examples.env0)
    as (_ & _ & H & _).
  destruct H as [Hn _]; [left; vm_compute; discriminate | exact Hn].
Defined.

(** Without a chosen token the run is one message, in any world. *)
Lemma send_guards_stop_the_flow_witness :
  Send.sendCrossChain Examples.Number_ Examples.parseNetworksJson Examples.parseUnits
    Examples.buildLzReceiveOptions Examples.encodeSend Examples.decodeOftError
    Examples.env0 Examples.worldTrie (Examples.pageWith EmptyString "1")
  = ([Send.SetError "Please choose a token"], Send.Ret).
Proof.
  destruct (send_guards_stop_the_flow Examples.Number_ Examples.parseNetworksJson
              Examples.parseUnits Examples.buildLzReceiveOptions Examples.encodeSend
              Examples.decodeOftError Examples.env0 Examples.world0
              (Examples.pageWith EmptyString "1")) as [H _].
  destruct H as [_ H]; [reflexivity|]. apply (H Examples.worldTrie).
Defined.

Lemma send_publishes_delivered_transaction_witness :
  exists pre tx,
    Flow.delivered Examples.world0 tx
    /\ Send.trace
         (Send.sendCrossChain Examples.Number_ Examples.parseNetworksJson
            Examples.parseUnits Examples.buildLzReceiveOptions Examples.encodeSend
            Examples.decodeOftError Examples.env0 Examples.world0
            (Examples.pageWith "default" "12.5"))
       = (pre ++ Flow.published (Examples.pageWith "default" "12.5") tx)%list
    /\ Flow.steady pre = true.
Proof.
  destruct (send_publishes_delivered_transaction Examples.Number_
              Examples.parseNetworksJson Examples.parseUnits
              Examples.buildLzReceiveOptions Examples.encodeSend Examples.decodeOftError
              Examples.env0 Examples.world0 (Examples.pageWith "default" "12.5"))
    as [H _].
  apply (H eq_refl tt). vm_compute. reflexivity.
Defined.

Lemma send_failure_is_reported_witness :
  exists pre,
    Send.sendCrossChain Examples.Number_ Examples.parseNetworksJson Examples.parseUnits
      Examples.buildLzReceiveOptions Examples.encodeSend Examples.decodeOftError
      Examples.env0 Samples.worldQuoteFails (Examples.pageWith "default" "12.5")
    = ((pre ++ [Send.SetError "execution reverted"; Send.SetStatus "Error";
                Send.SetIsSending false])%list, Send.Val tt)
    /\ Flow.steady pre = true.
Proof.
  destruct (send_failure_is_reported Examples.Number_ Examples.parseNetworksJson
              Examples.parseUnits Examples.buildLzReceiveOptions Examples.encodeSend
              Examples.decodeOftError Examples.env0 Samples.worldQuoteFails
              (Examples.pageWith "default" "12.5") (Js.mkError "execution reverted"))
    as (pre & H1 & H2 & _); [reflexivity | vm_compute; reflexivity |].
  exists pre. split; [exact H1 | exact H2].
Defined.

(** An amount above the balance leaves the sending flag raised. *)
Lemma send_early_returns_witness :
  Send.result
    (Send.sendCrossChain Examples.Number_ Examples.parseNetworksJson Examples.parseUnits
       Examples.buildLzReceiveOptions Examples.encodeSend Examples.decodeOftError
       Examples.env0 Examples.world0 (Examples.pageWith "default" "100"))
  = Send.Ret.
Proof.
  destruct (send_early_returns Examples.Number_ Examples.parseNetworksJson
              Examples.parseUnits Examples.buildLzReceiveOptions Examples.encodeSend
              Examples.decodeOftError Examples.env0 Examples.world0
              (Examples.pageWith "default" "100")) as [H _];
    [reflexivity | vm_compute; reflexivity | exact H].
Defined.

Lemma options_fall_back_to_empty_witness :
  exists opts,
    Send.result (Send.resolveOptions Examples.buildLzReceiveOptions Examples.world0 40161)
    = Send.Val opts
    /\ Js.or_else (Some (snd opts)) (fst opts) = Examples.buildLzReceiveOptions 200000 0.
Proof.
  destruct (options_fall_back_to_empty Examples.buildLzReceiveOptions Examples.world0 40161)
    as (opts & Hr & H & _).
  exists opts. split; [exact Hr|].
  apply (H 1 "0x" (Examples.buildLzReceiveOptions 200000 0)); reflexivity.
Defined.

Lemma decimals_default_to_18_witness :
  exists d,
    Send.result (Send.resolveDecimals Examples.world0 (Examples.pageWith "hnc_native" "1"))
    = Send.Val d
    /\ d = 18.
Proof.
  destruct (decimals_default_to_18 Examples.world0 (Examples.pageWith "hnc_native" "1"))
    as (d & Hr & _ & H & _).
  exists d. split; [exact Hr|]. apply H. reflexivity.
Defined.

(** ** The fee estimate *)

Section FeeFacts.

Import Contracts EstimateFee.

Variable Number_ : string -> option Z.
Variable parseNetworksJson : string -> option Config.NetworksConfig.
Variable parseTokensJson : string -> option (list Config.TokenConfig).
Variable parseUnits : string -> Z -> Js.attempt Z.
Variable buildLzReceiveOptions : Z -> Z -> string.
Variable formatEther : Z -> string.
Variable e : Config.env.

Lemma decimals_nonzero (w : Send.World) : decimals w <> 0.
Proof.
  unfold decimals. destruct (Send.w_token w) as [u|er]; [|discriminate].
  destruct (Send.w_decimals w u) as [d|er]; [|discriminate].
  destruct (Z.eqb_spec d 0); [discriminate | assumption].
Qed.

(** X29. The fee estimate answers a fee only for a quote the token
    contract gave: the quote is for the parameters built from the
    requested networks and amount, with the zero address as receiver,
    the underlying token's decimals (18 when they cannot be read, never
    zero) and the combined options ("0x" when they cannot be read), and
    the fee is the quoted native fee, formatted. Every other answer is
    400 or 500, and a 400 answer is given before the chain is consulted:
    it is the same whatever the contract would answer. *)
Theorem estimate_fee_answers (w : Send.World) (body : Js.attempt Request) :
  let resp :=
    POST Number_ parseNetworksJson parseTokensJson parseUnits buildLzReceiveOptions
      formatEther e w body in
  (forall s, resp = Fee s ->
     exists rq tokens dstConfig sp fee,
       body = Js.Value rq
       /\ Tokens.getTokensConfig Number_ parseNetworksJson parseTokensJson e
          = Js.Value tokens
       /\ Js.truthy (Config.tokenAddress tokens (Js.or_else (tokenId rq) EmptyString)
                       (Js.or_else (src rq) EmptyString)) = true
       /\ Config.getNetworkConfig Number_ parseNetworksJson e
            (Js.or_else (dst rq) EmptyString) = Js.Value dstConfig
       /\ buildSendParam Number_ parseNetworksJson parseUnits e
            (Js.or_else (src rq) EmptyString) (Js.or_else (dst rq) EmptyString)
            (Js.or_else (amount rq) EmptyString) zeroAddress (Some (decimals w))
            (Some (options buildLzReceiveOptions w (Config.eid dstConfig)))
          = Js.Value sp
       /\ Send.w_quoteSend w sp = Js.Value fee
       /\ s = formatEther (Send.nativeFee fee)
       /\ to sp = addressToBytes32 zeroAddress
       /\ parseUnits (Js.or_else (amount rq) EmptyString) (decimals w)
          = Js.Value (amountLD sp)
       /\ decimals w <> 0)
  /\ (forall code msg, resp = Failure code msg -> code = 400 \/ code = 500)
  /\ (forall msg, resp = Failure 400 msg ->
      forall w',
        POST Number_ parseNetworksJson parseTokensJson parseUnits buildLzReceiveOptions
          formatEther e w' body = Failure 400 msg).
Proof.
  cbv zeta. unfold POST, handle.
  destruct body as [rq|er].
  2: { split; [discriminate|]. split; [intros ? ? [= <- _]; auto | discriminate]. }
  destruct (_ || _).
  { split; [discriminate|]. split; [intros ? ? [= <- _]; auto | intros; assumption]. }
  destruct (Tokens.getTokensConfig _ _ _ _) as [tokens|er] eqn:Etok.
  2: { split; [discriminate|]. split; [intros ? ? [= <- _]; auto | discriminate]. }
  destruct (Js.truthy (Config.tokenAddress _ _ _)) eqn:Eaddr; cbn [negb].
  2: { split; [discriminate|]. split; [intros ? ? [= <- _]; auto | intros; assumption]. }
  destruct (Config.getNetworkConfig _ _ _ (Js.or_else (src rq) _)) as [srcConfig|er].
  2: { split; [discriminate|]. split; [intros ? ? [= <- _]; auto | discriminate]. }
  destruct (Config.getNetworkConfig _ _ _ (Js.or_else (dst rq) _))
    as [dstConfig|er] eqn:Edst.
  2: { split; [discriminate|]. split; [intros ? ? [= <- _]; auto | discriminate]. }
  destruct (buildSendParam _ _ _ _ _ _ _ _ _ _) as [sp|er] eqn:Esp.
  2: { split; [discriminate|]. split; [intros ? ? [= <- _]; auto | discriminate]. }
  destruct (Send.w_quoteSend w sp) as [fee|er] eqn:Eq.
  2: { split; [discriminate|]. split; [intros ? ? [= <- _]; auto | discriminate]. }
  split; [|split; discriminate].
  intros s [= <-]. exists rq, tokens, dstConfig, sp, fee.
  repeat split; try assumption; try reflexivity.
  - revert Esp. unfold buildSendParam. rewrite Edst.
    destruct (parseUnits _ _); [|discriminate]. intros [= <-]. reflexivity.
  - revert Esp. unfold buildSendParam. rewrite Edst. cbn [Js.nullish].
    destruct (parseUnits _ _); [|discriminate]. intros [= <-]. reflexivity.
  - apply decimals_nonzero.
Qed.

(** X30. The estimate quotes what the send flow will send: for a token
    that is not a native-asset adapter both settle on the same decimals
    (for an adapter the flow uses 18 without asking); the flow's extra
    options are the route's combined options, or the local receive option
    when those are the empty string; and for the same networks, amount,
    decimals and options the two send parameters differ in the receiver
    only. *)
Theorem estimate_agrees_with_send (w : Send.World) (pg : Send.Page) (dstEid : Z) :
  (Send.usingNativeAdapter pg = false -> Send.decimalsOf w pg = decimals w)
  /\ (Send.usingNativeAdapter pg = true -> Send.decimalsOf w pg = 18)
  /\ (forall opts,
        Send.result (Send.resolveOptions buildLzReceiveOptions w dstEid) = Send.Val opts ->
        Js.or_else (Some (snd opts)) (fst opts)
        = Js.or_else (Some (options buildLzReceiveOptions w dstEid))
            (buildLzReceiveOptions 200000 0))
  /\ (forall srcKey dstKey amt receiver d o sp sp',
        buildSendParam Number_ parseNetworksJson parseUnits e srcKey dstKey amt
          receiver d o = Js.Value sp ->
        buildSendParam Number_ parseNetworksJson parseUnits e srcKey dstKey amt
          zeroAddress d o = Js.Value sp' ->
        Contracts.dstEid sp = Contracts.dstEid sp'
        /\ amountLD sp = amountLD sp' /\ minAmountLD sp = minAmountLD sp'
        /\ extraOptions sp = extraOptions sp'
        /\ composeMsg sp = composeMsg sp' /\ oftCmd sp = oftCmd sp').
Proof.
  split; [|split; [|split]].
  - intros Hn. unfold Send.decimalsOf, Send.resolveDecimals, decimals, Send.call,
      Send.emit, Send.lift.
    destruct (Send.w_token w) as [u|er]; cbn; [|reflexivity].
    rewrite Hn. cbn. destruct (Send.w_decimals w u); reflexivity.
  - intros Hn. unfold Send.decimalsOf, Send.resolveDecimals, Send.call,
      Send.emit, Send.lift.
    destruct (Send.w_token w) as [u|er]; cbn; [|reflexivity].
    rewrite Hn. reflexivity.
  - intros opts. unfold Send.resolveOptions, options, Send.call, Send.emit, Send.lift.
    destruct (Send.w_SEND w) as [mt|er]; cbn; [|intros [= <-]; reflexivity].
    destruct (Send.w_enforcedOptions w dstEid mt) as [en|er]; cbn;
      [|intros [= <-]; reflexivity].
    destruct (Send.w_combineOptions w dstEid mt (buildLzReceiveOptions 200000 0));
      cbn; intros [= <-]; reflexivity.
  - intros srcKey dstKey amt receiver d o sp sp'. unfold buildSendParam.
    destruct (Config.getNetworkConfig _ _ _ _); [|discriminate].
    destruct (parseUnits _ _); [|discriminate].
    intros [= <-] [= <-]. repeat split.
Qed.

End FeeFacts.

Lemma estimate_fee_answers_witness :
  EstimateFee.POST Examples.Number_ Examples.parseNetworksJson Samples.parseTokensJson
    Examples.parseUnits Examples.buildLzReceiveOptions Samples.formatEther
    Examples.env0 Samples.worldQuoteFails (Js.Value Samples.feeRequestNoAmount)
  = EstimateFee.Failure 400 "Missing required parameters".
Proof.
  destruct (estimate_fee_answers Examples.Number_ Examples.parseNetworksJson
              Samples.parseTokensJson Examples.parseUnits
              Examples.buildLzReceiveOptions Samples.formatEther Examples.env0
              Examples.world0 (Js.Value Samples.feeRequestNoAmount)) as (_ & _ & H).
  apply H. reflexivity.
Defined.

Lemma estimate_agrees_with_send_witness :
  Send.decimalsOf Examples.world0 (Examples.pageWith "default" "1")
  = EstimateFee.decimals Examples.world0.
Proof.
  destruct (estimate_agrees_with_send Examples.Number_ Examples.parseNetworksJson
              Examples.parseUnits Examples.buildLzReceiveOptions Examples.env0
              Examples.world0 (Examples.pageWith "default" "1") 40161) as [H _].
  apply H. reflexivity.
Defined.
